(** * DialogBrain Cookie Sync: the background service worker

    A shallow embedding of [background.js]: the cookie-change listener with
    its debounce timers, the two sync routines, the internal and the
    external message handlers, and the properties the specification states
    about them.

    The service worker is single-threaded.  Its asynchronous functions are
    embedded as programs over an effect signature ([Prog]), one node per
    interaction with the browser (storage, cookie store, network, the
    status table, the reply callback); the listeners that never await are
    plain functions on the worker's state.  [run] interprets a program to
    completion in one go, and [step] and [exec] take every routine to its
    end before the next thing happens: two runs do not overlap there.
    The worker itself gives way at every await.  What a sync routine does
    whatever happens between its awaits is the subject of [performed],
    which answers each effect arbitrarily, and [play] is the worker with
    its routines in flight, taking turns.

    Stored values, message tokens and the [account_id] and [status] of a
    response body are strings, as the interface of the backend has them;
    a missing property is [None].  The browser's own stores (storage,
    cookies) always answer; the network may fail at every await on it:
    [fetch] may reject, and so may reading the body of a response. *)

From Stdlib Require Import NArith String Ascii List Bool DecimalString Permutation Lia.
From Stdlib Require Import ZArith.
From stdpp Require Import base option list gmap strings.

Local Open Scope string_scope.
Local Open Scope N_scope.

(* ===================================================================== *)
(** ** JavaScript values                                                   *)
(* ===================================================================== *)

(** The values that cross the message channels and the network. *)
#[warnings="-register-all"]
Inductive JSValue : Type :=
| JNull
| JBool (b : bool)
| JStr (s : string)
| JObj (fields : list (string * JSValue)).

(** A property that may be missing ([undefined]) or hold a string.
    [truthy v] is JavaScript's [!!v]: a missing property and the empty
    string are falsy. *)
Definition truthy (v : option string) : bool :=
  match v with
  | Some s => negb (String.eqb s "")
  | None => false
  end.

(** [v || null] *)
Definition or_null (v : option string) : option string :=
  if truthy v then v else None.

(** [v || d] *)
Definition or_default (v : option string) (d : string) : string :=
  match v with
  | Some s => if String.eqb s "" then d else s
  | None => d
  end.

(** [`${v}`] in a template literal. *)
Definition template (v : option string) : string :=
  match v with
  | Some s => s
  | None => "undefined"
  end.

(** [`${n}`] for a number that is a natural. *)
Definition template_num (n : N) : string :=
  NilZero.string_of_uint (N.to_uint n).

Definition js_opt (v : option string) : JSValue :=
  match v with
  | Some s => JStr s
  | None => JNull
  end.

(** An object literal whose properties are strings or [null]. *)
Definition Bundle : Type := list (string * option string).

(** [o.key] on such an object. *)
Fixpoint js_get (o : Bundle) (key : string) : option string :=
  match o with
  | [] => None
  | (k, v) :: rest => if String.eqb k key then v else js_get rest key
  end.

Definition bundle_to_js (o : Bundle) : JSValue :=
  JObj (map (fun kv => (fst kv, js_opt (snd kv))) o).

(** The outcome of an awaited promise. *)
Inductive Settled (A : Type) : Type :=
| Resolved (a : A)
| Rejected (message : string).
Arguments Resolved {A} a.
Arguments Rejected {A} message.

(* ===================================================================== *)
(** ** Configuration                                                       *)
(* ===================================================================== *)

Module CONFIG.

Definition PROD_API_URL : string := "https://api.dialogbrain.com".
Definition DEV_API_URL : string := "http://localhost:8000".
Definition IS_DEV : bool := false.
Definition DEBOUNCE_MS : N := 2000.
Definition FALLBACK_SYNC_HOURS : N := 6.

End CONFIG.

Definition getApiUrl : string :=
  if CONFIG.IS_DEV then CONFIG.DEV_API_URL else CONFIG.PROD_API_URL.

Definition INSTAGRAM_COOKIES : list string :=
  ["sessionid"; "csrftoken"; "ds_user_id"; "mid"].
Definition LINKEDIN_COOKIES : list string :=
  ["li_at"; "li_a"; "JSESSIONID"].

Inductive Platform : Type := Instagram | LinkedIn.

#[global] Instance Platform_eq_dec : EqDecision Platform.
Proof. solve_decision. Defined.

Definition Platform_eqb (p q : Platform) : bool :=
  match p, q with
  | Instagram, Instagram | LinkedIn, LinkedIn => true
  | _, _ => false
  end.

(** The property name of a platform in [syncStatus] and [pendingSyncs]. *)
Definition platform_name (p : Platform) : string :=
  match p with
  | Instagram => "instagram"
  | LinkedIn => "linkedin"
  end.

(** The storage key of the linked account and the cookie that carries the
    platform's session. *)
Definition account_id_key (p : Platform) : string :=
  match p with
  | Instagram => "instagram_account_id"
  | LinkedIn => "linkedin_account_id"
  end.

Definition session_cookie (p : Platform) : string :=
  match p with
  | Instagram => "sessionid"
  | LinkedIn => "li_at"
  end.

(* ===================================================================== *)
(** ** Browser data                                                        *)
(* ===================================================================== *)

Record Cookie : Type := {
  name : string;
  domain : string;
  value : string;
}.

Record ChangeInfo : Type := {
  cookie : Cookie;
  removed : bool;
}.

Record Request : Type := {
  url : string;
  method : string;
  headers : list (string * string);
  body : JSValue;
}.

(** The body of a success response, as the sync routines read it:
    [data.account_id] and [data.status], each a string or missing. *)
Record ResponseData : Type := {
  account_id : option string;
  data_status : option string;
}.

(** A response: its status code, and what reading its body gives.
    [json] is [Rejected] when [response.json()] rejects or its result
    is not an object whose properties can be read. *)
Record Response : Type := {
  resp_status : N;
  json : Settled ResponseData;
  text : Settled string;
}.

(** [response.ok] *)
Definition ok (r : Response) : bool :=
  (200 <=? resp_status r) && (resp_status r <=? 299).

Record SyncStatus : Type := {
  syncing : bool;
  lastSync : option string;
  error : option string;
  status : option string;
}.

Definition status_to_js (s : SyncStatus) : JSValue :=
  JObj ([("syncing", JBool (syncing s));
         ("lastSync", js_opt (lastSync s));
         ("error", js_opt (error s))]
        ++ match status s with
           | Some v => [("status", JStr v)]
           | None => []
           end).

Record Message : Type := {
  type : string;
  platform : option string;
  token : string;
}.

Record Sender : Type := {
  origin : option string;
}.

(* ===================================================================== *)
(** ** Effects and programs                                                *)
(* ===================================================================== *)

Inductive Eff : Type -> Type :=
| StorageGet (keys : list string) : Eff (gmap string string)
| StorageSet (key val : string) : Eff unit
| StorageRemove (keys : list string) : Eff unit
| CookiesGet (url name : string) : Eff (option Cookie)
| UserAgent : Eff string
| Fetch (req : Request) : Eff (Settled Response)
| ToISOString : Eff string
| StatusRead (p : Platform) : Eff SyncStatus
| StatusAssign (p : Platform) (s : SyncStatus) : Eff unit
| StatusSetSyncing (p : Platform) (b : bool) : Eff unit
| ManifestVersion : Eff string
| SendResponse (v : JSValue) : Eff unit.

Inductive Prog (A : Type) : Type :=
| Ret (a : A)
| Vis (X : Type) (e : Eff X) (k : X -> Prog A).
Arguments Ret {A} a.
Arguments Vis {A X} e k.

Fixpoint bind {A B : Type} (m : Prog A) (f : A -> Prog B) : Prog B :=
  match m with
  | Ret a => f a
  | Vis e k => Vis e (fun x => bind (k x) f)
  end.

Definition perform {X : Type} (e : Eff X) : Prog X := Vis e Ret.

Notation "'do' x <- m ; k" := (bind m (fun x => k))
  (at level 10, x name, m at level 100, k at level 200).
Notation "m ;; k" := (bind m (fun _ => k))
  (at level 100, k at level 200, right associativity).

(** [await] inside a [try] block: a rejection skips the rest of the block. *)
Definition await_then {X A : Type} (m : Prog (Settled X))
    (k : X -> Prog (Settled A)) : Prog (Settled A) :=
  do r <- m;
  match r with
  | Resolved x => k x
  | Rejected msg => Ret (Rejected msg)
  end.

Notation "'await' x <- m ; k" := (await_then m (fun x => k))
  (at level 10, x name, m at level 100, k at level 200).

(** [try { block } catch (error) { handler error.message }] *)
Definition try_catch (block : Prog (Settled unit))
    (handler : string -> Prog unit) : Prog unit :=
  do r <- block;
  match r with
  | Resolved _ => Ret tt
  | Rejected msg => handler msg
  end.

(** [Promise.all] over a list of programs, in order. *)
Fixpoint promise_all {A : Type} (ps : list (Prog A)) : Prog (list A) :=
  match ps with
  | [] => Ret []
  | p :: rest =>
      do x <- p;
      do xs <- promise_all rest;
      Ret (x :: xs)
  end.

(* ===================================================================== *)
(** ** Instagram cookie sync                                               *)
(* ===================================================================== *)

(** [cookies[i]?.value || null] *)
Definition value_or_null (cookies : list (option Cookie)) (i : nat) : option string :=
  or_null (match cookies !! i with
           | Some (Some c) => Some (value c)
           | _ => None
           end).

Definition getInstagramCookies : Prog Bundle :=
  do cookies <- promise_all
       (map (fun name => perform (CookiesGet "https://www.instagram.com" name))
            INSTAGRAM_COOKIES);
  do user_agent <- perform UserAgent;
  Ret [("sessionid", value_or_null cookies 0);
       ("csrftoken", value_or_null cookies 1);
       ("ds_user_id", value_or_null cookies 2);
       ("mid", value_or_null cookies 3);
       ("user_agent", Some user_agent)].

Definition syncInstagramCookies : Prog unit :=
  do storage <- perform (StorageGet ["auth_token"; "instagram_account_id"]);
  let authToken := storage !! "auth_token" in
  if negb (truthy authToken) then
    perform (StatusAssign Instagram
      {| syncing := false; lastSync := None;
         error := Some "Not logged in"; status := None |})
  else
  do cookies <- getInstagramCookies;
  if negb (truthy (js_get cookies "sessionid")) then
    perform (StatusAssign Instagram
      {| syncing := false; lastSync := None;
         error := Some "Not logged in to Instagram"; status := None |})
  else
  perform (StatusSetSyncing Instagram true);;
  try_catch
    (let apiUrl := getApiUrl in
     let method := "POST" in
     let endpoint :=
       if truthy (storage !! "instagram_account_id") then
         apiUrl +:+ "/api/channels/instagram/accounts/"
           +:+ template (storage !! "instagram_account_id") +:+ "/sync-cookie"
       else
         apiUrl +:+ "/api/channels/instagram/accounts/connect/cookie" in
     await response <- perform (Fetch
       {| url := endpoint;
          method := method;
          headers := [("Content-Type", "application/json");
                      ("Authorization", "Bearer " +:+ template authToken)];
          body := bundle_to_js cookies |});
     if ok response then
       await data <- Ret (json response);
       (if truthy (account_id data)
           && negb (truthy (storage !! "instagram_account_id"))
        then perform (StorageSet "instagram_account_id" (template (account_id data)))
        else Ret tt);;
       do now <- perform ToISOString;
       perform (StatusAssign Instagram
         {| syncing := false; lastSync := Some now; error := None;
            status := Some (or_default (data_status data) "connected") |});;
       Ret (Resolved tt)
     else
       await errorText <- Ret (text response);
       perform (StatusAssign Instagram
         {| syncing := false; lastSync := None;
            error := Some ("HTTP " +:+ template_num (resp_status response));
            status := None |});;
       Ret (Resolved tt))
    (fun message =>
       perform (StatusAssign Instagram
         {| syncing := false; lastSync := None;
            error := Some message; status := None |})).

(* ===================================================================== *)
(** ** LinkedIn cookie sync                                                *)
(* ===================================================================== *)

Definition getLinkedInCookies : Prog Bundle :=
  do cookies <- promise_all
       [perform (CookiesGet "https://www.linkedin.com" "li_at");
        perform (CookiesGet "https://www.linkedin.com" "li_a");
        perform (CookiesGet "https://www.linkedin.com" "JSESSIONID")];
  do user_agent <- perform UserAgent;
  Ret [("li_at", value_or_null cookies 0);
       ("li_a", value_or_null cookies 1);
       ("jsessionid", value_or_null cookies 2);
       ("user_agent", Some user_agent)].

Definition syncLinkedInCookies : Prog unit :=
  do storage <- perform (StorageGet ["auth_token"; "linkedin_account_id"]);
  let authToken := storage !! "auth_token" in
  if negb (truthy authToken) then
    perform (StatusAssign LinkedIn
      {| syncing := false; lastSync := None;
         error := Some "Not logged in"; status := None |})
  else
  do cookies <- getLinkedInCookies;
  if negb (truthy (js_get cookies "li_at")) then
    perform (StatusAssign LinkedIn
      {| syncing := false; lastSync := None;
         error := Some "Not logged in to LinkedIn"; status := None |})
  else
  perform (StatusSetSyncing LinkedIn true);;
  try_catch
    (let apiUrl := getApiUrl in
     let endpoint :=
       if truthy (storage !! "linkedin_account_id") then
         apiUrl +:+ "/api/channels/linkedin/accounts/"
           +:+ template (storage !! "linkedin_account_id") +:+ "/sync-cookie"
       else
         apiUrl +:+ "/api/channels/linkedin/accounts/connect/cookie" in
     await response <- perform (Fetch
       {| url := endpoint;
          method := "POST";
          headers := [("Content-Type", "application/json");
                      ("Authorization", "Bearer " +:+ template authToken)];
          body := bundle_to_js cookies |});
     if ok response then
       await data <- Ret (json response);
       (if truthy (account_id data)
           && negb (truthy (storage !! "linkedin_account_id"))
        then perform (StorageSet "linkedin_account_id" (template (account_id data)))
        else Ret tt);;
       do now <- perform ToISOString;
       perform (StatusAssign LinkedIn
         {| syncing := false; lastSync := Some now; error := None;
            status := Some (or_default (data_status data) "connected") |});;
       Ret (Resolved tt)
     else
       perform (StatusAssign LinkedIn
         {| syncing := false; lastSync := None;
            error := Some ("HTTP " +:+ template_num (resp_status response));
            status := None |});;
       Ret (Resolved tt))
    (fun message =>
       perform (StatusAssign LinkedIn
         {| syncing := false; lastSync := None;
            error := Some message; status := None |})).

(** The sync routine of a platform. *)
Definition sync (p : Platform) : Prog unit :=
  match p with
  | Instagram => syncInstagramCookies
  | LinkedIn => syncLinkedInCookies
  end.

(* ===================================================================== *)
(** ** Message handlers                                                    *)
(* ===================================================================== *)

(** [v === s] *)
Definition strict_eq (v : option string) (s : string) : bool :=
  match v with
  | Some x => String.eqb x s
  | None => false
  end.

(** [v?.startsWith(s)] as a condition *)
Definition starts_with (v : option string) (s : string) : bool :=
  match v with
  | Some x => String.prefix s x
  | None => false
  end.

(** [chrome.runtime.onMessage]: the popup's channel.  The result is the
    listener's return value, [true] or ([false]) undefined. *)
Definition onMessage (message : Message) : Prog bool :=
  if String.eqb (type message) "GET_STATUS" then
    do instagram <- perform (StatusRead Instagram);
    do linkedin <- perform (StatusRead LinkedIn);
    perform (SendResponse (JObj [("instagram", status_to_js instagram);
                                 ("linkedin", status_to_js linkedin)]));;
    Ret true
  else if String.eqb (type message) "MANUAL_SYNC" then
    (if strict_eq (platform message) "instagram" then
       syncInstagramCookies;;
       do st <- perform (StatusRead Instagram);
       perform (SendResponse (JObj [("success", JBool true);
                                    ("status", status_to_js st)]))
     else if strict_eq (platform message) "linkedin" then
       syncLinkedInCookies;;
       do st <- perform (StatusRead LinkedIn);
       perform (SendResponse (JObj [("success", JBool true);
                                    ("status", status_to_js st)]))
     else Ret tt);;
    Ret true
  else if String.eqb (type message) "SET_AUTH_TOKEN" then
    perform (StorageSet "auth_token" (token message));;
    perform (SendResponse (JObj [("success", JBool true)]));;
    Ret true
  else if String.eqb (type message) "LOGOUT" then
    perform (StorageRemove ["auth_token"; "instagram_account_id"; "linkedin_account_id"]);;
    perform (StatusAssign Instagram
      {| syncing := false; lastSync := None;
         error := Some "Not logged in"; status := None |});;
    perform (StatusAssign LinkedIn
      {| syncing := false; lastSync := None;
         error := Some "Not logged in"; status := None |});;
    perform (SendResponse (JObj [("success", JBool true)]));;
    Ret true
  else if String.eqb (type message) "CHECK_COOKIES" then
    do instagram <- getInstagramCookies;
    do linkedin <- getLinkedInCookies;
    perform (SendResponse
      (JObj [("instagram", JObj [("hasSession", JBool (truthy (js_get instagram "sessionid")))]);
             ("linkedin", JObj [("hasSession", JBool (truthy (js_get linkedin "li_at")))])]));;
    Ret true
  else Ret false.

Definition allowedOrigins : list string :=
  ["https://dialogbrain.com"; "https://app.dialogbrain.com"; "http://localhost:3000"].

(** [chrome.runtime.onMessageExternal]: the channel of web pages. *)
Definition onMessageExternal (message : Message) (sender : Sender) : Prog bool :=
  if negb (existsb (fun origin' => starts_with (origin sender) origin') allowedOrigins) then
    perform (SendResponse (JObj [("error", JStr "Unauthorized origin")]));;
    Ret false
  else if String.eqb (type message) "PING" then
    do version <- perform ManifestVersion;
    perform (SendResponse (JObj [("installed", JBool true); ("version", JStr version)]));;
    Ret true
  else if String.eqb (type message) "GET_STATUS" then
    do version <- perform ManifestVersion;
    do instagram <- perform (StatusRead Instagram);
    do linkedin <- perform (StatusRead LinkedIn);
    perform (SendResponse (JObj [("installed", JBool true); ("version", JStr version);
                                 ("instagram", status_to_js instagram);
                                 ("linkedin", status_to_js linkedin)]));;
    Ret true
  else if String.eqb (type message) "SET_AUTH_TOKEN" then
    perform (StorageSet "auth_token" (token message));;
    perform (SendResponse (JObj [("success", JBool true)]));;
    Ret true
  else if String.eqb (type message) "CHECK_COOKIES" then
    do instagram <- getInstagramCookies;
    do linkedin <- getLinkedInCookies;
    perform (SendResponse
      (JObj [("installed", JBool true);
             ("instagram", JObj [("hasSession", JBool (truthy (js_get instagram "sessionid")))]);
             ("linkedin", JObj [("hasSession", JBool (truthy (js_get linkedin "li_at")))])]));;
    Ret true
  else if String.eqb (type message) "TRIGGER_SYNC" then
    (if strict_eq (platform message) "instagram" || strict_eq (platform message) "all"
     then syncInstagramCookies else Ret tt);;
    (if strict_eq (platform message) "linkedin" || strict_eq (platform message) "all"
     then syncLinkedInCookies else Ret tt);;
    do instagram <- perform (StatusRead Instagram);
    do linkedin <- perform (StatusRead LinkedIn);
    perform (SendResponse (JObj [("success", JBool true);
                                 ("instagram", status_to_js instagram);
                                 ("linkedin", status_to_js linkedin)]));;
    Ret true
  else Ret false.

(** [chrome.alarms.onAlarm] *)
Definition onAlarm (alarm_name : string) : Prog unit :=
  if String.eqb alarm_name "fallbackSync" then
    syncInstagramCookies;;
    syncLinkedInCookies
  else Ret tt.

(* ===================================================================== *)
(** ** The worker's state and its environment                              *)
(* ===================================================================== *)

Record PerPlatform (A : Type) : Type := {
  instagram : A;
  linkedin : A;
}.
Arguments instagram {A} _.
Arguments linkedin {A} _.

Definition get {A : Type} (p : Platform) (t : PerPlatform A) : A :=
  match p with
  | Instagram => instagram t
  | LinkedIn => linkedin t
  end.

Definition set {A : Type} (p : Platform) (a : A) (t : PerPlatform A) : PerPlatform A :=
  match p with
  | Instagram => {| instagram := a; linkedin := linkedin t |}
  | LinkedIn => {| instagram := instagram t; linkedin := a |}
  end.

(** What a timer runs when it fires: the debounce callback of a platform,
    or the delayed initial sync of [onInstalled]. *)
Inductive Callback : Type :=
| DebouncedSync (p : Platform)
| InitialSync.

Record Timer : Type := {
  timer_id : N;
  due : N;
  callback : Callback;
}.

(** The state the worker owns: [chrome.storage.local], the two
    module-level tables, the timers it has set, and the time. *)
Record World : Type := {
  storage : gmap string string;
  syncStatus : PerPlatform SyncStatus;
  pendingSyncs : PerPlatform (option N);
  timers : list Timer;
  next_timer_id : N;
  clock : N;
}.

(** What the worker does not own: the browser's cookie store and clock
    rendering, the backend's answers, the user agent and the manifest. *)
Record Env : Type := {
  cookies_at : N -> string -> string -> option Cookie;
  fetch_at : N -> Request -> Settled Response;
  iso_at : N -> string;
  userAgent : string;
  version : string;
}.

(** What an outside observer sees of a run. *)
Inductive Obs : Type :=
| ObsFetch (req : Request)
| ObsReply (v : JSValue)
| ObsFired (at_time : N) (cb : Callback).

Definition with_storage (s : gmap string string) (w : World) : World :=
  {| storage := s; syncStatus := syncStatus w; pendingSyncs := pendingSyncs w;
     timers := timers w; next_timer_id := next_timer_id w; clock := clock w |}.

Definition with_syncStatus (s : PerPlatform SyncStatus) (w : World) : World :=
  {| storage := storage w; syncStatus := s; pendingSyncs := pendingSyncs w;
     timers := timers w; next_timer_id := next_timer_id w; clock := clock w |}.

(** [chrome.storage.local.get(keys)]: the stored items among [keys]. *)
Definition storage_get (keys : list string) (s : gmap string string) : gmap string string :=
  foldr (fun k acc => match s !! k with
                      | Some v => <[k:=v]> acc
                      | None => acc
                      end) ∅ keys.

Definition storage_remove (keys : list string) (s : gmap string string) : gmap string string :=
  foldr delete s keys.

Definition set_syncing (b : bool) (s : SyncStatus) : SyncStatus :=
  {| syncing := b; lastSync := lastSync s; error := error s; status := status s |}.

Definition handle {X : Type} (env : Env) (e : Eff X) (w : World) : X * World * list Obs :=
  match e in Eff X return X * World * list Obs with
  | StorageGet keys => (storage_get keys (storage w), w, [])
  | StorageSet key val => (tt, with_storage (<[key:=val]> (storage w)) w, [])
  | StorageRemove keys => (tt, with_storage (storage_remove keys (storage w)) w, [])
  | CookiesGet u n => (cookies_at env (clock w) u n, w, [])
  | UserAgent => (userAgent env, w, [])
  | Fetch req => (fetch_at env (clock w) req, w, [ObsFetch req])
  | ToISOString => (iso_at env (clock w), w, [])
  | StatusRead p => (get p (syncStatus w), w, [])
  | StatusAssign p s => (tt, with_syncStatus (set p s (syncStatus w)) w, [])
  | StatusSetSyncing p b =>
      (tt, with_syncStatus (set p (set_syncing b (get p (syncStatus w))) (syncStatus w)) w, [])
  | ManifestVersion => (version env, w, [])
  | SendResponse v => (tt, w, [ObsReply v])
  end.

Fixpoint run {A : Type} (env : Env) (m : Prog A) (w : World) : A * World * list Obs :=
  match m with
  | Ret a => (a, w, [])
  | Vis e k =>
      let '(x, w1, o1) := handle env e w in
      let '(a, w2, o2) := run env (k x) w1 in
      (a, w2, (o1 ++ o2)%list)
  end.

(* ===================================================================== *)
(** ** Timers and the cookie-change listener                               *)
(* ===================================================================== *)

Definition with_timers (ts : list Timer) (w : World) : World :=
  {| storage := storage w; syncStatus := syncStatus w; pendingSyncs := pendingSyncs w;
     timers := ts; next_timer_id := next_timer_id w; clock := clock w |}.

Definition with_pendingSyncs (ps : PerPlatform (option N)) (w : World) : World :=
  {| storage := storage w; syncStatus := syncStatus w; pendingSyncs := ps;
     timers := timers w; next_timer_id := next_timer_id w; clock := clock w |}.

Definition with_clock (t : N) (w : World) : World :=
  {| storage := storage w; syncStatus := syncStatus w; pendingSyncs := pendingSyncs w;
     timers := timers w; next_timer_id := next_timer_id w; clock := t |}.

(** [setTimeout(cb, ms)]: a fresh positive handle; the timer is due [ms]
    after now. *)
Definition setTimeout (cb : Callback) (ms : N) (w : World) : N * World :=
  (next_timer_id w,
   {| storage := storage w; syncStatus := syncStatus w; pendingSyncs := pendingSyncs w;
      timers := (timers w ++ [{| timer_id := next_timer_id w;
                                 due := clock w + ms;
                                 callback := cb |}])%list;
      next_timer_id := next_timer_id w + 1; clock := clock w |}).

(** [clearTimeout(id)]: nothing happens when no such timer is pending. *)
Definition clearTimeout (id : N) (w : World) : World :=
  with_timers (List.filter (fun t => negb (timer_id t =? id)) (timers w)) w.

(** [s.includes(sub)] *)
Fixpoint includes (s sub : string) : bool :=
  String.prefix sub s
  || match s with
     | EmptyString => false
     | String _ rest => includes rest sub
     end.

(** [names.includes(n)] *)
Definition list_includes (names : list string) (n : string) : bool :=
  existsb (String.eqb n) names.

(** The condition under which the listener reacts for a platform. *)
Definition concerns (p : Platform) (changeInfo : ChangeInfo) : bool :=
  match p with
  | Instagram =>
      includes (domain (cookie changeInfo)) "instagram.com"
      && list_includes INSTAGRAM_COOKIES (name (cookie changeInfo))
  | LinkedIn =>
      includes (domain (cookie changeInfo)) "linkedin.com"
      && list_includes LINKEDIN_COOKIES (name (cookie changeInfo))
  end.

(** The debounce of one platform, which the listener spells out once for
    each: clear the pending timer, if [pendingSyncs] names one, and set a
    new one. *)
Definition debounce (p : Platform) (w : World) : World :=
  let w1 :=
    match get p (pendingSyncs w) with
    | Some id => if id =? 0 then w else clearTimeout id w
    | None => w
    end in
  let '(id, w2) := setTimeout (DebouncedSync p) CONFIG.DEBOUNCE_MS w1 in
  with_pendingSyncs (set p (Some id) (pendingSyncs w2)) w2.

(** [chrome.cookies.onChanged] *)
Definition onChanged (changeInfo : ChangeInfo) (w : World) : World :=
  let w1 := if concerns Instagram changeInfo then debounce Instagram w else w in
  if concerns LinkedIn changeInfo then debounce LinkedIn w1 else w1.

(** [chrome.runtime.onInstalled] *)
Definition onInstalled (w : World) : World :=
  snd (setTimeout InitialSync 5000 w).

Definition callback_prog (cb : Callback) : Prog unit :=
  match cb with
  | DebouncedSync Instagram => syncInstagramCookies
  | DebouncedSync LinkedIn => syncLinkedInCookies
  | InitialSync => syncInstagramCookies;; syncLinkedInCookies
  end.

(** A timer fires: it is no longer pending, the time is its due time, and
    its callback runs. *)
Definition fire (env : Env) (t : Timer) (w : World) : World * list Obs :=
  let w1 := with_clock (N.max (clock w) (due t)) (clearTimeout (timer_id t) w) in
  let '(_, w2, obs) := run env (callback_prog (callback t)) w1 in
  (w2, ObsFired (clock w1) (callback t) :: obs).

Fixpoint fire_all (env : Env) (ts : list Timer) (w : World) : World * list Obs :=
  match ts with
  | [] => (w, [])
  | t :: rest =>
      let '(w1, o1) := fire env t w in
      let '(w2, o2) := fire_all env rest w1 in
      (w2, (o1 ++ o2)%list)
  end.

(** Timers fire in the order of their due times, and among equal due
    times in the order they were set. *)
Fixpoint insert_by_due (t : Timer) (ts : list Timer) : list Timer :=
  match ts with
  | [] => [t]
  | t' :: rest => if due t <? due t' then t :: ts else t' :: insert_by_due t rest
  end.

Definition sort_by_due (ts : list Timer) : list Timer :=
  foldl (fun acc t => insert_by_due t acc) [] ts.

(** [d] milliseconds pass: every timer due by then fires; the callbacks
    set no timers, so the timers to fire are those pending now. *)
Definition elapse (env : Env) (d : N) (w : World) : World * list Obs :=
  let target := clock w + d in
  let due_now := sort_by_due (List.filter (fun t => due t <=? target) (timers w)) in
  let '(w1, obs) := fire_all env due_now w in
  (with_clock target w1, obs).

(* ===================================================================== *)
(** ** The worker as a transition system                                   *)
(* ===================================================================== *)

Definition initial_syncStatus : PerPlatform SyncStatus :=
  {| instagram := {| syncing := false; lastSync := None; error := None; status := None |};
     linkedin := {| syncing := false; lastSync := None; error := None; status := None |} |}.

Definition initial_pendingSyncs : PerPlatform (option N) :=
  {| instagram := None; linkedin := None |}.

(** The worker at its first start. *)
Definition initial_world : World :=
  {| storage := ∅; syncStatus := initial_syncStatus; pendingSyncs := initial_pendingSyncs;
     timers := []; next_timer_id := 1; clock := 0 |}.

(** The worker is stopped and started again: the module-level state is
    initialised anew and the timers are lost; the storage persists. *)
Definition restart (w : World) : World :=
  {| storage := storage w; syncStatus := initial_syncStatus;
     pendingSyncs := initial_pendingSyncs;
     timers := []; next_timer_id := 1; clock := clock w |}.

Inductive Action : Type :=
| Elapse (d : N)
| CookieChanged (changeInfo : ChangeInfo)
| Alarm (alarm_name : string)
| Installed
| MessageInternal (message : Message)
| MessageExternal (message : Message) (sender : Sender)
| Restart.

(** One thing happens, and the routines it starts are taken to their end
    before the next thing does: the worker as long as no two routines
    overlap.  [play], further down, lets them overlap. *)
Definition step (env : Env) (a : Action) (w : World) : World * list Obs :=
  match a with
  | Elapse d => elapse env d w
  | CookieChanged changeInfo => (onChanged changeInfo w, [])
  | Alarm alarm_name => let '(_, w1, obs) := run env (onAlarm alarm_name) w in (w1, obs)
  | Installed => (onInstalled w, [])
  | MessageInternal message =>
      let '(_, w1, obs) := run env (onMessage message) w in (w1, obs)
  | MessageExternal message sender =>
      let '(_, w1, obs) := run env (onMessageExternal message sender) w in (w1, obs)
  | Restart => (restart w, [])
  end.

Fixpoint exec (env : Env) (actions : list Action) (w : World) : World * list Obs :=
  match actions with
  | [] => (w, [])
  | a :: rest =>
      let '(w1, o1) := step env a w in
      let '(w2, o2) := exec env rest w1 in
      (w2, (o1 ++ o2)%list)
  end.

Inductive reachable (env : Env) : World -> Prop :=
| reachable_initial : reachable env initial_world
| reachable_step (a : Action) (w : World) :
    reachable env w -> reachable env (fst (step env a w)).

(* ===================================================================== *)
(** ** What one sync run does                                              *)
(* ===================================================================== *)

(** The site whose cookies a platform's routine reads. *)
Definition site (p : Platform) : string :=
  match p with
  | Instagram => "https://www.instagram.com"
  | LinkedIn => "https://www.linkedin.com"
  end.

(** The value of a cookie of a platform, [None] when there is no such
    cookie or its value is empty ([?.value || null]). *)
Definition read_cookie (env : Env) (t : N) (p : Platform) (n : string) : option string :=
  or_null (value <$> cookies_at env t (site p) n).

(** The credentials a platform's routine collects at time [t]. *)
Definition bundle_at (env : Env) (t : N) (p : Platform) : Bundle :=
  match p with
  | Instagram =>
      [("sessionid", read_cookie env t Instagram "sessionid");
       ("csrftoken", read_cookie env t Instagram "csrftoken");
       ("ds_user_id", read_cookie env t Instagram "ds_user_id");
       ("mid", read_cookie env t Instagram "mid");
       ("user_agent", Some (userAgent env))]
  | LinkedIn =>
      [("li_at", read_cookie env t LinkedIn "li_at");
       ("li_a", read_cookie env t LinkedIn "li_a");
       ("jsessionid", read_cookie env t LinkedIn "JSESSIONID");
       ("user_agent", Some (userAgent env))]
  end.

(** The platform's session credential is there at time [t]. *)
Definition has_session (env : Env) (t : N) (p : Platform) : bool :=
  truthy (read_cookie env t p (session_cookie p)).

(** The worker holds an auth token. *)
Definition has_token (w : World) : bool :=
  truthy (storage w !! "auth_token").

(** The two endpoints of a platform. *)
Definition connect_endpoint (p : Platform) : string :=
  getApiUrl +:+ "/api/channels/" +:+ platform_name p +:+ "/accounts/connect/cookie".

Definition refresh_endpoint (p : Platform) (id : string) : string :=
  getApiUrl +:+ "/api/channels/" +:+ platform_name p +:+ "/accounts/" +:+ id +:+ "/sync-cookie".

(** The request a routine sends from a world. *)
Definition sync_request (env : Env) (p : Platform) (w : World) : Request :=
  {| url := if truthy (storage w !! account_id_key p)
            then refresh_endpoint p (template (storage w !! account_id_key p))
            else connect_endpoint p;
     method := "POST";
     headers := [("Content-Type", "application/json");
                 ("Authorization", "Bearer " +:+ template (storage w !! "auth_token"))];
     body := bundle_to_js (bundle_at env (clock w) p) |}.

(** The status every failure leaves. *)
Definition failed (message : string) : SyncStatus :=
  {| syncing := false; lastSync := None; error := Some message; status := None |}.

Definition no_session_message (p : Platform) : string :=
  match p with
  | Instagram => "Not logged in to Instagram"
  | LinkedIn => "Not logged in to LinkedIn"
  end.

Definition assign (p : Platform) (s : SyncStatus) (w : World) : World :=
  with_syncStatus (set p s (syncStatus w)) w.

(** Reading the body of a response that is not ok: only the Instagram
    routine does it. *)
Definition error_body (p : Platform) (r : Response) : Settled string :=
  match p with
  | Instagram => text r
  | LinkedIn => Resolved ""
  end.

(** How a sync run ends. *)
Inductive Outcome : Type :=
| NoToken
| NoSession
| Threw (message : string)
| HttpError (r : Response)
| Synced (r : Response) (data : ResponseData).

Definition outcome (env : Env) (p : Platform) (w : World) : Outcome :=
  if negb (has_token w) then NoToken
  else if negb (has_session env (clock w) p) then NoSession
  else match fetch_at env (clock w) (sync_request env p w) with
       | Rejected message => Threw message
       | Resolved r =>
           if ok r then
             match json r with
             | Rejected message => Threw message
             | Resolved data => Synced r data
             end
           else
             match error_body p r with
             | Rejected message => Threw message
             | Resolved _ => HttpError r
             end
       end.

(** The world and the requests after a run with a given outcome. *)
Definition after (env : Env) (p : Platform) (w : World) (o : Outcome) : World * list Obs :=
  match o with
  | NoToken => (assign p (failed "Not logged in") w, [])
  | NoSession => (assign p (failed (no_session_message p)) w, [])
  | Threw message => (assign p (failed message) w, [ObsFetch (sync_request env p w)])
  | HttpError r =>
      (assign p (failed ("HTTP " +:+ template_num (resp_status r))) w,
       [ObsFetch (sync_request env p w)])
  | Synced r data =>
      (assign p {| syncing := false; lastSync := Some (iso_at env (clock w));
                   error := None;
                   status := Some (or_default (data_status data) "connected") |}
         (if truthy (account_id data) && negb (truthy (storage w !! account_id_key p))
          then with_storage (<[account_id_key p := template (account_id data)]> (storage w)) w
          else w),
       [ObsFetch (sync_request env p w)])
  end.

(** The world a run ends in, what it let the outside see, and the
    requests and replies among that. *)
Definition final {A : Type} (r : A * World * list Obs) : World := snd (fst r).
Definition observed {A : Type} (r : A * World * list Obs) : list Obs := snd r.
Definition returned {A : Type} (r : A * World * list Obs) : A := fst (fst r).

Definition requests (obs : list Obs) : list Request :=
  flat_map (fun o => match o with ObsFetch req => [req] | _ => [] end) obs.

Definition replies (obs : list Obs) : list JSValue :=
  flat_map (fun o => match o with ObsReply v => [v] | _ => [] end) obs.

(** A reply that holds nothing but booleans, at any depth. *)
Fixpoint only_booleans (v : JSValue) : bool :=
  match v with
  | JBool _ => true
  | JObj fields =>
      (fix all (l : list (string * JSValue)) : bool :=
         match l with
         | [] => true
         | (_, x) :: rest => only_booleans x && all rest
         end) fields
  | _ => false
  end.

(** The sender passes the origin check of the external channel. *)
Definition authorized (sender : Sender) : bool :=
  existsb (fun allowed => starts_with (origin sender) allowed) allowedOrigins.

(* ===================================================================== *)
(** ** Sample data                                                         *)
(* ===================================================================== *)

Definition sample_cookie (n : string) : Cookie :=
  {| name := n; domain := ".example.com"; value := "s3cr3t" |}.

(** A browser in which the session cookie of Instagram is there iff [ig],
    that of LinkedIn iff [li], and every request is answered by [answer]. *)
Definition sample_env (ig li : bool) (answer : Settled Response) : Env :=
  {| cookies_at := fun _ u n =>
       if (String.eqb u "https://www.instagram.com" && String.eqb n "sessionid" && ig)
          || (String.eqb u "https://www.linkedin.com" && String.eqb n "li_at" && li)
       then Some (sample_cookie n) else None;
     fetch_at := fun _ _ => answer;
     iso_at := fun _ => "2025-01-01T00:00:00.000Z";
     userAgent := "Mozilla/5.0";
     version := "1.0.0" |}.

Definition sample_created (id : string) : Settled Response :=
  Resolved {| resp_status := 200;
              json := Resolved {| account_id := Some id; data_status := None |};
              text := Resolved "" |}.

(** A response whose body cannot be read. *)
Definition sample_unreadable (code : N) : Settled Response :=
  Resolved {| resp_status := code;
              json := Rejected "network error";
              text := Rejected "network error" |}.

(** Another browser: every cookie is there, with another value, and the
    user agent differs. *)
Definition sample_env_other : Env :=
  {| cookies_at := fun _ _ n => Some {| name := n; domain := ".example.org"; value := "0ther" |};
     fetch_at := fun _ _ => Rejected "Failed to fetch";
     iso_at := fun _ => "2025-06-01T12:00:00.000Z";
     userAgent := "curl/8";
     version := "1.0.1" |}.

Definition sample_message (ty : string) (pl : option string) : Message :=
  {| type := ty; platform := pl; token := "token" |}.

Definition logged_in_world : World :=
  with_storage {[ "auth_token" := "token" ]} initial_world.

(** A worker that synced both platforms before and has since lost its
    token. *)
Definition connected_world : World :=
  with_syncStatus
    {| instagram := {| syncing := false; lastSync := Some "2024-12-31T23:00:00.000Z";
                       error := None; status := Some "connected" |};
       linkedin := {| syncing := false; lastSync := Some "2024-12-31T23:00:00.000Z";
                      error := None; status := Some "connected" |} |}
    initial_world.

(** The part of the reply to CHECK_COOKIES that both channels share. *)
Definition session_fields (env : Env) (t : N) : list (string * JSValue) :=
  [("instagram", JObj [("hasSession", JBool (has_session env t Instagram))]);
   ("linkedin", JObj [("hasSession", JBool (has_session env t LinkedIn))])].

(** The action is the LOGOUT message of the internal channel. *)
Definition is_logout (a : Action) : bool :=
  match a with
  | MessageInternal message => String.eqb (type message) "LOGOUT"
  | _ => false
  end.

(** Every stored account id is a non-empty string. *)
Definition ids_ok (s : gmap string string) : Prop :=
  forall p id, s !! account_id_key p = Some id -> id <> "".

(** From [s] to [s'] no stored account id was lost or changed. *)
Definition ids_kept (s s' : gmap string string) : Prop :=
  forall p id, s !! account_id_key p = Some id -> s' !! account_id_key p = Some id.

(** If the account ids of [s] are in order, [s'] has kept them all and
    its own are in order. *)
Definition safe (s s' : gmap string string) : Prop :=
  ids_ok s -> ids_kept s s' /\ ids_ok s'.

(** A browser with every cookie, whose backend hands out the account id
    'acc-1' during the first second and 'acc-2' afterwards. *)
Definition sample_env_timed : Env :=
  {| cookies_at := fun _ _ n => Some (sample_cookie n);
     fetch_at := fun t _ => sample_created (if t <? 1000 then "acc-1" else "acc-2");
     iso_at := fun _ => "2025-01-01T00:00:00.000Z";
     userAgent := "Mozilla/5.0";
     version := "1.0.0" |}.

(** The worker after a login and a first Instagram sync. *)
Definition linked_world : World :=
  fst (exec sample_env_timed
         [MessageInternal (sample_message "SET_AUTH_TOKEN" None);
          MessageInternal (sample_message "MANUAL_SYNC" (Some "instagram"));
          Elapse 5000]
         initial_world).

(* ===================================================================== *)
(** ** Debounce: what is pending and what has fired                        *)
(* ===================================================================== *)

(** The timer is a debounce timer of the platform. *)
Definition is_debounce (p : Platform) (t : Timer) : bool :=
  match callback t with
  | DebouncedSync q => Platform_eqb p q
  | InitialSync => false
  end.

(** The pending debounce timers of a platform. *)
Definition pending_debounce (p : Platform) (w : World) : list Timer :=
  List.filter (is_debounce p) (timers w).

(** The times at which a debounce timer of the platform fired, that is,
    at which the listener's callback called the platform's sync routine. *)
Definition fired (p : Platform) (obs : list Obs) : list N :=
  flat_map (fun o => match o with
                     | ObsFired t (DebouncedSync q) => if Platform_eqb p q then [t] else []
                     | _ => []
                     end) obs.

(** A burst of change notifications: a first one, then each further one
    after a gap. *)
Definition burst (first : ChangeInfo) (rest : list (N * ChangeInfo)) : list Action :=
  CookieChanged first
  :: flat_map (fun gc => [Elapse (fst gc); CookieChanged (snd gc)]) rest.

Definition total (ds : list N) : N := fold_right N.add 0 ds.

(** The timers of a world are in order: all are due in the future, their
    handles are distinct, positive and below the next handle, and a
    debounce timer of a platform is the one [pendingSyncs] names. *)
Record timers_ok (w : World) : Prop := {
  ok_future : Forall (fun t => clock w < due t) (timers w);
  ok_fresh : Forall (fun t => 0 < timer_id t /\ timer_id t < next_timer_id w) (timers w);
  ok_nodup : NoDup (map timer_id (timers w));
  ok_next : 0 < next_timer_id w;
  ok_pending : forall p, Forall (fun t => get p (pendingSyncs w) = Some (timer_id t))
                                (pending_debounce p w);
}.

(** Due times in ascending order. *)
Fixpoint ascending (ts : list Timer) : Prop :=
  match ts with
  | [] => True
  | t :: rest => Forall (fun t' => due t <= due t') rest /\ ascending rest
  end.

(** What the timers in [ts] show when they fire in this order from
    time [c]. *)
Fixpoint fire_times (c : N) (ts : list Timer) : list Obs :=
  match ts with
  | [] => []
  | t :: rest => ObsFired (N.max c (due t)) (callback t) :: fire_times (N.max c (due t)) rest
  end.

Definition is_fired (o : Obs) : bool :=
  match o with
  | ObsFired _ _ => true
  | _ => false
  end.

Definition sample_change : ChangeInfo :=
  {| cookie := {| name := "sessionid"; domain := ".instagram.com"; value := "s3cr3t" |};
     removed := false |}.

(** The timers left of [l] once those with a handle in [ids] are gone. *)
Definition cleared (ids : list N) (l : list Timer) : list Timer :=
  List.filter (fun t => negb (existsb (N.eqb (timer_id t)) ids)) l.

(* ===================================================================== *)
(** ** Runs whose awaits are answered arbitrarily                          *)
(* ===================================================================== *)

(** An effect, whatever the type of its answer. *)
Inductive AnyEff : Type :=
| any_eff {X : Type} (e : Eff X).

(** The answers a run gets: its [n]-th effect [e] is answered by
    [answers n _ e].  Between two awaits of a routine other tasks of the
    worker run, so the answers need not fit one state of the storage or
    of the status table. *)
Definition Answers : Type := nat -> forall X : Type, Eff X -> X.

(** The effects a program performs, in order, when its effects from the
    [n]-th on are answered by [answers]. *)
Fixpoint performed {A : Type} (answers : Answers) (n : nat) (m : Prog A) : list AnyEff :=
  match m with
  | Ret _ => []
  | Vis e k => any_eff e :: performed answers (S n) (k (answers n _ e))
  end.

(** The items written to the storage and the requests sent among them. *)
Definition written (l : list AnyEff) : list (string * string) :=
  flat_map (fun a => match a with
                     | any_eff (StorageSet key val) => [(key, val)]
                     | any_eff _ => []
                     end) l.

Definition fetched (l : list AnyEff) : list Request :=
  flat_map (fun a => match a with
                     | any_eff (Fetch req) => [req]
                     | any_eff _ => []
                     end) l.

(** [o.key] on a value: the property, if the value is an object that
    has it. *)
Fixpoint assoc (fields : list (string * JSValue)) (key : string) : option JSValue :=
  match fields with
  | [] => None
  | (k, v) :: rest => if String.eqb k key then Some v else assoc rest key
  end.

Definition js_field (v : JSValue) (key : string) : option JSValue :=
  match v with
  | JObj fields => assoc fields key
  | _ => None
  end.

(** The reply that reports one status after a sync, and the one that
    reports both. *)
Definition synced_reply (s : SyncStatus) : JSValue :=
  JObj [("success", JBool true); ("status", status_to_js s)].

Definition triggered_reply (t : PerPlatform SyncStatus) : JSValue :=
  JObj [("success", JBool true);
        ("instagram", status_to_js (instagram t));
        ("linkedin", status_to_js (linkedin t))].

(** The messages a channel answers. *)
Definition answered_internal (message : Message) : bool :=
  list_includes ["GET_STATUS"; "SET_AUTH_TOKEN"; "LOGOUT"; "CHECK_COOKIES"] (type message)
  || (String.eqb (type message) "MANUAL_SYNC"
      && (strict_eq (platform message) "instagram"
          || strict_eq (platform message) "linkedin")).

Definition answered_external (message : Message) (sender : Sender) : bool :=
  negb (authorized sender)
  || list_includes ["PING"; "GET_STATUS"; "SET_AUTH_TOKEN"; "CHECK_COOKIES"; "TRIGGER_SYNC"]
       (type message).

(** The action is a SET_AUTH_TOKEN message, on either channel. *)
Definition sets_token (a : Action) : bool :=
  match a with
  | MessageInternal message => String.eqb (type message) "SET_AUTH_TOKEN"
  | MessageExternal message _ => String.eqb (type message) "SET_AUTH_TOKEN"
  | _ => false
  end.

(** What is left of an observation when the body of a request is
    blanked. *)
Definition blank (o : Obs) : Obs :=
  match o with
  | ObsFetch req =>
      ObsFetch {| url := url req; method := method req; headers := headers req;
                  body := JNull |}
  | _ => o
  end.

(** Two browsers that differ in nothing the worker can tell apart but in
    the values of their cookies and their user agents: the same session
    credentials are there, and the backend gives the two the same
    answers. *)
Record same_but_cookies (env1 env2 : Env) : Prop := {
  same_sessions : forall t p, has_session env1 t p = has_session env2 t p;
  same_answers : forall p w,
    fetch_at env1 (clock w) (sync_request env1 p w)
    = fetch_at env2 (clock w) (sync_request env2 p w);
  same_dates : forall t, iso_at env1 t = iso_at env2 t;
  same_version : version env1 = version env2;
}.

(** The program does the same in both browsers, up to the bodies of its
    requests. *)
Definition agree {A : Type} (env1 env2 : Env) (m : Prog A) : Prop :=
  forall w,
    returned (run env1 m w) = returned (run env2 m w)
    /\ final (run env1 m w) = final (run env2 m w)
    /\ map blank (observed (run env1 m w)) = map blank (observed (run env2 m w)).

(** The handles [pendingSyncs] holds are in order: each was handed out
    already, and if its timer is still pending it is a debounce timer of
    that platform. *)
Record handles_ok (w : World) : Prop := {
  ok_named : forall q id, get q (pendingSyncs w) = Some id -> id < next_timer_id w;
  ok_owner : forall q t, In t (timers w) ->
                         get q (pendingSyncs w) = Some (timer_id t) ->
                         callback t = DebouncedSync q;
}.

(* ===================================================================== *)
(** ** The popup                                                           *)
(* ===================================================================== *)

(** The popup script shares [chrome.storage.local] with the worker and
    talks to it over [chrome.runtime.sendMessage].  A handler of the
    popup is taken to its end, the callbacks of its messages included,
    before anything else happens.  Times are in milliseconds, and
    [Math.floor] of a quotient is [Z.div]. *)

(** What the popup script takes from its surroundings: the time, how a
    date string parses (to milliseconds, [None] for an invalid date), how
    a date is shown in the user's locale, and the user's answer to
    [confirm]. *)
Record PopupEnv : Type := {
  now_ms : Z;
  parse_date : string -> option Z;
  toLocaleDateString : option Z -> string;
  confirm : bool;
}.

(** [`${n}`] for an integer that is not negative. *)
Definition template_int (n : Z) : string := template_num (Z.to_N n).

(** With an invalid date every comparison is false, and the date is
    shown as the locale shows it. *)
Definition formatLastSync (penv : PopupEnv) (dateStr : option string) : string :=
  if negb (truthy dateStr) then "Never"
  else
    match parse_date penv (template dateStr) with
    | None => toLocaleDateString penv None
    | Some date =>
        let diffMs := (now_ms penv - date)%Z in
        let diffMins := (diffMs / 60000)%Z in
        if (diffMins <? 1)%Z then "Just now"
        else if (diffMins <? 60)%Z then template_int diffMins +:+ " min ago"
        else
          let diffHours := (diffMins / 60)%Z in
          if (diffHours <? 24)%Z then
            template_int diffHours +:+ " hour"
              +:+ (if (1 <? diffHours)%Z then "s" else "") +:+ " ago"
          else toLocaleDateString penv (Some date)
    end.

(** The elements of one platform in the popup: the status badge, the
    info line and the sync button. *)
Record Widget : Type := {
  badge_className : string;
  badge_textContent : string;
  info_textContent : string;
  button_disabled : bool;
  button_textContent : string;
}.

Record Dom : Type := {
  loginSection_display : string;
  mainSection_display : string;
  widgets : PerPlatform Widget;
}.

(** [platform === 'instagram' ? ... : ...]: every other name selects the
    LinkedIn elements. *)
Definition elements_of (platform : string) : Platform :=
  if String.eqb platform "instagram" then Instagram else LinkedIn.

(** [e?.includes(s)] as a condition *)
Definition includes_opt (e : option string) (s : string) : bool :=
  match e with
  | Some x => includes x s
  | None => false
  end.

(** [cookies] is [cookies?.hasSession]: [None] when there is no such
    property. *)
Definition updatePlatformStatus (penv : PopupEnv) (platform : string)
    (status' : SyncStatus) (cookies : option bool) (d : Dom) : Dom :=
  let '(cls, text, disabled, btn) :=
    if syncing status' then
      ("status-badge status-syncing", "Syncing...", true, "Syncing...")
    else if strict_eq (error status') "Not logged in"
            || includes_opt (error status') "Not logged in" then
      ("status-badge status-not-logged-in", "Not logged in", true, "Login Required")
    else if negb (match cookies with Some b => b | None => false end) then
      ("status-badge status-not-logged-in", "No session", true,
       "Login to " +:+ (if String.eqb platform "instagram" then "Instagram" else "LinkedIn"))
    else if strict_eq (status status') "connected" || truthy (lastSync status') then
      ("status-badge status-connected", "Connected", false, "Sync Now")
    else if truthy (error status') then
      ("status-badge status-disconnected", "Error", false, "Retry Sync")
    else
      ("status-badge status-not-logged-in", "Not synced", false, "Sync Now") in
  let info :=
    if truthy (error status') && negb (strict_eq (error status') "Not logged in") then
      "Error: " +:+ template (error status')
    else if truthy (lastSync status') then
      "Last sync: " +:+ formatLastSync penv (lastSync status')
    else "Not synced yet" in
  {| loginSection_display := loginSection_display d;
     mainSection_display := mainSection_display d;
     widgets := set (elements_of platform)
                    {| badge_className := cls; badge_textContent := text;
                       info_textContent := info; button_disabled := disabled;
                       button_textContent := btn |}
                    (widgets d) |}.

(** Reading a reply.  [js_truthy v] is [!!v], [js_string v] the string
    that [v] is. *)
Definition js_truthy (v : option JSValue) : bool :=
  match v with
  | Some (JBool b) => b
  | Some (JStr s) => negb (String.eqb s "")
  | Some (JObj _) => true
  | Some JNull | None => false
  end.

Definition js_string (v : option JSValue) : option string :=
  match v with
  | Some (JStr s) => Some s
  | _ => None
  end.

(** [o?.key] *)
Definition js_field_opt (o : option JSValue) (key : string) : option JSValue :=
  match o with
  | Some v => js_field v key
  | None => None
  end.

(** The status object the popup works on, [v || {}], as the record of the
    four properties it looks at. *)
Definition read_status (v : option JSValue) : SyncStatus :=
  {| syncing := js_truthy (js_field_opt v "syncing");
     lastSync := js_string (js_field_opt v "lastSync");
     error := js_string (js_field_opt v "error");
     status := js_string (js_field_opt v "status") |}.

(** [cookies?.hasSession] *)
Definition read_hasSession (cookies : option JSValue) : option bool :=
  match js_field_opt cookies "hasSession" with
  | Some v => Some (js_truthy (Some v))
  | None => None
  end.

(** The worker and the page of the popup. *)
Record Browser : Type := {
  worker : World;
  dom : Dom;
}.

(** What the callback of [chrome.runtime.sendMessage] finds: a response,
    or [chrome.runtime.lastError] when the worker sent none. *)
Inductive Delivery : Type :=
| Answered (response : JSValue)
| LastError.

(** [chrome.runtime.sendMessage(message, callback)]: the worker's
    listener runs, and its first reply is delivered. *)
Definition sendMessage (env : Env) (message : Message) (w : World)
    : Delivery * World * list Obs :=
  let '(_, w1, obs) := run env (onMessage message) w in
  (match replies obs with
   | response :: _ => Answered response
   | [] => LastError
   end, w1, obs).

(** The worker's replies to the popup's GET_STATUS and CHECK_COOKIES. *)
Definition status_reply (t : PerPlatform SyncStatus) : JSValue :=
  JObj [("instagram", status_to_js (get Instagram t));
        ("linkedin", status_to_js (get LinkedIn t))].

Definition cookies_reply (instagram linkedin : bool) : JSValue :=
  JObj [("instagram", JObj [("hasSession", JBool instagram)]);
        ("linkedin", JObj [("hasSession", JBool linkedin)])].

Definition with_displays (login main : string) (d : Dom) : Dom :=
  {| loginSection_display := login; mainSection_display := main; widgets := widgets d |}.

Definition message_of (ty : string) : Message :=
  {| type := ty; platform := None; token := "" |}.

(** [init]: the login section for a worker without a token, else the
    main section with both platforms brought up to date. *)
Definition init (env : Env) (penv : PopupEnv) (b : Browser) : Browser * list Obs :=
  let storage := storage_get ["auth_token"] (storage (worker b)) in
  if negb (truthy (storage !! "auth_token")) then
    ({| worker := worker b; dom := with_displays "block" "none" (dom b) |}, [])
  else
    let d := with_displays "none" "block" (dom b) in
    let '(status', w1, o1) := sendMessage env (message_of "GET_STATUS") (worker b) in
    match status' with
    | LastError => ({| worker := w1; dom := d |}, o1)
    | Answered status' =>
        let '(cookies, w2, o2) := sendMessage env (message_of "CHECK_COOKIES") w1 in
        match cookies with
        | LastError => ({| worker := w2; dom := d |}, (o1 ++ o2)%list)
        | Answered cookies =>
            let d1 := updatePlatformStatus penv "instagram"
                        (read_status (js_field status' "instagram"))
                        (read_hasSession (js_field cookies "instagram")) d in
            let d2 := updatePlatformStatus penv "linkedin"
                        (read_status (js_field status' "linkedin"))
                        (read_hasSession (js_field cookies "linkedin")) d1 in
            ({| worker := w2; dom := d2 |}, (o1 ++ o2)%list)
        end
    end.

Definition with_widget (p : Platform) (f : Widget -> Widget) (d : Dom) : Dom :=
  {| loginSection_display := loginSection_display d;
     mainSection_display := mainSection_display d;
     widgets := set p (f (get p (widgets d))) (widgets d) |}.

(** The click on a sync button; the two listeners differ in the platform
    only. *)
Definition onSyncClick (env : Env) (penv : PopupEnv) (p : Platform) (b : Browser)
    : Browser * list Obs :=
  let d := with_widget p (fun wd =>
             {| badge_className := "status-badge status-syncing";
                badge_textContent := "Syncing...";
                info_textContent := info_textContent wd;
                button_disabled := true;
                button_textContent := "Syncing..." |}) (dom b) in
  let '(response, w1, o1) :=
    sendMessage env {| type := "MANUAL_SYNC"; platform := Some (platform_name p);
                       token := "" |} (worker b) in
  match response with
  | LastError =>
      ({| worker := w1;
          dom := with_widget p (fun wd =>
                   {| badge_className := "status-badge status-disconnected";
                      badge_textContent := "Error";
                      info_textContent := info_textContent wd;
                      button_disabled := false;
                      button_textContent := "Retry Sync" |}) d |}, o1)
  | Answered response =>
      let '(cookies, w2, o2) := sendMessage env (message_of "CHECK_COOKIES") w1 in
      let cookies := match cookies with
                     | Answered c => js_field c (platform_name p)
                     | LastError => None
                     end in
      ({| worker := w2;
          dom := updatePlatformStatus penv (platform_name p)
                   (read_status (js_field response "status"))
                   (read_hasSession cookies) d |}, (o1 ++ o2)%list)
  end.

(** The click on the logout button. *)
Definition onLogoutClick (env : Env) (penv : PopupEnv) (b : Browser) : Browser * list Obs :=
  if negb (confirm penv) then (b, [])
  else
    let '(response, w1, o1) := sendMessage env (message_of "LOGOUT") (worker b) in
    match response with
    | LastError => ({| worker := w1; dom := dom b |}, o1)
    | Answered _ => ({| worker := w1; dom := with_displays "block" "none" (dom b) |}, o1)
    end.

(** A [message] event of the popup's window. *)
Record MessageEvent : Type := {
  event_origin : string;
  data_type : option string;
  data_token : string;
}.

(** The listener for the token the web app posts: whatever the worker
    makes of the token, the callback runs [init]. *)
Definition onWindowMessage (env : Env) (penv : PopupEnv) (event : MessageEvent)
    (b : Browser) : Browser * list Obs :=
  if negb (includes (event_origin event) "dialogbrain.com")
     && negb (includes (event_origin event) "localhost") then (b, [])
  else if strict_eq (data_type event) "DIALOGBRAIN_AUTH_TOKEN" then
    let '(_, w1, o1) :=
      sendMessage env {| type := "SET_AUTH_TOKEN"; platform := None;
                         token := data_token event |} (worker b) in
    let '(b2, o2) := init env penv {| worker := w1; dom := dom b |} in
    (b2, (o1 ++ o2)%list)
  else (b, []).

(** The widget [updatePlatformStatus] leaves for a platform. *)
Definition shown (penv : PopupEnv) (p : Platform) (s : SyncStatus)
    (cookies : option bool) (d : Dom) : Widget :=
  get p (widgets (updatePlatformStatus penv (platform_name p) s cookies d)).

(** The string has the character. *)
Fixpoint has_char (c : Ascii.ascii) (s : string) : bool :=
  match s with
  | EmptyString => false
  | String x rest => Ascii.eqb x c || has_char c rest
  end.

(** Sample data for the extension's wider behaviour: the response of
    [sample_created], a browser whose cookies all have the value [v] and
    whose user agent is [ua], a popup opened an hour after the sample
    sync date, its page, and a window message. *)
Definition sample_response (id : string) : Response :=
  {| resp_status := 200;
     json := Resolved {| account_id := Some id; data_status := None |};
     text := Resolved "" |}.

Definition sample_env_valued (v ua : string) : Env :=
  {| cookies_at := fun _ _ n => Some {| name := n; domain := ".example.com"; value := v |};
     fetch_at := fun _ _ => sample_created "acc-1";
     iso_at := fun _ => "2025-01-01T00:00:00.000Z";
     userAgent := ua;
     version := "1.0.0" |}.

Definition sample_penv : PopupEnv :=
  {| now_ms := 1735693200000;
     parse_date := fun s => if String.eqb s "2025-01-01T00:00:00.000Z"
                            then Some 1735689600000%Z else None;
     toLocaleDateString := fun d => match d with
                                    | Some _ => "1/1/2025"
                                    | None => "Invalid Date"
                                    end;
     confirm := true |}.

Definition sample_widget : Widget :=
  {| badge_className := "status-badge"; badge_textContent := "Checking...";
     info_textContent := ""; button_disabled := false; button_textContent := "Sync Now" |}.

Definition sample_dom : Dom :=
  {| loginSection_display := "none"; mainSection_display := "none";
     widgets := {| instagram := sample_widget; linkedin := sample_widget |} |}.

Definition sample_browser : Browser :=
  {| worker := logged_in_world; dom := sample_dom |}.

Definition sample_event (origin' : string) : MessageEvent :=
  {| event_origin := origin'; data_type := Some "DIALOGBRAIN_AUTH_TOKEN";
     data_token := "token-2" |}.

(** Among the observations the debounce timer of the platform fires once,
    at [t], and what follows its firing is a run of the platform's sync
    routine, started at that time. *)
Definition runs_sync_once (env : Env) (p : Platform) (t : N) (obs : list Obs) : Prop :=
  exists pre started post,
    obs = (pre ++ ObsFired t (DebouncedSync p)
               :: observed (run env (sync p) started) ++ post)%list
    /\ clock started = t
    /\ fired p pre = []
    /\ fired p post = [].

(* ===================================================================== *)
(** ** Routines in flight                                                  *)
(* ===================================================================== *)

(** [step] takes every routine to its end before anything else happens.
    The worker does not: an async routine gives way at each [await], and
    what arrives meanwhile (a message, an alarm, a timer) starts its own
    routine.  Here a routine is in flight from its start to its end, and
    any routine in flight may take its next effect.  The source gives way
    at its awaits only, so what the source can do is among the plays
    below. *)
Inductive Task : Type :=
| task {A : Type} (m : Prog A).

Definition finished (t : Task) : bool :=
  match t with
  | task (Ret _) => true
  | task (Vis _ _) => false
  end.

(** The effect a routine in flight waits for. *)
Definition pending (t : Task) : option AnyEff :=
  match t with
  | task (Ret _) => None
  | task (Vis e _) => Some (any_eff e)
  end.

Record Live : Type := {
  now : World;
  in_flight : list Task;
}.

Definition with_now (w : World) (l : Live) : Live :=
  {| now := w; in_flight := in_flight l |}.

(** Routines start: they are in flight unless they have nothing to do. *)
Definition launch (ts : list Task) (l : Live) : Live :=
  {| now := now l;
     in_flight := (in_flight l ++ List.filter (fun t => negb (finished t)) ts)%list |}.

(** What a timer's callback and the alarm listener start: the debounce
    callback one routine, the initial sync and the fallback alarm the two
    routines side by side. *)
Definition started_by (cb : Callback) : list Task :=
  match cb with
  | DebouncedSync Instagram => [task syncInstagramCookies]
  | DebouncedSync LinkedIn => [task syncLinkedInCookies]
  | InitialSync => [task syncInstagramCookies; task syncLinkedInCookies]
  end.

Definition started_by_alarm (alarm_name : string) : list Task :=
  if String.eqb alarm_name "fallbackSync"
  then [task syncInstagramCookies; task syncLinkedInCookies]
  else [].

Definition fire_live (t : Timer) (l : Live) : Live * list Obs :=
  let w1 := with_clock (N.max (clock (now l)) (due t)) (clearTimeout (timer_id t) (now l)) in
  (launch (started_by (callback t)) (with_now w1 l), [ObsFired (clock w1) (callback t)]).

Fixpoint fire_all_live (ts : list Timer) (l : Live) : Live * list Obs :=
  match ts with
  | [] => (l, [])
  | t :: rest =>
      let '(l1, o1) := fire_live t l in
      let '(l2, o2) := fire_all_live rest l1 in
      (l2, (o1 ++ o2)%list)
  end.

Definition elapse_live (d : N) (l : Live) : Live * list Obs :=
  let target := clock (now l) + d in
  let due_now := sort_by_due (List.filter (fun t => due t <=? target) (timers (now l))) in
  let '(l1, obs) := fire_all_live due_now l in
  (with_now (with_clock target (now l1)) l1, obs).

(** Something arrives: a listener runs, and the routines it calls start.
    A restart ends the routines in flight. *)
Definition arrive (a : Action) (l : Live) : Live * list Obs :=
  match a with
  | Elapse d => elapse_live d l
  | CookieChanged changeInfo => (with_now (onChanged changeInfo (now l)) l, [])
  | Alarm alarm_name => (launch (started_by_alarm alarm_name) l, [])
  | Installed => (with_now (onInstalled (now l)) l, [])
  | MessageInternal message => (launch [task (onMessage message)] l, [])
  | MessageExternal message sender => (launch [task (onMessageExternal message sender)] l, [])
  | Restart => ({| now := restart (now l); in_flight := [] |}, [])
  end.

(** The [i]-th routine in flight takes its next effect. *)
Definition resume (env : Env) (i : nat) (l : Live) : Live * list Obs :=
  match in_flight l !! i with
  | Some (task (Vis e k)) =>
      let '(x, w1, obs) := handle env e (now l) in
      ({| now := w1;
          in_flight := if finished (task (k x))
                       then (take i (in_flight l) ++ drop (S i) (in_flight l))%list
                       else <[i := task (k x)]> (in_flight l) |}, obs)
  | _ => (l, [])
  end.

Inductive Move : Type :=
| Arrive (a : Action)
| Resume (i : nat).

Definition move (env : Env) (mv : Move) (l : Live) : Live * list Obs :=
  match mv with
  | Arrive a => arrive a l
  | Resume i => resume env i l
  end.

Fixpoint play (env : Env) (moves : list Move) (l : Live) : Live * list Obs :=
  match moves with
  | [] => (l, [])
  | mv :: rest =>
      let '(l1, o1) := move env mv l in
      let '(l2, o2) := play env rest l1 in
      (l2, (o1 ++ o2)%list)
  end.

(** A worker with nothing in flight. *)
Definition idle (w : World) : Live := {| now := w; in_flight := [] |}.

(** The move brings a SET_AUTH_TOKEN or a LOGOUT message. *)
Definition brings_token (mv : Move) : bool :=
  match mv with
  | Arrive a => sets_token a
  | Resume _ => false
  end.

Definition brings_logout (mv : Move) : bool :=
  match mv with
  | Arrive a => is_logout a
  | Resume _ => false
  end.

(** An effect that sends no request and sets no token, and an answer to
    an effect that shows no token. *)
Definition silent {X : Type} (e : Eff X) : bool :=
  match e with
  | Fetch _ => false
  | StorageSet key _ => negb (String.eqb key "auth_token")
  | _ => true
  end.

Definition shows_no_token {X : Type} (e : Eff X) : X -> Prop :=
  match e in Eff X return X -> Prop with
  | StorageGet _ => fun x => truthy (x !! "auth_token") = false
  | _ => fun _ => True
  end.

(** A routine that sends no request and sets no token as long as its
    reads of the storage show no token. *)
Fixpoint tokenless {A : Type} (m : Prog A) : Prop :=
  match m with
  | Ret _ => True
  | Vis e k => silent e = true /\ forall x, shows_no_token e x -> tokenless (k x)
  end.

Definition tokenless_task (t : Task) : Prop :=
  match t with
  | task m => tokenless m
  end.

(** A sync in flight when the LOGOUT arrives: the popup's manual sync has
    read the storage and waits for the cookies; the LOGOUT is handled to
    its end; then the sync goes on. *)
Definition sync_then_logout : list Move :=
  [Arrive (MessageInternal (sample_message "MANUAL_SYNC" (Some "instagram"))); Resume 0;
   Arrive (MessageInternal (sample_message "LOGOUT" None));
   Resume 1; Resume 1; Resume 1; Resume 1].

(** Two sync runs of Instagram that overlap, on a worker that is logged
    in and has no account id yet: the popup's manual sync reads the
    storage and waits for the cookies, a web page's TRIGGER_SYNC does the
    same; the first goes on to its end; a second later the other does.
    A routine is overtaken only while it waits at an [await]. *)
Definition both_started : list Move :=
  [Arrive (MessageInternal (sample_message "MANUAL_SYNC" (Some "instagram"))); Resume 0;
   Arrive (MessageExternal (sample_message "TRIGGER_SYNC" (Some "instagram"))
             {| origin := Some "https://dialogbrain.com" |}); Resume 1].

Definition first_ends : list Move := repeat (Resume 0) 12.

Definition second_ends : list Move := Arrive (Elapse 1000) :: repeat (Resume 0) 14.

(** A sync that starts when nothing is in flight and goes to its end. *)
Definition later_sync : list Move :=
  Arrive (MessageInternal (sample_message "MANUAL_SYNC" (Some "instagram")))
  :: repeat (Resume 0) 12.

(* ===================================================================== *)
(** ** Basic facts                                                         *)
(* ===================================================================== *)

Lemma run_bind {A B : Type} (env : Env) (m : Prog A) (f : A -> Prog B) (w : World) :
  run env (bind m f) w =
  let '(a, w1, o1) := run env m w in
  let '(b, w2, o2) := run env (f a) w1 in
  (b, w2, (o1 ++ o2)%list).
Proof.
  revert w. induction m as [a | X e k IH]; intros w; simpl.
  - destruct (run env (f a) w) as [[b w2] o2]. reflexivity.
  - destruct (handle env e w) as [[x w1] o1]. rewrite IH.
    destruct (run env (k x) w1) as [[a w2] o2].
    destruct (run env (f a) w2) as [[b w3] o3].
    rewrite app_assoc. reflexivity.
Qed.

Lemma lookup_storage_get (keys : list string) (s : gmap string string) (k : string) :
  storage_get keys s !! k = if decide (k ∈ keys) then s !! k else None.
Proof.
  induction keys as [| k' keys IH]; simpl.
  - rewrite lookup_empty. destruct (decide (k ∈ [])) as [H | H]; [inversion H | reflexivity].
  - destruct (decide (k' = k)) as [-> | Hne].
    + rewrite decide_True by apply list_elem_of_here.
      destruct (s !! k) as [v |] eqn:Hk.
      * apply lookup_insert_eq.
      * rewrite IH. destruct (decide (k ∈ keys)); congruence.
    + assert (Hiff : k ∈ k' :: keys <-> k ∈ keys).
      { rewrite elem_of_cons. split; [intros [Heq | Hin]; [congruence | exact Hin] | intros Hin; right; exact Hin]. }
      assert (Hrest : storage_get (k' :: keys) s !! k = storage_get keys s !! k).
      { simpl. destruct (s !! k'); [apply lookup_insert_ne; exact Hne | reflexivity]. }
      simpl in Hrest. rewrite Hrest, IH.
      destruct (decide (k ∈ keys)), (decide (k ∈ k' :: keys)); tauto.
Qed.

Lemma lookup_storage_get_elem (keys : list string) (s : gmap string string) (k : string) :
  k ∈ keys -> storage_get keys s !! k = s !! k.
Proof. intros Hin. rewrite lookup_storage_get. apply decide_True. exact Hin. Qed.

Lemma run_getInstagramCookies (env : Env) (w : World) :
  run env getInstagramCookies w = (bundle_at env (clock w) Instagram, w, []).
Proof. reflexivity. Qed.

Lemma run_getLinkedInCookies (env : Env) (w : World) :
  run env getLinkedInCookies w = (bundle_at env (clock w) LinkedIn, w, []).
Proof. reflexivity. Qed.

Lemma run_syncInstagramCookies (env : Env) (w : World) :
  run env syncInstagramCookies w =
  (tt, fst (after env Instagram w (outcome env Instagram w)),
       snd (after env Instagram w (outcome env Instagram w))).
Proof.
  unfold syncInstagramCookies.
  rewrite run_bind. cbn [run perform handle].
  rewrite !lookup_storage_get_elem by set_solver.
  unfold outcome, has_token, has_session.
  destruct (truthy (storage w !! "auth_token")) eqn:Htok; cbn [negb]; [| reflexivity].
  rewrite run_bind, run_getInstagramCookies.
  change (js_get (bundle_at env (clock w) Instagram) "sessionid")
    with (read_cookie env (clock w) Instagram "sessionid").
  cbn [session_cookie].
  destruct (truthy (read_cookie env (clock w) Instagram "sessionid")) eqn:Hses;
    cbn [negb]; [| reflexivity].
  rewrite run_bind. cbn [run perform handle].
  unfold try_catch, await_then. rewrite !run_bind. cbn [run perform handle].
  match goal with
  | |- context [fetch_at env ?t ?r] =>
      change (fetch_at env t r) with (fetch_at env (clock w) (sync_request env Instagram w))
  end.
  destruct (fetch_at env (clock w) (sync_request env Instagram w)) as [r | msg];
    [| reflexivity].
  destruct (ok r).
  - rewrite run_bind. cbn [run]. destruct (json r) as [data | msg]; [| reflexivity].
    rewrite !run_bind. cbn [account_id_key after fst snd].
    destruct (truthy (account_id data)
              && negb (truthy (storage w !! "instagram_account_id"))); reflexivity.
  - rewrite run_bind. cbn [run error_body]. destruct (text r) as [body | msg]; reflexivity.
Qed.

Lemma run_syncLinkedInCookies (env : Env) (w : World) :
  run env syncLinkedInCookies w =
  (tt, fst (after env LinkedIn w (outcome env LinkedIn w)),
       snd (after env LinkedIn w (outcome env LinkedIn w))).
Proof.
  unfold syncLinkedInCookies.
  rewrite run_bind. cbn [run perform handle].
  rewrite !lookup_storage_get_elem by set_solver.
  unfold outcome, has_token, has_session.
  destruct (truthy (storage w !! "auth_token")) eqn:Htok; cbn [negb]; [| reflexivity].
  rewrite run_bind, run_getLinkedInCookies.
  change (js_get (bundle_at env (clock w) LinkedIn) "li_at")
    with (read_cookie env (clock w) LinkedIn "li_at").
  cbn [session_cookie].
  destruct (truthy (read_cookie env (clock w) LinkedIn "li_at")) eqn:Hses;
    cbn [negb]; [| reflexivity].
  rewrite run_bind. cbn [run perform handle].
  unfold try_catch, await_then. rewrite !run_bind. cbn [run perform handle].
  match goal with
  | |- context [fetch_at env ?t ?r] =>
      change (fetch_at env t r) with (fetch_at env (clock w) (sync_request env LinkedIn w))
  end.
  destruct (fetch_at env (clock w) (sync_request env LinkedIn w)) as [r | msg];
    [| reflexivity].
  destruct (ok r).
  - rewrite run_bind. cbn [run]. destruct (json r) as [data | msg]; [| reflexivity].
    rewrite !run_bind. cbn [account_id_key after fst snd].
    destruct (truthy (account_id data)
              && negb (truthy (storage w !! "linkedin_account_id"))); reflexivity.
  - reflexivity.
Qed.

(** A run of a platform's routine is determined by its outcome. *)
Lemma run_sync (env : Env) (p : Platform) (w : World) :
  run env (sync p) w =
  (tt, fst (after env p w (outcome env p w)), snd (after env p w (outcome env p w))).
Proof.
  destruct p; [apply run_syncInstagramCookies | apply run_syncLinkedInCookies].
Qed.

Lemma final_sync (env : Env) (p : Platform) (w : World) :
  final (run env (sync p) w) = fst (after env p w (outcome env p w)).
Proof. rewrite run_sync. reflexivity. Qed.

Lemma observed_sync (env : Env) (p : Platform) (w : World) :
  observed (run env (sync p) w) = snd (after env p w (outcome env p w)).
Proof. rewrite run_sync. reflexivity. Qed.

Lemma get_set_same {A : Type} (p : Platform) (a : A) (t : PerPlatform A) :
  get p (set p a t) = a.
Proof. destruct p; reflexivity. Qed.

Lemma get_set_other {A : Type} (p q : Platform) (a : A) (t : PerPlatform A) :
  p <> q -> get q (set p a t) = get q t.
Proof. destruct p, q; intros H; try reflexivity; congruence. Qed.

(** Programs touch neither the timers nor the clock. *)
Lemma handle_frame {X : Type} (env : Env) (e : Eff X) (w : World) :
  let w' := snd (fst (handle env e w)) in
  timers w' = timers w /\ pendingSyncs w' = pendingSyncs w
  /\ next_timer_id w' = next_timer_id w /\ clock w' = clock w.
Proof. destruct e; simpl; auto. Qed.

Lemma run_frame {A : Type} (env : Env) (m : Prog A) (w : World) :
  timers (final (run env m w)) = timers w
  /\ pendingSyncs (final (run env m w)) = pendingSyncs w
  /\ next_timer_id (final (run env m w)) = next_timer_id w
  /\ clock (final (run env m w)) = clock w.
Proof.
  revert w. induction m as [a | X e k IH]; intros w.
  - simpl. auto.
  - simpl. pose proof (handle_frame env e w) as Hh.
    destruct (handle env e w) as [[x w1] o1]. simpl in Hh.
    specialize (IH x w1). unfold final in *.
    destruct (run env (k x) w1) as [[a w2] o2]. simpl in *.
    destruct Hh as (H1 & H2 & H3 & H4). destruct IH as (I1 & I2 & I3 & I4).
    repeat split; congruence.
Qed.

Lemma strict_eq_false (v : option string) (s : string) :
  v <> Some s -> strict_eq v s = false.
Proof.
  destruct v as [x |]; simpl; [| reflexivity].
  intros H. destruct (String.eqb_spec x s); [subst; congruence | reflexivity].
Qed.

Lemma lookup_storage_remove (keys : list string) (s : gmap string string) (k : string) :
  storage_remove keys s !! k = if decide (k ∈ keys) then None else s !! k.
Proof.
  induction keys as [| k' keys IH]; simpl.
  - destruct (decide (k ∈ [])) as [H | H]; [inversion H | reflexivity].
  - rewrite lookup_delete. destruct (decide (k' = k)) as [-> | Hne].
    + rewrite decide_True by apply list_elem_of_here. reflexivity.
    + rewrite IH. destruct (decide (k ∈ keys)) as [Hin | Hout].
      * rewrite decide_True by (apply list_elem_of_further; exact Hin). reflexivity.
      * rewrite decide_False; [reflexivity |].
        rewrite elem_of_cons. intros [Heq | Hin]; [congruence | contradiction].
Qed.

Lemma storage_remove_idemp (keys : list string) (s : gmap string string) :
  storage_remove keys (storage_remove keys s) = storage_remove keys s.
Proof.
  apply map_eq. intros k. rewrite !lookup_storage_remove.
  destruct (decide (k ∈ keys)); reflexivity.
Qed.

(** A token that is not stored at all is no token. *)
Lemma no_stored_token (w : World) :
  storage w !! "auth_token" = None -> has_token w = false.
Proof. unfold has_token. intros ->. reflexivity. Qed.

(** A cookie that is not in the store gives no session. *)
Lemma no_stored_session (env : Env) (t : N) (p : Platform) :
  cookies_at env t (site p) (session_cookie p) = None -> has_session env t p = false.
Proof. unfold has_session, read_cookie. intros ->. reflexivity. Qed.

(* ===================================================================== *)
(** ** Gating                                                              *)
(* ===================================================================== *)

(** C1.  For either platform: a sync run without an auth token (none
    stored, or an empty one, which the routine's [!authToken] treats
    alike) sends no request and leaves the platform's status at
    [{syncing: false, lastSync: null, error: 'Not logged in'}]; a run with
    a token but without the platform's session credential ([sessionid],
    [li_at]) sends no request and leaves the status at the same shape with
    the error 'Not logged in to Instagram' or 'Not logged in to
    LinkedIn'. *)
Theorem sync_gating (env : Env) (p : Platform) (w : World) :
  (has_token w = false ->
     requests (observed (run env (sync p) w)) = []
     /\ get p (syncStatus (final (run env (sync p) w))) = failed "Not logged in")
  /\ (has_token w = true -> has_session env (clock w) p = false ->
     requests (observed (run env (sync p) w)) = []
     /\ get p (syncStatus (final (run env (sync p) w))) = failed (no_session_message p)).
Proof.
  rewrite final_sync, observed_sync. unfold outcome.
  split.
  - intros ->. cbn. split; [reflexivity | apply get_set_same].
  - intros -> ->. cbn. split; [reflexivity | apply get_set_same].
Qed.

Lemma sync_gating_witness :
  (requests (observed (run (sample_env true true (sample_created "acc-1"))
                           (sync Instagram) initial_world)) = []
   /\ get Instagram (syncStatus (final (run (sample_env true true (sample_created "acc-1"))
                                            (sync Instagram) initial_world)))
      = failed "Not logged in")
  /\ (requests (observed (run (sample_env false true (sample_created "acc-1"))
                              (sync Instagram) logged_in_world)) = []
   /\ get Instagram (syncStatus (final (run (sample_env false true (sample_created "acc-1"))
                                            (sync Instagram) logged_in_world)))
      = failed "Not logged in to Instagram").
Proof.
  split.
  - apply (proj1 (sync_gating (sample_env true true (sample_created "acc-1"))
                              Instagram initial_world)).
    vm_compute. reflexivity.
  - apply (proj2 (sync_gating (sample_env false true (sample_created "acc-1"))
                              Instagram logged_in_world)).
    + vm_compute. reflexivity.
    + vm_compute. reflexivity.
Defined.

(* ===================================================================== *)
(** ** The external channel's origin check                                 *)
(* ===================================================================== *)

(** C5.  An external message whose sender's origin starts with none of
    the three allowed origins is answered with the error 'Unauthorized
    origin' and nothing else happens, whatever the message: no request,
    no change of the storage, of a status or of anything else in the
    worker's state, and the listener returns without keeping the channel
    open. *)
Theorem unauthorized_origin_rejected
    (env : Env) (message : Message) (sender : Sender) (w : World) :
  (forall allowed,
     In allowed ["https://dialogbrain.com"; "https://app.dialogbrain.com";
                 "http://localhost:3000"] ->
     starts_with (origin sender) allowed = false) ->
  run env (onMessageExternal message sender) w =
  (false, w, [ObsReply (JObj [("error", JStr "Unauthorized origin")])]).
Proof.
  intros H. unfold onMessageExternal, allowedOrigins. cbn [existsb].
  rewrite !H by (simpl; tauto). reflexivity.
Qed.

Lemma unauthorized_origin_rejected_witness :
  run (sample_env true true (sample_created "acc-1"))
      (onMessageExternal (sample_message "TRIGGER_SYNC" (Some "all"))
                         {| origin := Some "https://evil.example" |})
      logged_in_world =
  (false, logged_in_world, [ObsReply (JObj [("error", JStr "Unauthorized origin")])]).
Proof.
  apply unauthorized_origin_rejected.
  intros allowed [<- | [<- | [<- | []]]]; reflexivity.
Defined.

(* ===================================================================== *)
(** ** Logout                                                              *)
(* ===================================================================== *)

(** C6.  The LOGOUT message is answered with success; afterwards the auth
    token and both account ids are gone from the storage and both
    statuses are [{syncing: false, lastSync: null, error: 'Not logged
    in'}].  This holds from every state, a logged-out one included, and a
    second LOGOUT right after the first is answered alike and changes
    nothing. *)
Theorem logout_complete_idempotent (env : Env) (message : Message) (w : World) :
  type message = "LOGOUT" ->
  let r := run env (onMessage message) w in
  returned r = true
  /\ observed r = [ObsReply (JObj [("success", JBool true)])]
  /\ storage (final r) !! "auth_token" = None
  /\ (forall p, storage (final r) !! account_id_key p = None)
  /\ (forall p, get p (syncStatus (final r)) = failed "Not logged in")
  /\ run env (onMessage message) (final r) = (true, final r, observed r).
Proof.
  intros Ht. unfold onMessage. rewrite Ht. cbn [String.eqb Ascii.eqb Bool.eqb].
  cbn -[storage_remove]. unfold final, observed, returned. cbn -[storage_remove].
  repeat split.
  - rewrite lookup_storage_remove. reflexivity.
  - intros p. rewrite lookup_storage_remove. destruct p; reflexivity.
  - intros p. destruct p; reflexivity.
  - unfold with_syncStatus, with_storage; cbn -[storage_remove].
    rewrite storage_remove_idemp. reflexivity.
Qed.

Lemma logout_complete_idempotent_witness :
  let r := run (sample_env true true (sample_created "acc-1"))
               (onMessage (sample_message "LOGOUT" None)) logged_in_world in
  returned r = true
  /\ observed r = [ObsReply (JObj [("success", JBool true)])]
  /\ storage (final r) !! "auth_token" = None
  /\ (forall p, storage (final r) !! account_id_key p = None)
  /\ (forall p, get p (syncStatus (final r)) = failed "Not logged in")
  /\ run (sample_env true true (sample_created "acc-1"))
         (onMessage (sample_message "LOGOUT" None)) (final r)
     = (true, final r, observed r).
Proof.
  apply (logout_complete_idempotent (sample_env true true (sample_created "acc-1"))
           (sample_message "LOGOUT" None) logged_in_world).
  reflexivity.
Defined.

(* ===================================================================== *)
(** ** Manual sync                                                         *)
(* ===================================================================== *)

(** C10.  An internal MANUAL_SYNC message whose platform is neither
    'instagram' nor 'linkedin' (or is missing) starts no sync and gets no
    reply: the listener returns [true], which keeps the channel open, and
    never calls [sendResponse]; the worker's state is unchanged. *)
Theorem manual_sync_unknown_platform (env : Env) (message : Message) (w : World) :
  type message = "MANUAL_SYNC" ->
  platform message <> Some "instagram" ->
  platform message <> Some "linkedin" ->
  run env (onMessage message) w = (true, w, []).
Proof.
  intros Ht Hi Hl. unfold onMessage. rewrite Ht. cbn [String.eqb Ascii.eqb Bool.eqb].
  rewrite (strict_eq_false _ _ Hi), (strict_eq_false _ _ Hl). reflexivity.
Qed.

Lemma manual_sync_unknown_platform_witness :
  run (sample_env true true (sample_created "acc-1"))
      (onMessage (sample_message "MANUAL_SYNC" (Some "twitter"))) logged_in_world
  = (true, logged_in_world, []).
Proof.
  apply manual_sync_unknown_platform.
  - reflexivity.
  - intros H. discriminate H.
  - intros H. discriminate H.
Defined.

(* ===================================================================== *)
(** ** Failures of a sync run                                              *)
(* ===================================================================== *)

(** A response that is not ok and whose body the routine can read (the
    LinkedIn routine does not read it) leaves the error 'HTTP <status>'
    and no [lastSync]. *)
Lemma http_error_recorded (env : Env) (p : Platform) (w : World) (r : Response) :
  has_token w = true -> has_session env (clock w) p = true ->
  fetch_at env (clock w) (sync_request env p w) = Resolved r ->
  ok r = false ->
  (forall message, error_body p r <> Rejected message) ->
  get p (syncStatus (final (run env (sync p) w)))
  = failed ("HTTP " +:+ template_num (resp_status r)).
Proof.
  intros Ht Hs Hf Hok Hbody. rewrite final_sync. unfold outcome.
  rewrite Ht, Hs, Hf, Hok. cbn [negb].
  destruct (error_body p r) as [b | message] eqn:Hb.
  - cbn. apply get_set_same.
  - exfalso. apply (Hbody message). reflexivity.
Qed.

(** C7.  A response that is not ok does not always leave its status code
    as the error.  With a token and a session, a response of status 500
    whose body cannot be read makes the Instagram routine leave the error
    of the failed read, 'network error': it awaits [response.text()]
    before it assigns the status, and the rejection lands in [catch].
    The LinkedIn routine, given the same response, leaves 'HTTP 500'.
    Both leave [lastSync: null]. *)
Theorem instagram_unreadable_error_body :
  get Instagram
    (syncStatus (final (run (sample_env true true (sample_unreadable 500))
                            (sync Instagram) logged_in_world)))
  = failed "network error"
  /\ get LinkedIn
       (syncStatus (final (run (sample_env true true (sample_unreadable 500))
                               (sync LinkedIn) logged_in_world)))
     = failed "HTTP 500".
Proof. split; vm_compute; reflexivity. Qed.

(** C9.  For either platform, a sync run that fails in any way (no auth
    token, no session credential, a rejected request, a response that is
    not ok, or a success response whose body cannot be read) replaces the
    platform's status by [{syncing: false, lastSync: null, error:
    <message>}]: whatever the status was, [lastSync] is null and the
    [status] property is gone. *)
Theorem failed_sync_erases_status (env : Env) (p : Platform) (w : World) :
  (has_token w = false
   \/ has_session env (clock w) p = false
   \/ (exists message,
         fetch_at env (clock w) (sync_request env p w) = Rejected message)
   \/ (exists r,
         fetch_at env (clock w) (sync_request env p w) = Resolved r /\ ok r = false)
   \/ (exists r message,
         fetch_at env (clock w) (sync_request env p w) = Resolved r
         /\ json r = Rejected message)) ->
  exists message,
    get p (syncStatus (final (run env (sync p) w))) = failed message.
Proof.
  intros H. rewrite final_sync. unfold outcome.
  destruct (has_token w) eqn:Ht; cbn [negb];
    [| eexists; cbn; apply get_set_same].
  destruct (has_session env (clock w) p) eqn:Hs; cbn [negb];
    [| eexists; cbn; apply get_set_same].
  destruct (fetch_at env (clock w) (sync_request env p w)) as [r | message] eqn:Hf;
    [| eexists; cbn; apply get_set_same].
  destruct (ok r) eqn:Hok.
  - destruct (json r) as [data | message] eqn:Hj;
      [| eexists; cbn; apply get_set_same].
    exfalso.
    destruct H as [H | [H | [[m H] | [[r' [H1 H2]] | [r' [m [H1 H2]]]]]]];
      try discriminate.
    + injection H1 as <-. congruence.
    + injection H1 as <-. congruence.
  - destruct (error_body p r); eexists; cbn; apply get_set_same.
Qed.

Lemma failed_sync_erases_status_witness :
  exists message,
    get Instagram
      (syncStatus (final (run (sample_env true true (sample_created "acc-1"))
                              (sync Instagram) connected_world)))
    = failed message.
Proof.
  apply failed_sync_erases_status. left. reflexivity.
Defined.

(* ===================================================================== *)
(** ** Checking for sessions                                               *)
(* ===================================================================== *)

(** C8.  The reply to CHECK_COOKIES, on the internal channel and (for an
    allowed origin) on the external one, is made of booleans only: for
    each platform [hasSession], which tells whether the platform's
    session credential ([sessionid], [li_at]) is there with a non-empty
    value, and on the external channel [installed: true].  Two browsers
    that agree on these two facts get the same replies, whatever their
    cookies hold. *)
Theorem check_cookies_reply
    (env env' : Env) (w w' : World) (message : Message) (sender : Sender) :
  type message = "CHECK_COOKIES" ->
  authorized sender = true ->
  run env (onMessage message) w
  = (true, w, [ObsReply (JObj (session_fields env (clock w)))])
  /\ run env (onMessageExternal message sender) w
     = (true, w, [ObsReply (JObj (("installed", JBool true)
                                  :: session_fields env (clock w)))])
  /\ only_booleans (JObj (session_fields env (clock w))) = true
  /\ only_booleans (JObj (("installed", JBool true) :: session_fields env (clock w))) = true
  /\ ((forall p, has_session env (clock w) p = has_session env' (clock w') p) ->
      replies (observed (run env (onMessage message) w))
      = replies (observed (run env' (onMessage message) w'))
      /\ replies (observed (run env (onMessageExternal message sender) w))
         = replies (observed (run env' (onMessageExternal message sender) w'))).
Proof.
  intros Ht Ha.
  assert (Hint : forall e v, run e (onMessage message) v
                 = (true, v, [ObsReply (JObj (session_fields e (clock v)))])).
  { intros e v. unfold onMessage. rewrite Ht. reflexivity. }
  assert (Hext : forall e v, run e (onMessageExternal message sender) v
                 = (true, v, [ObsReply (JObj (("installed", JBool true)
                                              :: session_fields e (clock v)))])).
  { intros e v. unfold onMessageExternal. unfold authorized in Ha. rewrite Ha, Ht.
    reflexivity. }
  split; [apply Hint |]. split; [apply Hext |].
  split; [unfold session_fields; simpl; reflexivity |].
  split; [unfold session_fields; simpl; reflexivity |].
  intros Hsame. rewrite !Hint, !Hext. unfold session_fields.
  rewrite !Hsame. split; reflexivity.
Qed.

Lemma check_cookies_reply_witness :
  replies (observed (run (sample_env true true (sample_created "acc-1"))
                         (onMessage (sample_message "CHECK_COOKIES" None))
                         initial_world))
  = replies (observed (run sample_env_other
                           (onMessage (sample_message "CHECK_COOKIES" None))
                           logged_in_world))
  /\ replies (observed (run (sample_env true true (sample_created "acc-1"))
                            (onMessageExternal (sample_message "CHECK_COOKIES" None)
                               {| origin := Some "https://app.dialogbrain.com" |})
                            initial_world))
     = replies (observed (run sample_env_other
                              (onMessageExternal (sample_message "CHECK_COOKIES" None)
                                 {| origin := Some "https://app.dialogbrain.com" |})
                              logged_in_world)).
Proof.
  destruct (check_cookies_reply
              (sample_env true true (sample_created "acc-1")) sample_env_other
              initial_world logged_in_world
              (sample_message "CHECK_COOKIES" None)
              {| origin := Some "https://app.dialogbrain.com" |}
              eq_refl eq_refl) as (_ & _ & _ & _ & H).
  apply H. intros p. destruct p; reflexivity.
Defined.

(* ===================================================================== *)
(** ** The storage across the worker's actions                             *)
(* ===================================================================== *)

Lemma final_bind {A B : Type} (env : Env) (m : Prog A) (f : A -> Prog B) (w : World) :
  final (run env (bind m f) w)
  = final (run env (f (returned (run env m w))) (final (run env m w))).
Proof.
  rewrite run_bind. unfold final, returned.
  destruct (run env m w) as [[a w1] o1]. simpl.
  destruct (run env (f a) w1) as [[b w2] o2]. reflexivity.
Qed.

Lemma observed_bind {A B : Type} (env : Env) (m : Prog A) (f : A -> Prog B) (w : World) :
  observed (run env (bind m f) w)
  = (observed (run env m w)
     ++ observed (run env (f (returned (run env m w))) (final (run env m w))))%list.
Proof.
  rewrite run_bind. unfold final, returned, observed.
  destruct (run env m w) as [[a w1] o1]. simpl.
  destruct (run env (f a) w1) as [[b w2] o2]. reflexivity.
Qed.

Lemma truthy_Some (id : string) : truthy (Some id) = true <-> id <> "".
Proof.
  simpl. destruct (String.eqb_spec id ""); simpl; split; intros; congruence.
Qed.

Lemma account_id_key_inj (p q : Platform) : account_id_key p = account_id_key q -> p = q.
Proof. destruct p, q; simpl; intros H; try reflexivity; discriminate H. Qed.

(** What a sync run does to the storage. *)
Lemma storage_after_sync (env : Env) (p : Platform) (w : World) :
  storage (final (run env (sync p) w)) = storage w
  \/ (truthy (storage w !! account_id_key p) = false
      /\ exists r data id,
           fetch_at env (clock w) (sync_request env p w) = Resolved r
           /\ ok r = true /\ json r = Resolved data
           /\ account_id data = Some id /\ id <> ""
           /\ storage (final (run env (sync p) w)) = <[account_id_key p := id]> (storage w)).
Proof.
  rewrite final_sync. unfold outcome.
  destruct (has_token w); cbn [negb]; [| left; reflexivity].
  destruct (has_session env (clock w) p); cbn [negb]; [| left; reflexivity].
  destruct (fetch_at env (clock w) (sync_request env p w)) as [r | msg] eqn:Hf;
    [| left; reflexivity].
  destruct (ok r) eqn:Hok.
  - destruct (json r) as [data | msg] eqn:Hj; [| left; reflexivity].
    cbn [after fst].
    destruct (truthy (account_id data)) eqn:Hid; cbn [andb]; [| left; reflexivity].
    destruct (truthy (storage w !! account_id_key p)) eqn:Hold; cbn [negb];
      [left; reflexivity |].
    right. split; [reflexivity |].
    destruct (account_id data) as [id |] eqn:Ha; [| discriminate Hid].
    exists r, data, id. apply truthy_Some in Hid. 
    repeat split; try assumption; reflexivity.
  - destruct (error_body p r); left; reflexivity.
Qed.

Lemma sync_ids_kept (env : Env) (p : Platform) (w : World) :
  ids_ok (storage w) ->
  ids_kept (storage w) (storage (final (run env (sync p) w)))
  /\ ids_ok (storage (final (run env (sync p) w))).
Proof.
  intros Hok.
  destruct (storage_after_sync env p w) as [-> | (Hold & r & data & id & _ & _ & _ & _ & Hid & ->)].
  - split; [intros q i H; exact H | exact Hok].
  - split.
    + intros q i H. destruct (decide (account_id_key p = account_id_key q)) as [e | ne].
      * apply account_id_key_inj in e. subst q. rewrite H in Hold.
        apply Hok in H. apply truthy_Some in H. congruence.
      * rewrite lookup_insert_ne by exact ne. exact H.
    + intros q i. destruct (decide (account_id_key p = account_id_key q)) as [e | ne].
      * rewrite e, lookup_insert_eq. intros [= <-]. exact Hid.
      * rewrite lookup_insert_ne by exact ne. apply Hok.
Qed.

Lemma safe_refl (s : gmap string string) : safe s s.
Proof. intros H. split; [intros p id Hp; exact Hp | exact H]. Qed.

Lemma safe_trans (s1 s2 s3 : gmap string string) :
  safe s1 s2 -> safe s2 s3 -> safe s1 s3.
Proof.
  intros H12 H23 H1. destruct (H12 H1) as [K12 H2]. destruct (H23 H2) as [K23 H3].
  split; [| exact H3]. intros p id Hp. apply K23, K12, Hp.
Qed.

Lemma safe_sync (env : Env) (p : Platform) (w : World) :
  safe (storage w) (storage (final (run env (sync p) w))).
Proof. intros H. apply sync_ids_kept. exact H. Qed.

Lemma safe_set_token (s : gmap string string) (t : string) :
  safe s (<["auth_token" := t]> s).
Proof.
  intros H. split.
  - intros p id Hp. rewrite lookup_insert_ne by (destruct p; discriminate). exact Hp.
  - intros p id. rewrite lookup_insert_ne by (destruct p; discriminate). apply H.
Qed.

Lemma safe_onMessage (env : Env) (message : Message) (w : World) :
  String.eqb (type message) "LOGOUT" = false ->
  safe (storage w) (storage (final (run env (onMessage message) w))).
Proof.
  intros Hl. unfold onMessage. rewrite Hl.
  destruct (String.eqb (type message) "GET_STATUS"); [apply safe_refl |].
  destruct (String.eqb (type message) "MANUAL_SYNC").
  { rewrite final_bind.
    destruct (strict_eq (platform message) "instagram").
    { rewrite final_bind. apply (safe_sync env Instagram). }
    destruct (strict_eq (platform message) "linkedin").
    { rewrite final_bind. apply (safe_sync env LinkedIn). }
    apply safe_refl. }
  destruct (String.eqb (type message) "SET_AUTH_TOKEN"); [apply safe_set_token |].
  destruct (String.eqb (type message) "CHECK_COOKIES"); apply safe_refl.
Qed.

Lemma safe_onMessageExternal (env : Env) (message : Message) (sender : Sender) (w : World) :
  safe (storage w) (storage (final (run env (onMessageExternal message sender) w))).
Proof.
  unfold onMessageExternal.
  destruct (negb (existsb (fun o => starts_with (origin sender) o) allowedOrigins));
    [apply safe_refl |].
  destruct (String.eqb (type message) "PING"); [apply safe_refl |].
  destruct (String.eqb (type message) "GET_STATUS"); [apply safe_refl |].
  destruct (String.eqb (type message) "SET_AUTH_TOKEN"); [apply safe_set_token |].
  destruct (String.eqb (type message) "CHECK_COOKIES"); [apply safe_refl |].
  destruct (String.eqb (type message) "TRIGGER_SYNC"); [| apply safe_refl].
  rewrite final_bind.
  set (w1 := final (run env (if strict_eq (platform message) "instagram" || strict_eq (platform message) "all" then syncInstagramCookies else Ret tt) w)).
  assert (H1 : safe (storage w) (storage w1)).
  { subst w1. destruct (strict_eq (platform message) "instagram" || strict_eq (platform message) "all");
      [apply (safe_sync env Instagram) | apply safe_refl]. }
  apply (safe_trans _ _ _ H1).
  rewrite final_bind.
  destruct (strict_eq (platform message) "linkedin" || strict_eq (platform message) "all");
    [apply (safe_sync env LinkedIn) | apply safe_refl].
Qed.

Lemma safe_onAlarm (env : Env) (n : string) (w : World) :
  safe (storage w) (storage (final (run env (onAlarm n) w))).
Proof.
  unfold onAlarm. destruct (String.eqb n "fallbackSync"); [| apply safe_refl].
  rewrite final_bind.
  apply (safe_trans _ _ _ (safe_sync env Instagram w)). apply (safe_sync env LinkedIn).
Qed.

Lemma safe_callback (env : Env) (cb : Callback) (w : World) :
  safe (storage w) (storage (final (run env (callback_prog cb) w))).
Proof.
  destruct cb as [[|] |]; cbn [callback_prog].
  - apply (safe_sync env Instagram).
  - apply (safe_sync env LinkedIn).
  - rewrite final_bind.
    apply (safe_trans _ _ _ (safe_sync env Instagram w)). apply (safe_sync env LinkedIn).
Qed.

Lemma final_pair {A} (r : A * World * list Obs) : r = (returned r, final r, observed r).
Proof. destruct r as [[a w] o]. reflexivity. Qed.

Lemma safe_fire_all (env : Env) (ts : list Timer) (w : World) :
  safe (storage w) (storage (fst (fire_all env ts w))).
Proof.
  revert w. induction ts as [| t ts IH]; intros w; cbn [fire_all]; [apply safe_refl |].
  unfold fire.
  set (w1 := with_clock _ _).
  rewrite (final_pair (run env (callback_prog (callback t)) w1)).
  specialize (IH (final (run env (callback_prog (callback t)) w1))).
  destruct (fire_all env ts _) as [w2 o2]. simpl in *.
  eapply safe_trans; [| exact IH].
  apply (safe_callback env (callback t) w1).
Qed.

Lemma storage_onChanged ci w : storage (onChanged ci w) = storage w.
Proof.
  unfold onChanged, debounce, setTimeout, clearTimeout.
  destruct (concerns Instagram ci), (concerns LinkedIn ci); simpl;
  repeat (match goal with |- context [match ?x with _ => _ end] => destruct x end; simpl); reflexivity.
Qed.

Lemma safe_step (env : Env) (a : Action) (w : World) :
  is_logout a = false ->
  safe (storage w) (storage (fst (step env a w))).
Proof.
  intros Hl. destruct a as [d | ci | n | | m | m s |]; simpl.
  - unfold elapse.
    pose proof (safe_fire_all env (sort_by_due (List.filter (fun t => due t <=? clock w + d) (timers w))) w) as H.
    destruct (fire_all env _ w) as [w1 o1]. exact H.
  - rewrite storage_onChanged. apply safe_refl.
  - rewrite (final_pair (run env (onAlarm n) w)). apply safe_onAlarm.
  - apply safe_refl.
  - rewrite (final_pair (run env (onMessage m) w)). apply safe_onMessage. exact Hl.
  - rewrite (final_pair (run env (onMessageExternal m s) w)). apply safe_onMessageExternal.
  - apply safe_refl.
Qed.

Lemma ids_ok_remove (keys : list string) (s : gmap string string) :
  ids_ok s -> ids_ok (storage_remove keys s).
Proof.
  intros H p id. rewrite lookup_storage_remove.
  destruct (decide (account_id_key p ∈ keys)); [discriminate | apply H].
Qed.

Lemma ids_ok_step (env : Env) (a : Action) (w : World) :
  ids_ok (storage w) -> ids_ok (storage (fst (step env a w))).
Proof.
  intros H. destruct (is_logout a) eqn:Hl.
  - destruct a as [d | ci | n | | m | m s |]; try discriminate Hl.
    simpl in Hl. simpl. unfold onMessage. rewrite Hl.
    assert (Hne : forall s, s <> "LOGOUT" -> String.eqb (type m) s = false).
    { intros s Hs. apply String.eqb_eq in Hl. rewrite Hl.
      apply String.eqb_neq. congruence. }
    rewrite !Hne by discriminate.
    cbn -[storage_remove]. apply ids_ok_remove. exact H.
  - apply (safe_step env a w Hl). exact H.
Qed.

Lemma reachable_ids_ok (env : Env) (w : World) :
  reachable env w -> ids_ok (storage w).
Proof.
  induction 1 as [| a w Hw IH].
  - intros p id. simpl. rewrite lookup_empty. discriminate.
  - apply ids_ok_step. exact IH.
Qed.

Lemma reachable_exec (env : Env) (actions : list Action) (w : World) :
  reachable env w -> reachable env (fst (exec env actions w)).
Proof.
  revert w. induction actions as [| a actions IH]; intros w Hw; simpl; [exact Hw |].
  pose proof (reachable_step env a w Hw) as H1.
  destruct (step env a w) as [w1 o1]. simpl in H1.
  specialize (IH w1 H1). destruct (exec env actions w1) as [w2 o2]. exact IH.
Qed.

Lemma safe_exec (env : Env) (actions : list Action) (w : World) :
  forallb (fun a => negb (is_logout a)) actions = true ->
  safe (storage w) (storage (fst (exec env actions w))).
Proof.
  revert w. induction actions as [| a actions IH]; intros w Hall; simpl; [apply safe_refl |].
  simpl in Hall. apply andb_true_iff in Hall as [Ha Hall].
  apply negb_true_iff in Ha.
  pose proof (safe_step env a w Ha) as H1.
  destruct (step env a w) as [w1 o1]. simpl in H1.
  specialize (IH w1 Hall). destruct (exec env actions w1) as [w2 o2]. simpl in *.
  eapply safe_trans; eassumption.
Qed.

Lemma requests_of_sync (env : Env) (p : Platform) (w : World) :
  requests (observed (run env (sync p) w)) = []
  \/ requests (observed (run env (sync p) w)) = [sync_request env p w].
Proof.
  rewrite observed_sync. destruct (outcome env p w); simpl; auto.
Qed.

Lemma url_of_sync_request (env : Env) (p : Platform) (w : World) :
  ids_ok (storage w) ->
  url (sync_request env p w)
  = match storage w !! account_id_key p with
    | Some id => refresh_endpoint p id
    | None => connect_endpoint p
    end.
Proof.
  intros Hok. simpl. destruct (storage w !! account_id_key p) as [id |] eqn:Hid.
  - apply Hok in Hid. apply truthy_Some in Hid. rewrite Hid. reflexivity.
  - reflexivity.
Qed.

(** The two endpoints, spelled out. *)
Example endpoint_urls (id : string) :
  connect_endpoint LinkedIn
  = "https://api.dialogbrain.com/api/channels/linkedin/accounts/connect/cookie"
  /\ refresh_endpoint Instagram id
     = "https://api.dialogbrain.com/api/channels/instagram/accounts/" +:+ id +:+ "/sync-cookie".
Proof. split; reflexivity. Qed.

(* ===================================================================== *)
(** ** Endpoint selection                                                  *)
(* ===================================================================== *)

(** Runs that do not overlap.  A sync run sends at most one request.
    If it sends one, the request goes to the refresh endpoint
    [.../accounts/<id>/sync-cookie] when the storage holds the account id
    [<id>] of the platform, and to the create endpoint
    [.../accounts/connect/cookie] when it holds none: the choice is made
    from the storage as it is when the run starts.  So after a run that
    stored an id where there was none, whatever the worker does next
    short of a LOGOUT, as long as every routine ends before the next
    thing happens ([exec]), every later run for the platform that sends
    a request sends it to the refresh endpoint with that id.  For runs
    that overlap see [play] and the end of this file. *)
Theorem endpoint_in_turn (env : Env) (p : Platform) (w : World) :
  reachable env w ->
  (length (requests (observed (run env (sync p) w))) <= 1)%nat
  /\ Forall (fun req =>
               url req = match storage w !! account_id_key p with
                         | Some id => refresh_endpoint p id
                         | None => connect_endpoint p
                         end)
            (requests (observed (run env (sync p) w)))
  /\ (forall id actions,
        storage w !! account_id_key p = None ->
        storage (final (run env (sync p) w)) !! account_id_key p = Some id ->
        forallb (fun a => negb (is_logout a)) actions = true ->
        Forall (fun req => url req = refresh_endpoint p id)
               (requests (observed (run env (sync p)
                  (fst (exec env actions (final (run env (sync p) w)))))))).
Proof.
  intros Hw. pose proof (reachable_ids_ok env w Hw) as Hok.
  assert (Hone : forall v, ids_ok (storage v) ->
            Forall (fun req =>
                      url req = match storage v !! account_id_key p with
                                | Some id => refresh_endpoint p id
                                | None => connect_endpoint p
                                end)
                   (requests (observed (run env (sync p) v)))).
  { intros v Hv. destruct (requests_of_sync env p v) as [-> | ->]; [constructor |].
    constructor; [| constructor]. apply url_of_sync_request. exact Hv. }
  split; [| split].
  - destruct (requests_of_sync env p w) as [-> | ->]; simpl; lia.
  - apply Hone. exact Hok.
  - intros id actions Hnone Hset Hall.
    destruct (safe_sync env p w Hok) as [_ Hok1].
    destruct (safe_exec env actions _ Hall Hok1) as [Hkept Hok2].
    specialize (Hone _ Hok2). rewrite (Hkept p id Hset) in Hone. exact Hone.
Qed.

(* ===================================================================== *)
(** ** The linked account id                                               *)
(* ===================================================================== *)

(** Runs that do not overlap.  A sync run of a platform leaves the
    storage as it is, or else the platform had no account id, the
    response was ok (2xx) and carried a non-empty [account_id], and the
    storage gained exactly that id.  A stored account id survives every
    sync run that starts after it was stored, of either platform, and
    every other thing the worker does when every routine ends before the
    next thing happens ([step]), except the LOGOUT message, which removes
    it.  For runs that overlap see [play] and the end of this file. *)
Theorem linkage_in_turn (env : Env) (p : Platform) (w : World) :
  reachable env w ->
  (storage (final (run env (sync p) w)) = storage w
   \/ (storage w !! account_id_key p = None
       /\ exists r data id,
            fetch_at env (clock w) (sync_request env p w) = Resolved r
            /\ ok r = true /\ json r = Resolved data
            /\ account_id data = Some id /\ id <> ""
            /\ storage (final (run env (sync p) w))
               = <[account_id_key p := id]> (storage w)))
  /\ (forall id q,
        storage w !! account_id_key p = Some id ->
        storage (final (run env (sync q) w)) !! account_id_key p = Some id)
  /\ (forall id a,
        storage w !! account_id_key p = Some id ->
        is_logout a = false ->
        storage (fst (step env a w)) !! account_id_key p = Some id)
  /\ (forall a,
        is_logout a = true ->
        storage (fst (step env a w)) !! account_id_key p = None).
Proof.
  intros Hw. pose proof (reachable_ids_ok env w Hw) as Hok.
  split; [| split; [| split]].
  - destruct (storage_after_sync env p w) as [H | (Hold & H)]; [left; exact H | right].
    split; [| exact H].
    destruct (storage w !! account_id_key p) as [id |] eqn:Hid; [| reflexivity].
    apply Hok in Hid. apply truthy_Some in Hid. congruence.
  - intros id q Hid. apply (safe_sync env q w Hok). exact Hid.
  - intros id a Hid Hl. apply (safe_step env a w Hl Hok). exact Hid.
  - intros a Hl. destruct a as [d | ci | n | | m | m s |]; try discriminate Hl.
    simpl in Hl. simpl. unfold onMessage. rewrite Hl.
    assert (Hne : forall s, s <> "LOGOUT" -> String.eqb (type m) s = false).
    { intros s Hs. apply String.eqb_eq in Hl. rewrite Hl.
      apply String.eqb_neq. congruence. }
    rewrite !Hne by discriminate.
    cbn -[storage_remove]. rewrite lookup_storage_remove. destruct p; reflexivity.
Qed.

Lemma reachable_linked_world : reachable sample_env_timed linked_world.
Proof. apply reachable_exec. apply reachable_initial. Qed.

Lemma linkage_in_turn_witness :
  storage linked_world !! account_id_key Instagram = Some "acc-1"
  /\ storage (fst (step sample_env_timed
                    (MessageExternal (sample_message "TRIGGER_SYNC" (Some "all"))
                                     {| origin := Some "http://localhost:3000" |})
                    linked_world)) !! account_id_key Instagram = Some "acc-1".
Proof.
  split; [vm_compute; reflexivity |].
  apply (linkage_in_turn sample_env_timed Instagram linked_world reachable_linked_world).
  - vm_compute. reflexivity.
  - reflexivity.
Defined.

Lemma reachable_logged_in_world (env : Env) : reachable env logged_in_world.
Proof.
  apply (reachable_step env (MessageInternal (sample_message "SET_AUTH_TOKEN" None))
           initial_world (reachable_initial env)).
Qed.

Lemma endpoint_in_turn_witness :
  Forall (fun req => url req = connect_endpoint Instagram)
         (requests (observed (run sample_env_timed (sync Instagram) logged_in_world)))
  /\ Forall (fun req => url req = refresh_endpoint Instagram "acc-1")
       (requests (observed (run sample_env_timed (sync Instagram)
          (fst (exec sample_env_timed
                  [Elapse 5000; Alarm "fallbackSync"; Restart;
                   MessageExternal (sample_message "TRIGGER_SYNC" (Some "all"))
                                   {| origin := Some "http://localhost:3000" |}]
                  (final (run sample_env_timed (sync Instagram) logged_in_world))))))).
Proof.
  destruct (endpoint_in_turn sample_env_timed Instagram logged_in_world
              (reachable_logged_in_world sample_env_timed)) as (_ & H1 & H2).
  split.
  - exact H1.
  - apply H2.
    + vm_compute. reflexivity.
    + vm_compute. reflexivity.
    + reflexivity.
Defined.

(* ===================================================================== *)
(** ** Timers                                                              *)
(* ===================================================================== *)

Lemma filter_Permutation' {A : Type} (f : A -> bool) (l l' : list A) :
  Permutation l l' -> Permutation (List.filter f l) (List.filter f l').
Proof.
  induction 1 as [| x l l' H IH | x y l | l l' l'' H1 IH1 H2 IH2]; simpl.
  - constructor.
  - destruct (f x); [constructor |]; exact IH.
  - destruct (f x), (f y); try reflexivity. constructor.
  - etransitivity; eassumption.
Qed.

Lemma insert_by_due_Permutation (t : Timer) (ts : list Timer) :
  Permutation (insert_by_due t ts) (t :: ts).
Proof.
  induction ts as [| t' ts IH]; simpl; [reflexivity |].
  destruct (due t <? due t'); [reflexivity |].
  etransitivity; [apply perm_skip, IH | apply perm_swap].
Qed.

Lemma sort_by_due_Permutation (ts : list Timer) : Permutation (sort_by_due ts) ts.
Proof.
  unfold sort_by_due.
  assert (H : forall acc, Permutation (foldl (fun acc t => insert_by_due t acc) acc ts)
                                      (acc ++ ts)%list).
  { induction ts as [| t ts IH]; intros acc; simpl.
    - rewrite app_nil_r. reflexivity.
    - etransitivity; [apply IH |].
      etransitivity; [apply Permutation_app_tail, insert_by_due_Permutation |].
      simpl. apply Permutation_middle. }
  apply (H []).
Qed.

Lemma ascending_insert (t : Timer) (ts : list Timer) :
  ascending ts -> ascending (insert_by_due t ts).
Proof.
  induction ts as [| t' ts IH]; simpl; [intros _; split; [constructor | exact I] |].
  intros [Hall Hasc]. destruct (due t <? due t') eqn:Hlt.
  - apply N.ltb_lt in Hlt. simpl. split; [| split; assumption].
    constructor; [lia |].
    eapply Forall_impl; [exact Hall |]. simpl. intros a Ha. lia.
  - apply N.ltb_ge in Hlt. simpl. split; [| apply IH; exact Hasc].
    eapply Permutation_Forall; [symmetry; apply insert_by_due_Permutation |].
    constructor; [exact Hlt | exact Hall].
Qed.

Lemma ascending_sort_by_due (ts : list Timer) : ascending (sort_by_due ts).
Proof.
  unfold sort_by_due.
  assert (H : forall acc, ascending acc ->
                          ascending (foldl (fun acc t => insert_by_due t acc) acc ts)).
  { induction ts as [| t ts IH]; intros acc Hacc; simpl; [exact Hacc |].
    apply IH, ascending_insert, Hacc. }
  apply H. exact I.
Qed.

Lemma handle_not_fired {X : Type} (env : Env) (e : Eff X) (w : World) :
  List.filter is_fired (snd (handle env e w)) = [].
Proof. destruct e; reflexivity. Qed.

Lemma run_not_fired {A : Type} (env : Env) (m : Prog A) (w : World) :
  List.filter is_fired (observed (run env m w)) = [].
Proof.
  revert w. induction m as [a | X e k IH]; intros w; [reflexivity |].
  simpl. pose proof (handle_not_fired env e w) as Hh.
  destruct (handle env e w) as [[x w1] o1]. simpl in Hh.
  specialize (IH x w1). unfold observed in *.
  destruct (run env (k x) w1) as [[a w2] o2]. simpl in *.
  rewrite List.filter_app, Hh, IH. reflexivity.
Qed.

Lemma filter_twice {A : Type} (f g : A -> bool) (l : list A) :
  List.filter f (List.filter g l) = List.filter (fun x => g x && f x) l.
Proof.
  induction l as [| x l IH]; [reflexivity |].
  cbn [List.filter]. destruct (g x); cbn [andb List.filter]; [| exact IH].
  destruct (f x); rewrite IH; reflexivity.
Qed.

Lemma filter_swap {A : Type} (f g : A -> bool) (l : list A) :
  List.filter f (List.filter g l) = List.filter g (List.filter f l).
Proof.
  rewrite !filter_twice. apply filter_ext. intros x. apply andb_comm.
Qed.

Lemma cleared_cons (id : N) (ids : list N) (l : list Timer) :
  cleared ids (cleared [id] l) = cleared (id :: ids) l.
Proof.
  unfold cleared. rewrite filter_twice. apply filter_ext. intros t.
  cbn [existsb]. destruct (timer_id t =? id), (existsb (N.eqb (timer_id t)) ids);
    reflexivity.
Qed.

Lemma clearTimeout_cleared (id : N) (w : World) :
  timers (clearTimeout id w) = cleared [id] (timers w).
Proof.
  unfold clearTimeout, cleared. simpl. apply filter_ext. intros t.
  rewrite orb_false_r. reflexivity.
Qed.

Lemma fire_eq (env : Env) (t : Timer) (w : World) :
  fire env t w =
  let w1 := with_clock (N.max (clock w) (due t)) (clearTimeout (timer_id t) w) in
  (final (run env (callback_prog (callback t)) w1),
   ObsFired (N.max (clock w) (due t)) (callback t)
   :: observed (run env (callback_prog (callback t)) w1)).
Proof.
  unfold fire. cbv zeta.
  rewrite (final_pair (run env (callback_prog (callback t)) _)). reflexivity.
Qed.

Lemma fire_all_cons (env : Env) (t : Timer) (ts : list Timer) (w : World) :
  fire_all env (t :: ts) w =
  (fst (fire_all env ts (fst (fire env t w))),
   (snd (fire env t w) ++ snd (fire_all env ts (fst (fire env t w))))%list).
Proof.
  cbn [fire_all]. destruct (fire env t w) as [w1 o1]. cbn [fst snd].
  destruct (fire_all env ts w1) as [w2 o2]. reflexivity.
Qed.

Lemma fire_spec (env : Env) (t : Timer) (w : World) :
  timers (fst (fire env t w)) = cleared [timer_id t] (timers w)
  /\ pendingSyncs (fst (fire env t w)) = pendingSyncs w
  /\ next_timer_id (fst (fire env t w)) = next_timer_id w
  /\ clock (fst (fire env t w)) = N.max (clock w) (due t)
  /\ List.filter is_fired (snd (fire env t w))
     = [ObsFired (N.max (clock w) (due t)) (callback t)].
Proof.
  rewrite fire_eq. cbv zeta. cbn [fst snd].
  set (w1 := with_clock (N.max (clock w) (due t)) (clearTimeout (timer_id t) w)).
  destruct (run_frame env (callback_prog (callback t)) w1) as (F1 & F2 & F3 & F4).
  rewrite F1, F2, F3, F4.
  repeat split.
  - apply clearTimeout_cleared.
  - cbn [List.filter is_fired]. rewrite run_not_fired. reflexivity.
Qed.

Lemma fire_all_spec (env : Env) (ts : list Timer) (w : World) :
  timers (fst (fire_all env ts w)) = cleared (map timer_id ts) (timers w)
  /\ pendingSyncs (fst (fire_all env ts w)) = pendingSyncs w
  /\ next_timer_id (fst (fire_all env ts w)) = next_timer_id w
  /\ List.filter is_fired (snd (fire_all env ts w)) = fire_times (clock w) ts.
Proof.
  revert w. induction ts as [| t ts IH]; intros w.
  - cbn [fire_all fst snd map fire_times List.filter]. unfold cleared.
    repeat split.
    symmetry. apply forallb_filter_id. apply forallb_forall. reflexivity.
  - rewrite fire_all_cons. cbn [fst snd map fire_times].
    destruct (fire_spec env t w) as (F1 & F2 & F3 & F4 & F5).
    destruct (IH (fst (fire env t w))) as (I1 & I2 & I3 & I4).
    repeat split.
    + rewrite I1, F1. apply cleared_cons.
    + rewrite I2, F2. reflexivity.
    + rewrite I3, F3. reflexivity.
    + rewrite List.filter_app, F5, I4, F4. reflexivity.
Qed.

Lemma fired_filter (p : Platform) (obs : list Obs) :
  fired p (List.filter is_fired obs) = fired p obs.
Proof.
  induction obs as [| o obs IH]; [reflexivity |].
  destruct o as [req | v | t cb]; cbn [List.filter is_fired]; [exact IH | exact IH |].
  unfold fired in *. cbn [flat_map]. rewrite IH. reflexivity.
Qed.

Lemma fired_app (p : Platform) (o1 o2 : list Obs) :
  fired p (o1 ++ o2) = (fired p o1 ++ fired p o2)%list.
Proof. unfold fired. apply flat_map_app. Qed.

Lemma fire_times_ascending (c : N) (ts : list Timer) :
  ascending ts -> Forall (fun t => c <= due t) ts ->
  fire_times c ts = map (fun t => ObsFired (due t) (callback t)) ts.
Proof.
  revert c. induction ts as [| t ts IH]; intros c Hasc Hc; [reflexivity |].
  cbn [fire_times map]. destruct Hasc as [Hle Hasc].
  inversion Hc as [| ? ? Hct Hcts]; subst.
  rewrite N.max_r by exact Hct. rewrite (IH (due t) Hasc Hle). reflexivity.
Qed.

Lemma fired_map (p : Platform) (ts : list Timer) :
  fired p (map (fun t => ObsFired (due t) (callback t)) ts)
  = map due (List.filter (is_debounce p) ts).
Proof.
  induction ts as [| t ts IH]; [reflexivity |].
  unfold fired in *. cbn [map flat_map List.filter]. rewrite IH.
  unfold is_debounce. destruct (callback t) as [q |]; [| reflexivity].
  destruct (Platform_eqb p q); reflexivity.
Qed.

Lemma NoDup_map_eq {A B : Type} (f : A -> B) (l : list A) (x y : A) :
  NoDup (map f l) -> In x l -> In y l -> f x = f y -> x = y.
Proof.
  induction l as [| a l IH]; intros Hnd Hx Hy Hf; [destruct Hx |].
  cbn [map] in Hnd. apply NoDup_cons in Hnd as [Hna Hnd].
  destruct Hx as [-> | Hx], Hy as [-> | Hy].
  - reflexivity.
  - exfalso. apply Hna. rewrite Hf. apply list_elem_of_In, in_map, Hy.
  - exfalso. apply Hna. rewrite <- Hf. apply list_elem_of_In, in_map, Hx.
  - apply IH; assumption.
Qed.

Lemma pending_debounce_short (p : Platform) (w : World) :
  timers_ok w -> (length (pending_debounce p w) <= 1)%nat.
Proof.
  intros Hok. pose proof (ok_pending w Hok p) as Hp.
  pose proof (ok_nodup w Hok) as Hnd.
  assert (Hsub : forall x, In x (pending_debounce p w) -> In x (timers w)).
  { intros x Hx. apply filter_In in Hx. tauto. }
  assert (Hnd' : NoDup (pending_debounce p w)).
  { apply NoDup_ListNoDup, List.NoDup_filter, NoDup_ListNoDup.
    eapply NoDup_fmap_1. exact Hnd. }
  destruct (pending_debounce p w) as [| a [| b l]]; simpl; try lia.
  exfalso.
  inversion Hp as [| ? ? Ha Hp']; subst. inversion Hp' as [| ? ? Hb _]; subst.
  assert (a = b).
  { apply (NoDup_map_eq timer_id (timers w)); [exact Hnd | | | congruence];
      apply Hsub; simpl; auto. }
  subst b. apply NoDup_cons in Hnd' as [Hna _]. apply Hna. left.
Qed.

Lemma elapse_eq (env : Env) (d : N) (w : World) :
  elapse env d w =
  let due_now := sort_by_due (List.filter (fun t => due t <=? clock w + d) (timers w)) in
  (with_clock (clock w + d) (fst (fire_all env due_now w)), snd (fire_all env due_now w)).
Proof.
  unfold elapse. cbv zeta. destruct (fire_all env _ w) as [w1 o1]. reflexivity.
Qed.

Lemma in_due_now (d : N) (w : World) (t : Timer) :
  In t (sort_by_due (List.filter (fun t => due t <=? clock w + d) (timers w)))
  <-> In t (timers w) /\ due t <= clock w + d.
Proof.
  rewrite <- N.leb_le, <- (filter_In (fun t => due t <=? clock w + d)).
  split; apply Permutation_in;
    [apply sort_by_due_Permutation | symmetry; apply sort_by_due_Permutation].
Qed.

Lemma elapse_spec (env : Env) (d : N) (w : World) :
  timers_ok w ->
  timers (fst (elapse env d w))
  = List.filter (fun t => negb (due t <=? clock w + d)) (timers w)
  /\ pendingSyncs (fst (elapse env d w)) = pendingSyncs w
  /\ next_timer_id (fst (elapse env d w)) = next_timer_id w
  /\ clock (fst (elapse env d w)) = clock w + d
  /\ forall p, fired p (snd (elapse env d w))
               = map due (List.filter (fun t => due t <=? clock w + d)
                                      (pending_debounce p w)).
Proof.
  intros Hok. rewrite elapse_eq. cbv zeta. cbn [fst snd].
  set (due_now := sort_by_due (List.filter (fun t => due t <=? clock w + d) (timers w))).
  destruct (fire_all_spec env due_now w) as (F1 & F2 & F3 & F4).
  cbn [timers pendingSyncs next_timer_id clock with_clock].
  split; [| split; [exact F2 | split; [exact F3 | split; [reflexivity |]]]].
  - rewrite F1. unfold cleared. apply filter_ext_in. intros t Ht. f_equal.
    destruct (due t <=? clock w + d) eqn:Hdue.
    + apply existsb_exists. exists (timer_id t). split; [| apply N.eqb_refl].
      apply in_map. apply in_due_now. split; [exact Ht | apply N.leb_le, Hdue].
    + destruct (existsb (N.eqb (timer_id t)) (map timer_id due_now)) eqn:Hex;
        [| reflexivity].
      apply existsb_exists in Hex as (id & Hin & Heq). apply N.eqb_eq in Heq. subst id.
      apply in_map_iff in Hin as (y & Hid & Hy). apply in_due_now in Hy as [Hy Hdy].
      assert (y = t) by (apply (NoDup_map_eq timer_id (timers w));
                         [apply (ok_nodup w Hok) | exact Hy | exact Ht | exact Hid]).
      subst y. apply N.leb_le in Hdy. congruence.
  - intros p. rewrite <- fired_filter, F4.
    rewrite fire_times_ascending.
    + rewrite fired_map.
      assert (Hperm : Permutation (List.filter (is_debounce p) due_now)
                        (List.filter (fun t => due t <=? clock w + d)
                                     (pending_debounce p w))).
      { unfold pending_debounce. rewrite filter_swap.
        apply filter_Permutation', sort_by_due_Permutation. }
      pose proof (pending_debounce_short p w Hok) as Hshort.
      set (sel := List.filter (fun t => due t <=? clock w + d) (pending_debounce p w))
        in *.
      assert (Hlen : (length sel <= 1)%nat).
      { etransitivity; [apply List.filter_length_le | exact Hshort]. }
      destruct sel as [| a [| b l]].
      * apply Permutation_sym, Permutation_nil in Hperm. rewrite Hperm. reflexivity.
      * apply Permutation_sym, Permutation_length_1_inv in Hperm. rewrite Hperm.
        reflexivity.
      * simpl in Hlen. lia.
    + apply ascending_sort_by_due.
    + apply Forall_forall. intros t Ht. apply list_elem_of_In, in_due_now in Ht as [Ht _].
      pose proof (ok_future w Hok) as Hf. rewrite Forall_forall in Hf.
      apply N.lt_le_incl, Hf, list_elem_of_In, Ht.
Qed.

Lemma pending_debounce_filter (p : Platform) (g : Timer -> bool) (w : World) :
  pending_debounce p (with_timers (List.filter g (timers w)) w)
  = List.filter g (pending_debounce p w).
Proof. unfold pending_debounce. cbn [timers with_timers]. apply filter_swap. Qed.

Lemma Forall_filter' {A : Type} (P : A -> Prop) (g : A -> bool) (l : list A) :
  Forall P l -> Forall P (List.filter g l).
Proof.
  intros H. apply Forall_forall. intros x Hx. rewrite Forall_forall in H. apply H.
  apply list_elem_of_In. apply list_elem_of_In in Hx. apply filter_In in Hx. tauto.
Qed.

Lemma NoDup_map_filter (g : Timer -> bool) (l : list Timer) :
  NoDup (map timer_id l) -> NoDup (map timer_id (List.filter g l)).
Proof.
  induction l as [| t l IH]; [intros H; exact H |].
  cbn [map List.filter]. intros H. apply NoDup_cons in H as [Hn Hnd].
  destruct (g t); [| apply IH, Hnd].
  cbn [map]. apply NoDup_cons. split; [| apply IH, Hnd].
  intros Hin. apply Hn. apply list_elem_of_In in Hin. apply list_elem_of_In.
  apply in_map_iff in Hin as (y & Hy & Hin). apply in_map_iff. exists y.
  split; [exact Hy |]. apply filter_In in Hin. tauto.
Qed.

(** Dropping timers keeps the timers in order. *)
Lemma timers_ok_filter (g : Timer -> bool) (w : World) :
  timers_ok w -> timers_ok (with_timers (List.filter g (timers w)) w).
Proof.
  intros [H1 H2 H3 H4 H5]. constructor.
  - apply Forall_filter', H1.
  - apply Forall_filter', H2.
  - apply NoDup_map_filter, H3.
  - exact H4.
  - intros p. rewrite pending_debounce_filter. apply Forall_filter', H5.
Qed.

(** A program leaves the timers in order. *)
Lemma timers_ok_run {A : Type} (env : Env) (m : Prog A) (w : World) :
  timers_ok w -> timers_ok (final (run env m w)).
Proof.
  intros [H1 H2 H3 H4 H5].
  destruct (run_frame env m w) as (F1 & F2 & F3 & F4).
  constructor; unfold pending_debounce; rewrite ?F1, ?F2, ?F3, ?F4; assumption.
Qed.

Lemma timers_ok_elapse (env : Env) (d : N) (w : World) :
  timers_ok w -> timers_ok (fst (elapse env d w)).
Proof.
  intros Hok. destruct (elapse_spec env d w Hok) as (E1 & E2 & E3 & E4 & _).
  pose proof (timers_ok_filter (fun t => negb (due t <=? clock w + d)) w Hok)
    as [H1 H2 H3 H4 H5].
  cbn [timers with_timers next_timer_id pendingSyncs clock] in *.
  constructor; unfold pending_debounce in *; rewrite ?E1, ?E2, ?E3, ?E4;
    try assumption.
  apply Forall_forall. intros t Ht. apply list_elem_of_In, filter_In in Ht as [_ Ht].
  apply negb_true_iff, N.leb_gt in Ht. exact Ht.
Qed.

Lemma Platform_eqb_eq (p q : Platform) : Platform_eqb p q = true <-> p = q.
Proof. destruct p, q; simpl; split; intros H; congruence. Qed.

Lemma Platform_eqb_refl (p : Platform) : Platform_eqb p p = true.
Proof. destruct p; reflexivity. Qed.

(** Before the listener sets the new timer, no debounce timer of the
    platform is left. *)
Lemma debounce_clears (p : Platform) (w : World) :
  timers_ok w ->
  let w1 := match get p (pendingSyncs w) with
            | Some id => if id =? 0 then w else clearTimeout id w
            | None => w
            end in
  timers_ok w1 /\ pending_debounce p w1 = []
  /\ pendingSyncs w1 = pendingSyncs w /\ next_timer_id w1 = next_timer_id w
  /\ clock w1 = clock w /\ storage w1 = storage w.
Proof.
  intros Hok. cbv zeta.
  pose proof (ok_pending w Hok p) as Hp. pose proof (ok_fresh w Hok) as Hfresh.
  assert (Hsub : Forall (fun t => 0 < timer_id t) (pending_debounce p w)).
  { apply Forall_filter'. eapply Forall_impl; [exact Hfresh |]. simpl. tauto. }
  destruct (get p (pendingSyncs w)) as [id |] eqn:Hget.
  - destruct (id =? 0) eqn:Hz.
    + apply N.eqb_eq in Hz. subst id.
      split; [exact Hok |]. split; [| auto].
      destruct (pending_debounce p w) as [| t l]; [reflexivity |].
      inversion Hp as [| ? ? Ht _]; subst. inversion Hsub as [| ? ? Hpos _]; subst.
      injection Ht as Ht. lia.
    + split; [apply (timers_ok_filter _ w Hok) |]. split; [| auto].
      unfold clearTimeout. rewrite pending_debounce_filter.
      induction (pending_debounce p w) as [| t l IH]; [reflexivity |].
      inversion Hp as [| ? ? Ht Hl]; subst. inversion Hsub as [| ? ? _ Hs]; subst.
      injection Ht as Ht. cbn [List.filter]. rewrite <- Ht, N.eqb_refl. cbn [negb].
      apply IH; assumption.
  - split; [exact Hok |]. split; [| auto].
    destruct (pending_debounce p w) as [| t l]; [reflexivity |].
    inversion Hp as [| ? ? Ht _]; subst. discriminate Ht.
Qed.

Lemma pending_debounce_app (p : Platform) (l : list Timer) (t : Timer) :
  List.filter (is_debounce p) (l ++ [t])
  = (List.filter (is_debounce p) l ++ if is_debounce p t then [t] else [])%list.
Proof. rewrite List.filter_app. cbn [List.filter]. destruct (is_debounce p t); reflexivity. Qed.

Lemma is_debounce_other (p q : Platform) (t : Timer) :
  q <> p -> callback t = DebouncedSync p -> is_debounce q t = false.
Proof.
  intros Hne Hcb. unfold is_debounce. rewrite Hcb.
  destruct q, p; try reflexivity; congruence.
Qed.

(** After the listener's debounce the timers are in order, and the
    platform has exactly one debounce timer, due a quiet period from
    now. *)
Lemma debounce_spec (p : Platform) (w : World) :
  timers_ok w ->
  timers_ok (debounce p w)
  /\ pending_debounce p (debounce p w)
     = [{| timer_id := next_timer_id w; due := clock w + CONFIG.DEBOUNCE_MS;
           callback := DebouncedSync p |}]
  /\ clock (debounce p w) = clock w
  /\ storage (debounce p w) = storage w.
Proof.
  intros Hok. unfold debounce.
  destruct (debounce_clears p w Hok) as (Hok1 & Hnone & Hpend & Hnext & Hclock & Hst).
  set (w1 := match get p (pendingSyncs w) with
             | Some id => if id =? 0 then w else clearTimeout id w
             | None => w
             end) in *.
  unfold setTimeout, with_pendingSyncs. cbn [pendingSyncs timers next_timer_id clock storage syncStatus].
  destruct Hok1 as [H1 H2 H3 H4 H5].
  rewrite Hnext, Hclock, Hst.
  split; [| split; [| split; reflexivity]].
  - constructor; cbn [timers next_timer_id clock pendingSyncs].
    + apply Forall_app. split; [rewrite <- Hclock; exact H1 |].
      constructor; [| constructor]. cbn [due]. unfold CONFIG.DEBOUNCE_MS. lia.
    + apply Forall_app. split.
      * eapply Forall_impl; [exact H2 |]. simpl. intros t Ht. lia.
      * constructor; [| constructor]. cbn [timer_id]. rewrite <- Hnext. lia.
    + rewrite map_app. cbn [map timer_id]. apply NoDup_app. split; [exact H3 |].
      split; [| apply NoDup_singleton].
      intros id Hin Hnew. apply list_elem_of_singleton in Hnew. subst id.
      apply list_elem_of_In, in_map_iff in Hin as (t & Hid & Hin).
      rewrite Forall_forall in H2. specialize (H2 t (proj2 (list_elem_of_In _ _) Hin)).
      lia.
    + lia.
    + intros q. unfold pending_debounce. cbn [timers]. rewrite pending_debounce_app.
      apply Forall_app. split.
      * destruct (decide (q = p)) as [-> | Hne].
        -- unfold pending_debounce in Hnone. rewrite Hnone. constructor.
        -- rewrite get_set_other by congruence. apply H5.
      * destruct (is_debounce q _) eqn:Hq; [| constructor].
        unfold is_debounce in Hq. cbn [callback] in Hq. apply Platform_eqb_eq in Hq.
        subst q. constructor; [| constructor]. cbn [timer_id]. rewrite get_set_same.
        reflexivity.
  - unfold pending_debounce in *. cbn [timers]. rewrite pending_debounce_app, Hnone.
    unfold is_debounce. cbn [callback]. rewrite Platform_eqb_refl. reflexivity.
Qed.

(** No cookie name is watched for both platforms. *)
Lemma concerns_exclusive (ci : ChangeInfo) :
  concerns Instagram ci = true -> concerns LinkedIn ci = false.
Proof.
  unfold concerns, list_includes, INSTAGRAM_COOKIES, LINKEDIN_COOKIES.
  intros H. apply andb_true_iff in H as [_ H]. apply andb_false_iff. right.
  cbn [existsb] in *.
  repeat (apply orb_true_iff in H as [H | H];
          [apply String.eqb_eq in H; rewrite H; reflexivity |]).
  discriminate H.
Qed.

Lemma onChanged_concerns (p : Platform) (ci : ChangeInfo) (w : World) :
  concerns p ci = true -> onChanged ci w = debounce p w.
Proof.
  intros H. unfold onChanged. destruct p.
  - rewrite H, (concerns_exclusive ci H). reflexivity.
  - destruct (concerns Instagram ci) eqn:Hi.
    + rewrite (concerns_exclusive ci Hi) in H. discriminate H.
    + rewrite H. reflexivity.
Qed.

Lemma timers_ok_onChanged (ci : ChangeInfo) (w : World) :
  timers_ok w -> timers_ok (onChanged ci w).
Proof.
  intros Hok. unfold onChanged.
  assert (H1 : timers_ok (if concerns Instagram ci then debounce Instagram w else w)).
  { destruct (concerns Instagram ci); [apply debounce_spec |]; exact Hok. }
  destruct (concerns LinkedIn ci); [apply debounce_spec |]; exact H1.
Qed.

Lemma timers_ok_onInstalled (w : World) :
  timers_ok w -> timers_ok (onInstalled w).
Proof.
  intros [H1 H2 H3 H4 H5]. unfold onInstalled, setTimeout. cbn [snd].
  constructor; cbn [timers next_timer_id clock pendingSyncs].
  - apply Forall_app. split; [exact H1 |]. constructor; [| constructor]. cbn [due]. lia.
  - apply Forall_app. split.
    + eapply Forall_impl; [exact H2 |]. simpl. intros t Ht. lia.
    + constructor; [| constructor]. cbn [timer_id]. lia.
  - rewrite map_app. cbn [map timer_id]. apply NoDup_app. split; [exact H3 |].
    split; [| apply NoDup_singleton].
    intros id Hin Hnew. apply list_elem_of_singleton in Hnew. subst id.
    apply list_elem_of_In, in_map_iff in Hin as (t & Hid & Hin).
    rewrite Forall_forall in H2. specialize (H2 t (proj2 (list_elem_of_In _ _) Hin)).
    lia.
  - lia.
  - intros q. unfold pending_debounce. cbn [timers]. rewrite pending_debounce_app.
    cbn [is_debounce callback]. rewrite app_nil_r. apply H5.
Qed.

Lemma timers_ok_initial : timers_ok initial_world.
Proof.
  constructor; cbn [initial_world timers next_timer_id].
  - constructor.
  - constructor.
  - constructor.
  - lia.
  - intros p. constructor.
Qed.

Lemma timers_ok_restart (w : World) : timers_ok (restart w).
Proof.
  constructor; cbn [restart timers next_timer_id].
  - constructor.
  - constructor.
  - constructor.
  - lia.
  - intros p. constructor.
Qed.

Lemma timers_ok_step (env : Env) (a : Action) (w : World) :
  timers_ok w -> timers_ok (fst (step env a w)).
Proof.
  intros Hok. destruct a as [d | ci | n | | m | m s |]; cbn [step].
  - apply timers_ok_elapse, Hok.
  - apply timers_ok_onChanged, Hok.
  - rewrite (final_pair (run env (onAlarm n) w)). apply timers_ok_run, Hok.
  - apply timers_ok_onInstalled, Hok.
  - rewrite (final_pair (run env (onMessage m) w)). apply timers_ok_run, Hok.
  - rewrite (final_pair (run env (onMessageExternal m s) w)). apply timers_ok_run, Hok.
  - apply timers_ok_restart.
Qed.

Lemma reachable_timers_ok (env : Env) (w : World) :
  reachable env w -> timers_ok w.
Proof.
  induction 1 as [| a w Hw IH]; [apply timers_ok_initial | apply timers_ok_step, IH].
Qed.

Lemma exec_cons (env : Env) (a : Action) (actions : list Action) (w : World) :
  exec env (a :: actions) w =
  (fst (exec env actions (fst (step env a w))),
   (snd (step env a w) ++ snd (exec env actions (fst (step env a w))))%list).
Proof.
  cbn [exec]. destruct (step env a w) as [w1 o1]. cbn [fst snd].
  destruct (exec env actions w1) as [w2 o2]. reflexivity.
Qed.

Lemma exec_app (env : Env) (xs ys : list Action) (w : World) :
  exec env (xs ++ ys) w =
  (fst (exec env ys (fst (exec env xs w))),
   (snd (exec env xs w) ++ snd (exec env ys (fst (exec env xs w))))%list).
Proof.
  revert w. induction xs as [| a xs IH]; intros w.
  - cbn [app exec fst snd]. destruct (exec env ys w). reflexivity.
  - rewrite <- app_comm_cons, !exec_cons, IH. cbn [fst snd].
    rewrite app_assoc. reflexivity.
Qed.

Lemma pending_after_elapse (env : Env) (p : Platform) (d : N) (w : World) :
  timers_ok w ->
  pending_debounce p (fst (elapse env d w))
  = List.filter (fun t => negb (due t <=? clock w + d)) (pending_debounce p w).
Proof.
  intros Hok. destruct (elapse_spec env d w Hok) as (E1 & _).
  unfold pending_debounce. rewrite E1. apply filter_swap.
Qed.

(** Time passing with one debounce timer of the platform pending, due at
    [T]: before [T] it stays pending and nothing fires; once [T] is
    reached it fires, at [T], and is gone. *)
Lemma elapse_armed (env : Env) (p : Platform) (d : N) (w : World) (T : N) :
  timers_ok w -> map due (pending_debounce p w) = [T] ->
  (clock w + d < T ->
     fired p (snd (elapse env d w)) = []
     /\ map due (pending_debounce p (fst (elapse env d w))) = [T])
  /\ (T <= clock w + d ->
     fired p (snd (elapse env d w)) = [T]
     /\ pending_debounce p (fst (elapse env d w)) = []).
Proof.
  intros Hok HT. destruct (elapse_spec env d w Hok) as (_ & _ & _ & _ & Hf).
  rewrite (Hf p), (pending_after_elapse env p d w Hok).
  destruct (pending_debounce p w) as [| t [| t' l]]; try discriminate HT.
  cbn [map] in HT. injection HT as HT. cbn [List.filter]. rewrite HT.
  split; intros Hd.
  - apply N.leb_gt in Hd. rewrite Hd. cbn [negb map]. rewrite HT. split; reflexivity.
  - apply N.leb_le in Hd. rewrite Hd. cbn [negb map]. rewrite HT. split; reflexivity.
Qed.

Lemma elapse_disarmed (env : Env) (p : Platform) (d : N) (w : World) :
  timers_ok w -> pending_debounce p w = [] ->
  fired p (snd (elapse env d w)) = []
  /\ pending_debounce p (fst (elapse env d w)) = [].
Proof.
  intros Hok Hnone. destruct (elapse_spec env d w Hok) as (_ & _ & _ & _ & Hf).
  rewrite (Hf p), (pending_after_elapse env p d w Hok), Hnone. split; reflexivity.
Qed.

Lemma waits_disarmed (env : Env) (p : Platform) (waits : list N) (w : World) :
  timers_ok w -> pending_debounce p w = [] ->
  fired p (snd (exec env (map Elapse waits) w)) = [].
Proof.
  revert w. induction waits as [| d waits IH]; intros w Hok Hnone; [reflexivity |].
  cbn [map]. rewrite exec_cons. cbn [snd step fst].
  destruct (elapse_disarmed env p d w Hok Hnone) as [Hf Hp].
  rewrite fired_app, Hf, (IH _ (timers_ok_elapse env d w Hok) Hp). reflexivity.
Qed.

Lemma waits_armed (env : Env) (p : Platform) (waits : list N) (w : World) (T : N) :
  timers_ok w -> map due (pending_debounce p w) = [T] ->
  fired p (snd (exec env (map Elapse waits) w))
  = if T <=? clock w + total waits then [T] else [].
Proof.
  revert w. induction waits as [| d waits IH]; intros w Hok HT.
  - cbn [map exec snd total fold_right]. 
    assert (Hlt : clock w < T).
    { pose proof (ok_future w Hok) as Hf.
      destruct (pending_debounce p w) as [| t l] eqn:Hp; [discriminate HT |].
      injection HT as HT _. rewrite Forall_forall in Hf. rewrite <- HT. apply Hf.
      apply list_elem_of_In.
      assert (Hin : In t (pending_debounce p w)) by (rewrite Hp; left; reflexivity).
      apply filter_In in Hin. tauto. }
    rewrite N.add_0_r. apply N.leb_gt in Hlt. rewrite Hlt. reflexivity.
  - cbn [map]. rewrite exec_cons. cbn [snd step fst total fold_right].
    fold (total waits). rewrite fired_app.
    destruct (elapse_armed env p d w T Hok HT) as [Hearly Hlate].
    destruct (elapse_spec env d w Hok) as (_ & _ & _ & Hclock & _).
    pose proof (timers_ok_elapse env d w Hok) as Hok'.
    destruct (N.le_gt_cases T (clock w + d)) as [Hle | Hgt].
    + destruct (Hlate Hle) as [Hf Hp].
      rewrite Hf, (waits_disarmed env p waits _ Hok' Hp).
      assert (Hle' : T <= clock w + (d + total waits)) by lia.
      apply N.leb_le in Hle'. rewrite Hle'. reflexivity.
    + destruct (Hearly Hgt) as [Hf Hp].
      rewrite Hf, (IH _ Hok' Hp), Hclock, N.add_assoc. reflexivity.
Qed.

Lemma burst_rest (env : Env) (p : Platform) (rest : list (N * ChangeInfo)) (w : World) :
  timers_ok w ->
  map due (pending_debounce p w) = [clock w + CONFIG.DEBOUNCE_MS] ->
  Forall (fun gc => fst gc < CONFIG.DEBOUNCE_MS /\ concerns p (snd gc) = true) rest ->
  let r := exec env (flat_map (fun gc => [Elapse (fst gc); CookieChanged (snd gc)]) rest) w in
  timers_ok (fst r)
  /\ clock (fst r) = clock w + total (map fst rest)
  /\ map due (pending_debounce p (fst r)) = [clock (fst r) + CONFIG.DEBOUNCE_MS]
  /\ fired p (snd r) = [].
Proof.
  revert w. induction rest as [| [gap ci] rest IH]; intros w Hok HT Hall; cbv zeta.
  - cbn [flat_map exec fst snd map total fold_right]. rewrite N.add_0_r. auto.
  - inversion Hall as [| ? ? [Hgap Hci] Hrest]; subst. cbn [fst snd] in Hgap, Hci.
    cbn [flat_map app fst snd]. rewrite !exec_cons. cbn [fst snd step].
    destruct (elapse_armed env p gap w _ Hok HT) as [Hearly _].
    destruct (Hearly ltac:(lia)) as [Hf Hp].
    destruct (elapse_spec env gap w Hok) as (_ & _ & _ & Hclock & _).
    pose proof (timers_ok_elapse env gap w Hok) as Hok1.
    rewrite (onChanged_concerns p ci _ Hci).
    destruct (debounce_spec p _ Hok1) as (Hok2 & Hp2 & Hclock2 & _).
    assert (HT2 : map due (pending_debounce p (debounce p (fst (elapse env gap w))))
                  = [clock (debounce p (fst (elapse env gap w))) + CONFIG.DEBOUNCE_MS]).
    { rewrite Hp2, Hclock2. reflexivity. }
    specialize (IH _ Hok2 HT2 Hrest). cbv zeta in IH.
    destruct IH as (I1 & I2 & I3 & I4).
    split; [exact I1 |]. split; [| split; [exact I3 |]].
    + rewrite I2, Hclock2, Hclock. cbn [map total fold_right fst]. fold (total (map fst rest)).
      lia.
    + rewrite !fired_app, Hf, I4. reflexivity.
Qed.

(* ===================================================================== *)
(** ** Debounce coalescing                                                 *)
(* ===================================================================== *)

Lemma fired_run {A : Type} (env : Env) (p : Platform) (m : Prog A) (w : World) :
  fired p (observed (run env m w)) = [].
Proof. rewrite <- fired_filter, run_not_fired. reflexivity. Qed.

Lemma runs_sync_once_app (env : Env) (p : Platform) (t : N) (o1 o2 : list Obs) :
  (fired p o1 = [t] -> runs_sync_once env p t o1) ->
  (fired p o2 = [t] -> runs_sync_once env p t o2) ->
  fired p (o1 ++ o2) = [t] -> runs_sync_once env p t (o1 ++ o2).
Proof.
  intros H1 H2 H. rewrite fired_app in H.
  apply app_eq_unit in H as [[E1 E2] | [E1 E2]].
  - destruct (H2 E2) as (pre & started & post & -> & Hc & Hpre & Hpost).
    exists (o1 ++ pre)%list, started, post. rewrite <- app_assoc.
    split; [reflexivity |]. split; [exact Hc |]. split; [| exact Hpost].
    rewrite fired_app, E1, Hpre. reflexivity.
  - destruct (H1 E1) as (pre & started & post & -> & Hc & Hpre & Hpost).
    exists pre, started, (post ++ o2)%list.
    split; [| split; [exact Hc | split; [exact Hpre |]]].
    + rewrite <- !app_assoc. cbn [app]. rewrite <- app_assoc. reflexivity.
    + rewrite fired_app, Hpost, E2. reflexivity.
Qed.

Lemma fire_once (env : Env) (p : Platform) (t0 : N) (t : Timer) (w : World) :
  fired p (snd (fire env t w)) = [t0] -> runs_sync_once env p t0 (snd (fire env t w)).
Proof.
  rewrite fire_eq. cbv zeta. cbn [snd].
  set (w1 := with_clock (N.max (clock w) (due t)) (clearTimeout (timer_id t) w)).
  change (N.max (clock w) (due t)) with (clock w1).
  change (ObsFired (clock w1) (callback t)
          :: observed (run env (callback_prog (callback t)) w1))
    with ([ObsFired (clock w1) (callback t)]
          ++ observed (run env (callback_prog (callback t)) w1))%list.
  rewrite (fired_app p [ObsFired (clock w1) (callback t)]
             (observed (run env (callback_prog (callback t)) w1))).
  rewrite fired_run, app_nil_r.
  destruct (callback t) as [q |] eqn:Hcb; cbn [fired flat_map app]; [| discriminate].
  destruct (Platform_eqb p q) eqn:Hpq; [| discriminate].
  apply Platform_eqb_eq in Hpq. subst q. intros H. injection H as H.
  exists [], w1, []. cbn [app]. rewrite app_nil_r, <- H.
  split; [| split; [reflexivity | split; reflexivity]].
  destruct p; reflexivity.
Qed.

Lemma fire_all_once (env : Env) (p : Platform) (t0 : N) (ts : list Timer) (w : World) :
  fired p (snd (fire_all env ts w)) = [t0] ->
  runs_sync_once env p t0 (snd (fire_all env ts w)).
Proof.
  revert w. induction ts as [| t ts IH]; intros w; [discriminate |].
  rewrite fire_all_cons. cbn [snd].
  apply runs_sync_once_app; [apply fire_once | apply IH].
Qed.

Lemma step_once (env : Env) (p : Platform) (t0 : N) (a : Action) (w : World) :
  fired p (snd (step env a w)) = [t0] -> runs_sync_once env p t0 (snd (step env a w)).
Proof.
  destruct a as [d | ci | n | | m | m s |]; cbn [step snd]; try discriminate.
  - rewrite elapse_eq. cbv zeta. cbn [snd]. apply fire_all_once.
  - rewrite (final_pair (run env (onAlarm n) w)). cbn [snd].
    rewrite fired_run. discriminate.
  - rewrite (final_pair (run env (onMessage m) w)). cbn [snd].
    rewrite fired_run. discriminate.
  - rewrite (final_pair (run env (onMessageExternal m s) w)). cbn [snd].
    rewrite fired_run. discriminate.
Qed.

Lemma exec_once (env : Env) (p : Platform) (t0 : N) (actions : list Action) (w : World) :
  fired p (snd (exec env actions w)) = [t0] ->
  runs_sync_once env p t0 (snd (exec env actions w)).
Proof.
  revert w. induction actions as [| a actions IH]; intros w; [discriminate |].
  rewrite exec_cons. cbn [snd].
  apply runs_sync_once_app; [apply step_once | apply IH].
Qed.

(** The timers of a burst: when the debounce timer of the platform
    fires, what is pending after the burst, and that no platform ever
    has two debounce timers pending. *)
Lemma debounce_timers
    (env : Env) (p : Platform) (w : World)
    (first : ChangeInfo) (rest : list (N * ChangeInfo)) (waits : list N) :
  reachable env w ->
  concerns p first = true ->
  Forall (fun gc => fst gc < CONFIG.DEBOUNCE_MS /\ concerns p (snd gc) = true) rest ->
  let last := clock w + total (map fst rest) in
  fired p (snd (exec env (burst first rest ++ map Elapse waits) w))
  = (if CONFIG.DEBOUNCE_MS <=? total waits then [last + CONFIG.DEBOUNCE_MS] else [])
  /\ clock (fst (exec env (burst first rest) w)) = last
  /\ map due (pending_debounce p (fst (exec env (burst first rest) w)))
     = [last + CONFIG.DEBOUNCE_MS]
  /\ (forall q actions,
        (length (pending_debounce q (fst (exec env actions w))) <= 1)%nat).
Proof.
  intros Hw Hfirst Hrest. cbv zeta.
  pose proof (reachable_timers_ok env w Hw) as Hok.
  destruct (debounce_spec p w Hok) as (Hok1 & Hp1 & Hclock1 & _).
  assert (HT1 : map due (pending_debounce p (debounce p w))
                = [clock (debounce p w) + CONFIG.DEBOUNCE_MS]).
  { rewrite Hp1, Hclock1. reflexivity. }
  pose proof (burst_rest env p rest (debounce p w) Hok1 HT1 Hrest) as Hb.
  cbv zeta in Hb. destruct Hb as (B1 & B2 & B3 & B4).
  assert (Hburst : exec env (burst first rest) w
                   = exec env (flat_map (fun gc => [Elapse (fst gc); CookieChanged (snd gc)])
                                        rest) (debounce p w)).
  { unfold burst. rewrite exec_cons. cbn [step fst snd app].
    rewrite (onChanged_concerns p first w Hfirst).
    symmetry. apply surjective_pairing. }
  rewrite exec_app, Hburst. cbn [fst snd]. rewrite fired_app, B4. cbn [app].
  rewrite (waits_armed env p waits _ _ B1 B3), B2, Hclock1.
  split; [| split; [reflexivity | split; [rewrite B3, B2, Hclock1; reflexivity |]]].
  - destruct (N.leb_spec CONFIG.DEBOUNCE_MS (total waits)) as [Hle | Hgt].
    + assert (H : clock w + total (map fst rest) + CONFIG.DEBOUNCE_MS
                  <= clock w + total (map fst rest) + total waits) by lia.
      apply N.leb_le in H. rewrite H. reflexivity.
    + assert (H : clock w + total (map fst rest) + total waits
                  < clock w + total (map fst rest) + CONFIG.DEBOUNCE_MS) by lia.
      apply N.leb_gt in H. rewrite H. reflexivity.
  - intros q actions. apply pending_debounce_short, reachable_timers_ok with (env := env).
    apply reachable_exec, Hw.
Qed.



(* ===================================================================== *)
(** ** Sync runs whose awaits are answered arbitrarily                      *)
(* ===================================================================== *)

Ltac unfold_prog :=
  cbn [bind perform performed try_catch await_then promise_all map
       getInstagramCookies getLinkedInCookies INSTAGRAM_COOKIES].

Ltac walk :=
  unfold_prog;
  repeat (match goal with
          | |- context [performed _ _ (if ?c then _ else _)] => destruct c eqn:?
          | |- context [performed _ _ (match ?c with Resolved _ => _ | Rejected _ => _ end)] =>
              destruct c eqn:?
          | |- context [bind (if ?c then _ else _) _] => destruct c eqn:?
          | |- context [bind (match ?c with Resolved _ => _ | Rejected _ => _ end) _] =>
              destruct c eqn:?
          end; unfold_prog).

Lemma written_template (id : option string) (key : string) (c : bool) :
  truthy id && c = true -> fst (key, template id) = key /\ snd (key, template id) <> "".
Proof.
  intros H. apply andb_true_iff in H as [H _]. split; [reflexivity |].
  destruct id as [s |]; [| discriminate H]. apply truthy_Some in H. exact H.
Qed.

Ltac settle :=
  walk; cbn [fetched written flat_map app];
  rewrite ?negb_true_iff, ?negb_false_iff in *;
  repeat split; intros; try congruence; repeat constructor;
  try (match goal with
       | H : _ && _ = true |- _ =>
           apply andb_true_iff in H as [_ H]; apply negb_true_iff in H; congruence
       end);
  try (match goal with
       | H : _ && _ = true |- _ => apply (written_template _ _ _ H)
       end);
  try (cbn [url];
       match goal with
       | |- context [if ?c then _ else _] => destruct c
       end; reflexivity).

(** Whatever the answers to its effects, hence whatever else the worker
    does between its awaits: a sync routine that read no auth token sends
    no request and writes nothing; one that read an account id writes
    nothing; what a routine writes is a non-empty account id under its
    platform's key; and its request goes to the endpoint that fits the
    storage as the routine read it. *)
Lemma sync_under_any_answers (answers : Answers) (p : Platform) :
  let snapshot := answers 0%nat _ (StorageGet ["auth_token"; account_id_key p]) in
  (truthy (snapshot !! "auth_token") = false ->
     fetched (performed answers 0 (sync p)) = []
     /\ written (performed answers 0 (sync p)) = [])
  /\ (truthy (snapshot !! account_id_key p) = true ->
     written (performed answers 0 (sync p)) = [])
  /\ Forall (fun kv => fst kv = account_id_key p /\ snd kv <> "")
            (written (performed answers 0 (sync p)))
  /\ Forall (fun req =>
               url req = if truthy (snapshot !! account_id_key p)
                         then refresh_endpoint p (template (snapshot !! account_id_key p))
                         else connect_endpoint p)
            (fetched (performed answers 0 (sync p))).
Proof.
  destruct p; cbv zeta; cbn [sync account_id_key].
  - unfold syncInstagramCookies. settle.
  - unfold syncLinkedInCookies. settle.
Qed.

(* ===================================================================== *)
(** ** The model on concrete runs                                          *)
(* ===================================================================== *)

(** A login, two manual Instagram syncs and one for LinkedIn, in a browser
    without a LinkedIn session: a create request, then a refresh request
    with the id the first one brought, and no request for LinkedIn. *)
Example two_syncs_requests :
  map url (requests (snd (exec (sample_env true false (sample_created "acc-1"))
            [MessageInternal (sample_message "SET_AUTH_TOKEN" None);
             MessageInternal (sample_message "MANUAL_SYNC" (Some "instagram"));
             MessageInternal (sample_message "MANUAL_SYNC" (Some "instagram"));
             MessageInternal (sample_message "MANUAL_SYNC" (Some "linkedin"))]
            initial_world)))
  = ["https://api.dialogbrain.com/api/channels/instagram/accounts/connect/cookie";
     "https://api.dialogbrain.com/api/channels/instagram/accounts/acc-1/sync-cookie"].
Proof. vm_compute. reflexivity. Qed.

(** The request of a sync carries the cookies that are there, [null] for
    the others, and the user agent. *)
Example sync_request_body :
  map body (requests (observed (run (sample_env true false (sample_created "acc-1"))
                                    (sync Instagram) logged_in_world)))
  = [JObj [("sessionid", JStr "s3cr3t"); ("csrftoken", JNull);
           ("ds_user_id", JNull); ("mid", JNull);
           ("user_agent", JStr "Mozilla/5.0")]].
Proof. vm_compute. reflexivity. Qed.

(** The listener reacts to the watched cookies of the two sites only. *)
Example concerns_examples :
  concerns Instagram sample_change = true
  /\ concerns LinkedIn sample_change = false
  /\ concerns Instagram
       {| cookie := {| name := "sessionid"; domain := ".example.com"; value := "x" |};
          removed := false |} = false
  /\ concerns LinkedIn
       {| cookie := {| name := "li_at"; domain := ".www.linkedin.com"; value := "" |};
          removed := true |} = true
  /\ concerns LinkedIn
       {| cookie := {| name := "lang"; domain := ".linkedin.com"; value := "en" |};
          removed := false |} = false.
Proof. repeat split; reflexivity. Qed.

(** The initial sync set by [onInstalled] fires after five seconds, a
    debounced sync two seconds after the change that set it. *)
Example timers_fire_in_order :
  List.filter is_fired
    (snd (exec (sample_env true true (sample_created "acc-1"))
            [Installed; Elapse 4000; CookieChanged sample_change; Elapse 6000]
            initial_world))
  = [ObsFired 5000 InitialSync; ObsFired 6000 (DebouncedSync Instagram)].
Proof. vm_compute. reflexivity. Qed.

(* ===================================================================== *)
(** ** The sync routines: success, what is sent, what is left alone        *)
(* ===================================================================== *)

(** X1.  From a state the worker can be in, with an auth token and the
    platform's session credential there, a run whose request is answered
    by an ok response with a readable body sends that one request, leaves
    the status [{syncing: false, lastSync: <now>, error: null, status:
    data.status || 'connected'}], and stores [data.account_id] under the
    platform's key when it is not empty and no id is stored; in every
    other case the storage stays as it is. *)
Theorem sync_success (env : Env) (p : Platform) (w : World) (r : Response) (data : ResponseData) :
  reachable env w ->
  has_token w = true ->
  has_session env (clock w) p = true ->
  fetch_at env (clock w) (sync_request env p w) = Resolved r ->
  ok r = true ->
  json r = Resolved data ->
  requests (observed (run env (sync p) w)) = [sync_request env p w]
  /\ (exists st,
        st <> ""
        /\ (data_status data = Some st \/ (~ truthy (data_status data) = true /\ st = "connected"))
        /\ get p (syncStatus (final (run env (sync p) w)))
           = {| syncing := false; lastSync := Some (iso_at env (clock w));
                error := None; status := Some st |})
  /\ storage (final (run env (sync p) w))
     = match storage w !! account_id_key p, account_id data with
       | None, Some id => if String.eqb id "" then storage w
                          else <[account_id_key p := id]> (storage w)
       | _, _ => storage w
       end.
Proof.
  intros Hw Ht Hs Hf Hok Hj. pose proof (reachable_ids_ok env w Hw) as Hids.
  rewrite final_sync, observed_sync. unfold outcome.
  rewrite Ht, Hs, Hf, Hok, Hj. cbn [negb after fst snd].
  split; [reflexivity |]. split.
  - exists (or_default (data_status data) "connected").
    split; [| split].
    + unfold or_default. destruct (data_status data) as [s |]; [| discriminate].
      destruct (String.eqb_spec s ""); [discriminate | assumption].
    + unfold or_default, truthy. destruct (data_status data) as [s |].
      * destruct (String.eqb_spec s ""); [right | left; reflexivity].
        split; [simpl; congruence | reflexivity].
      * right. split; [congruence | reflexivity].
    + unfold assign. cbn [syncStatus with_syncStatus].
      destruct (truthy (account_id data) && negb (truthy (storage w !! account_id_key p)));
        apply get_set_same.
  - unfold assign. 
    destruct (storage w !! account_id_key p) as [old |] eqn:Hold;
      destruct (account_id data) as [id |] eqn:Hid; cbn [truthy negb andb].
    + apply Hids, truthy_Some in Hold. simpl in Hold. rewrite Hold.
      rewrite andb_false_r. reflexivity.
    + reflexivity.
    + destruct (String.eqb id ""); reflexivity.
    + reflexivity.
Qed.

Lemma sync_success_witness :
  requests (observed (run (sample_env true true (sample_created "acc-1"))
                          (sync Instagram) logged_in_world))
  = [sync_request (sample_env true true (sample_created "acc-1")) Instagram logged_in_world]
  /\ (exists st,
        st <> ""
        /\ (data_status {| account_id := Some "acc-1"; data_status := None |} = Some st
            \/ (~ truthy (data_status {| account_id := Some "acc-1"; data_status := None |})
                  = true
                /\ st = "connected"))
        /\ get Instagram (syncStatus (final (run (sample_env true true (sample_created "acc-1"))
                                                 (sync Instagram) logged_in_world)))
           = {| syncing := false; lastSync := Some "2025-01-01T00:00:00.000Z";
                error := None; status := Some st |})
  /\ storage (final (run (sample_env true true (sample_created "acc-1"))
                         (sync Instagram) logged_in_world))
     = <["instagram_account_id" := "acc-1"]> (storage logged_in_world).
Proof.
  apply (sync_success (sample_env true true (sample_created "acc-1")) Instagram
           logged_in_world (sample_response "acc-1")
           {| account_id := Some "acc-1"; data_status := None |});
    [apply reachable_logged_in_world | reflexivity ..].
Defined.

Lemma sent_means_gates_passed (env : Env) (p : Platform) (w : World) (req : Request) :
  In req (requests (observed (run env (sync p) w))) ->
  req = sync_request env p w /\ has_token w = true /\ has_session env (clock w) p = true.
Proof.
  rewrite observed_sync. unfold outcome.
  destruct (has_token w); cbn [negb]; [| intros []].
  destruct (has_session env (clock w) p); cbn [negb]; [| intros []].
  intros Hin. split; [| split; reflexivity].
  destruct (fetch_at env (clock w) (sync_request env p w)) as [r | m].
  - destruct (ok r); [destruct (json r) | destruct (error_body p r)];
      destruct Hin as [<- | []]; reflexivity.
  - destruct Hin as [<- | []]. reflexivity.
Qed.

Lemma read_cookie_not_empty (env : Env) (t : N) (p : Platform) (n : string) :
  read_cookie env t p n <> Some "".
Proof.
  unfold read_cookie, or_null. destruct (truthy _) eqn:H; [| discriminate].
  intros Heq. rewrite Heq in H. discriminate H.
Qed.

(** X2.  What a sync run sends is a POST with the headers [Content-Type:
    application/json] and [Authorization: Bearer <token>], the token being
    the stored one and not empty; the body holds the session credential,
    which is not empty, and the user agent; and no cookie goes out as an
    empty string. *)
Theorem sync_request_contents (env : Env) (p : Platform) (w : World) (req : Request) :
  In req (requests (observed (run env (sync p) w))) ->
  method req = "POST"
  /\ (exists tok,
        storage w !! "auth_token" = Some tok /\ tok <> ""
        /\ headers req = [("Content-Type", "application/json");
                          ("Authorization", "Bearer " +:+ tok)])
  /\ (exists session,
        session <> ""
        /\ (value <$> cookies_at env (clock w) (site p) (session_cookie p)) = Some session
        /\ js_field (body req) (session_cookie p) = Some (JStr session))
  /\ js_field (body req) "user_agent" = Some (JStr (userAgent env))
  /\ (forall key, js_field (body req) key <> Some (JStr "") \/ key = "user_agent").
Proof.
  intros Hin. apply sent_means_gates_passed in Hin as (-> & Ht & Hs).
  split; [reflexivity |]. split; [| split; [| split]].
  - unfold has_token in Ht. destruct (storage w !! "auth_token") as [tok |] eqn:Htok;
      [| discriminate Ht].
    exists tok. apply truthy_Some in Ht. cbn [sync_request headers].
    rewrite Htok. auto.
  - unfold has_session, read_cookie, or_null in Hs.
    destruct (truthy (value <$> cookies_at env (clock w) (site p) (session_cookie p)))
      eqn:Hv; [| discriminate Hs].
    destruct (value <$> cookies_at env (clock w) (site p) (session_cookie p))
      as [session |] eqn:Hc; [| discriminate Hv].
    exists session. apply truthy_Some in Hv. split; [exact Hv |]. split; [reflexivity |].
    destruct p; cbn; unfold read_cookie, or_null; cbn [site];
      cbn [session_cookie site] in Hc; rewrite Hc;
      apply truthy_Some in Hv; rewrite Hv; reflexivity.
  - destruct p; reflexivity.
  - intros key. cbn [sync_request body].
    assert (Hne : forall n, js_opt (read_cookie env (clock w) p n) <> JStr "").
    { intros n H. pose proof (read_cookie_not_empty env (clock w) p n) as Hn.
      destruct (read_cookie env (clock w) p n) as [s |]; [| discriminate H].
      injection H as ->. congruence. }
    destruct p; cbn [bundle_at bundle_to_js map fst snd js_field assoc];
      repeat (match goal with
              | |- context [String.eqb ?a key] =>
                  destruct (String.eqb_spec a key); [subst key |]
              end);
      try (right; reflexivity);
      left; try discriminate;
      intros H; injection H as H; apply Hne in H; exact H.
Qed.

Lemma sync_request_contents_witness :
  let env := sample_env true true (sample_created "acc-1") in
  let req := sync_request env Instagram logged_in_world in
  In req (requests (observed (run env (sync Instagram) logged_in_world)))
  /\ method req = "POST"
  /\ (exists tok,
        storage logged_in_world !! "auth_token" = Some tok /\ tok <> ""
        /\ headers req = [("Content-Type", "application/json");
                          ("Authorization", "Bearer " +:+ tok)])
  /\ (exists session,
        session <> ""
        /\ (value <$> cookies_at env (clock logged_in_world) (site Instagram)
                       (session_cookie Instagram)) = Some session
        /\ js_field (body req) (session_cookie Instagram) = Some (JStr session))
  /\ js_field (body req) "user_agent" = Some (JStr (userAgent env))
  /\ (forall key, js_field (body req) key <> Some (JStr "") \/ key = "user_agent").
Proof.
  cbv zeta. split; [left; reflexivity |].
  apply (sync_request_contents (sample_env true true (sample_created "acc-1")) Instagram
           logged_in_world).
  left. reflexivity.
Defined.

Lemma sync_other_status (env : Env) (p q : Platform) (w : World) :
  q <> p -> get q (syncStatus (final (run env (sync p) w))) = get q (syncStatus w).
Proof.
  intros Hq. rewrite final_sync.
  destruct (outcome env p w); cbn [after fst]; unfold assign;
    cbn [syncStatus with_syncStatus]; rewrite get_set_other by congruence;
    try reflexivity.
  destruct (_ && _); reflexivity.
Qed.

(** X3.  A sync run of one platform leaves alone the status of the other,
    every stored item but the platform's own account id (so the auth
    token and the other platform's id), the debounce handles and the
    timers. *)
Theorem sync_leaves_the_rest (env : Env) (p : Platform) (w : World) :
  (forall q, q <> p ->
     get q (syncStatus (final (run env (sync p) w))) = get q (syncStatus w))
  /\ (forall key, key <> account_id_key p ->
     storage (final (run env (sync p) w)) !! key = storage w !! key)
  /\ pendingSyncs (final (run env (sync p) w)) = pendingSyncs w
  /\ timers (final (run env (sync p) w)) = timers w.
Proof.
  destruct (run_frame env (sync p) w) as (F1 & F2 & _ & _).
  split; [| split; [| split; assumption]].
  - intros q. apply sync_other_status.
  - intros key Hk.
    destruct (storage_after_sync env p w) as [-> | (_ & r & data & id & _ & _ & _ & _ & _ & ->)];
      [reflexivity |].
    apply lookup_insert_ne. congruence.
Qed.

Lemma storage_sync_other (env : Env) (p : Platform) (w : World) (key : string) :
  key <> account_id_key p ->
  storage (final (run env (sync p) w)) !! key = storage w !! key.
Proof.
  intros Hk.
  destruct (storage_after_sync env p w) as [-> | (_ & r & data & id & _ & _ & _ & _ & _ & ->)];
    [reflexivity |].
  apply lookup_insert_ne. congruence.
Qed.

Lemma account_id_key_not_token (p : Platform) : "auth_token" <> account_id_key p.
Proof. destruct p; discriminate. Qed.

Lemma outcome_after_other (env : Env) (p q : Platform) (w : World) :
  p <> q ->
  sync_request env p (final (run env (sync q) w)) = sync_request env p w
  /\ outcome env p (final (run env (sync q) w)) = outcome env p w.
Proof.
  intros Hpq.
  assert (Hc : clock (final (run env (sync q) w)) = clock w).
  { destruct (run_frame env (sync q) w) as (_ & _ & _ & H). exact H. }
  assert (Hid : storage (final (run env (sync q) w)) !! account_id_key p
                = storage w !! account_id_key p).
  { apply storage_sync_other. intros H. apply account_id_key_inj in H. congruence. }
  assert (Htok : storage (final (run env (sync q) w)) !! "auth_token"
                 = storage w !! "auth_token").
  { apply storage_sync_other, account_id_key_not_token. }
  assert (Hreq : sync_request env p (final (run env (sync q) w)) = sync_request env p w).
  { unfold sync_request. rewrite Hc, Hid, Htok. reflexivity. }
  split; [exact Hreq |]. unfold outcome, has_token. rewrite Hreq, Hc, Htok. reflexivity.
Qed.

(** X4.  The two routines do not get in each other's way: what a routine
    sends and how it ends is the same whether or not the other ran before
    it, and the worker ends in the same state in either order. *)
Theorem sync_routines_commute (env : Env) (w : World) :
  let wi := final (run env (sync Instagram) w) in
  let wl := final (run env (sync LinkedIn) w) in
  observed (run env (sync LinkedIn) wi) = observed (run env (sync LinkedIn) w)
  /\ observed (run env (sync Instagram) wl) = observed (run env (sync Instagram) w)
  /\ final (run env (sync LinkedIn) wi) = final (run env (sync Instagram) wl).
Proof.
  cbv zeta.
  destruct (outcome_after_other env LinkedIn Instagram w) as (R1 & O1); [discriminate |].
  destruct (outcome_after_other env Instagram LinkedIn w) as (R2 & O2); [discriminate |].
  split; [| split].
  - rewrite !observed_sync, O1.
    destruct (outcome env LinkedIn w); cbn [after snd]; rewrite ?R1; reflexivity.
  - rewrite !observed_sync, O2.
    destruct (outcome env Instagram w); cbn [after snd]; rewrite ?R2; reflexivity.
  - rewrite (final_sync env LinkedIn (final (run env (sync Instagram) w))), O1.
    rewrite (final_sync env Instagram (final (run env (sync LinkedIn) w))), O2.
    assert (Hi : storage (final (run env (sync LinkedIn) w)) !! account_id_key Instagram
                 = storage w !! account_id_key Instagram).
    { apply storage_sync_other. discriminate. }
    assert (Hl : storage (final (run env (sync Instagram) w)) !! account_id_key LinkedIn
                 = storage w !! account_id_key LinkedIn).
    { apply storage_sync_other. discriminate. }
    assert (Ci : clock (final (run env (sync Instagram) w)) = clock w).
    { destruct (run_frame env (sync Instagram) w) as (_ & _ & _ & H). exact H. }
    assert (Cl : clock (final (run env (sync LinkedIn) w)) = clock w).
    { destruct (run_frame env (sync LinkedIn) w) as (_ & _ & _ & H). exact H. }
    pose proof (final_sync env Instagram w) as Fi.
    pose proof (final_sync env LinkedIn w) as Fl.
    destruct (outcome env LinkedIn w) as [| | ml | rl | rl dl];
      destruct (outcome env Instagram w) as [| | mi | ri | ri di];
      cbn [after fst] in *; rewrite ?Hi, ?Hl, ?Ci, ?Cl; rewrite Fi, Fl;
      unfold assign;
      repeat match goal with
             | |- context [if ?c then _ else _] => destruct c
             end;
      try reflexivity.
    unfold with_syncStatus, with_storage. cbn. f_equal.
    apply insert_insert_ne. discriminate.
Qed.

(* ===================================================================== *)
(** ** The triggers of a sync                                              *)
(* ===================================================================== *)

Lemma run_then {A B : Type} (env : Env) (m : Prog A) (f : A -> Prog B) (w : World) :
  run env (bind m f) w =
  (returned (run env (f (returned (run env m w))) (final (run env m w))),
   final (run env (f (returned (run env m w))) (final (run env m w))),
   (observed (run env m w)
    ++ observed (run env (f (returned (run env m w))) (final (run env m w))))%list).
Proof.
  rewrite run_bind. unfold returned, final, observed.
  destruct (run env m w) as [[a w1] o1]. cbn [fst snd].
  destruct (run env (f a) w1) as [[b w2] o2]. reflexivity.
Qed.

Lemma requests_app (o1 o2 : list Obs) :
  requests (o1 ++ o2) = (requests o1 ++ requests o2)%list.
Proof. unfold requests. apply flat_map_app. Qed.

Lemma replies_app (o1 o2 : list Obs) :
  replies (o1 ++ o2) = (replies o1 ++ replies o2)%list.
Proof. unfold replies. apply flat_map_app. Qed.

Lemma replies_sync (env : Env) (p : Platform) (w : World) :
  replies (observed (run env (sync p) w)) = [].
Proof. rewrite observed_sync. destruct (outcome env p w); reflexivity. Qed.

Lemma run_manual_sync (env : Env) (p : Platform) (message : Message) (w : World) :
  type message = "MANUAL_SYNC" ->
  platform message = Some (platform_name p) ->
  run env (onMessage message) w
  = (true, final (run env (sync p) w),
     (observed (run env (sync p) w)
      ++ [ObsReply (synced_reply (get p (syncStatus (final (run env (sync p) w)))))])%list).
Proof.
  intros Ht Hp. unfold onMessage. rewrite Ht, Hp.
  destruct p; cbn [String.eqb Ascii.eqb Bool.eqb strict_eq platform_name];
    rewrite !run_then; cbn [run perform handle returned final observed fst snd app get];
    rewrite app_nil_r; reflexivity.
Qed.

(** X5.  The popup's MANUAL_SYNC and a web page's TRIGGER_SYNC for one
    platform run the platform's routine once and then reply, the first
    with [{success: true, status}] for the status of that platform after
    the run, the second with [{success: true, instagram, linkedin}] for
    both statuses after the run; both keep the channel open. *)
Theorem one_platform_triggers (env : Env) (p : Platform) (message : Message)
    (sender : Sender) (w : World) :
  platform message = Some (platform_name p) ->
  (type message = "MANUAL_SYNC" ->
     run env (onMessage message) w
     = (true, final (run env (sync p) w),
        (observed (run env (sync p) w)
         ++ [ObsReply (synced_reply (get p (syncStatus (final (run env (sync p) w)))))])%list))
  /\ (type message = "TRIGGER_SYNC" -> authorized sender = true ->
     run env (onMessageExternal message sender) w
     = (true, final (run env (sync p) w),
        (observed (run env (sync p) w)
         ++ [ObsReply (triggered_reply (syncStatus (final (run env (sync p) w))))])%list)).
Proof.
  intros Hp. split.
  - intros Ht. apply run_manual_sync; assumption.
  - intros Ht Ha. unfold onMessageExternal. unfold authorized in Ha. rewrite Ha, Ht, Hp.
    destruct p; cbn [String.eqb Ascii.eqb Bool.eqb strict_eq platform_name negb orb];
      rewrite !run_then; cbn [run perform handle returned final observed fst snd app get];
      rewrite ?app_nil_r; reflexivity.
Qed.

Lemma one_platform_triggers_witness :
  let env := sample_env true true (sample_created "acc-1") in
  let synced := final (run env (sync Instagram) logged_in_world) in
  run env (onMessage (sample_message "MANUAL_SYNC" (Some "instagram"))) logged_in_world
  = (true, synced,
     (observed (run env (sync Instagram) logged_in_world)
      ++ [ObsReply (synced_reply (get Instagram (syncStatus synced)))])%list)
  /\ run env (onMessageExternal (sample_message "TRIGGER_SYNC" (Some "instagram"))
                {| origin := Some "https://dialogbrain.com" |}) logged_in_world
     = (true, synced,
        (observed (run env (sync Instagram) logged_in_world)
         ++ [ObsReply (triggered_reply (syncStatus synced))])%list).
Proof.
  cbv zeta. split.
  - apply (one_platform_triggers (sample_env true true (sample_created "acc-1")) Instagram
             (sample_message "MANUAL_SYNC" (Some "instagram"))
             {| origin := None |} logged_in_world); reflexivity.
  - apply (one_platform_triggers (sample_env true true (sample_created "acc-1")) Instagram
             (sample_message "TRIGGER_SYNC" (Some "instagram"))
             {| origin := Some "https://dialogbrain.com" |} logged_in_world); reflexivity.
Defined.

(** X6.  The fallback alarm, the delayed initial sync and a TRIGGER_SYNC
    for 'all' from a web page of an allowed origin run the Instagram
    routine and the LinkedIn routine (started together by the first two
    in the source, one after the other here), and the LinkedIn run leaves
    the Instagram status as it is; an alarm of another name does
    nothing. *)
Theorem all_platform_triggers (env : Env) (message : Message) (sender : Sender)
    (alarm_name : string) (w : World) :
  let w1 := final (run env (sync Instagram) w) in
  let w2 := final (run env (sync LinkedIn) w1) in
  let obs := (observed (run env (sync Instagram) w)
              ++ observed (run env (sync LinkedIn) w1))%list in
  run env (onAlarm "fallbackSync") w = (tt, w2, obs)
  /\ (alarm_name <> "fallbackSync" -> run env (onAlarm alarm_name) w = (tt, w, []))
  /\ run env (callback_prog InitialSync) w = (tt, w2, obs)
  /\ (type message = "TRIGGER_SYNC" -> platform message = Some "all" ->
      authorized sender = true ->
      run env (onMessageExternal message sender) w
      = (true, w2, (obs ++ [ObsReply (triggered_reply (syncStatus w2))])%list))
  /\ get Instagram (syncStatus w2) = get Instagram (syncStatus w1).
Proof.
  cbv zeta.
  assert (Hboth : run env (syncInstagramCookies;; syncLinkedInCookies) w
                  = (tt, final (run env (sync LinkedIn) (final (run env (sync Instagram) w))),
                     (observed (run env (sync Instagram) w)
                      ++ observed (run env (sync LinkedIn)
                                       (final (run env (sync Instagram) w))))%list)).
  { rewrite run_then. cbn [sync].
    destruct (returned (run env syncLinkedInCookies (final (run env syncInstagramCookies w)))).
    reflexivity. }
  split; [exact Hboth |]. split; [| split; [exact Hboth | split]].
  - intros Hn. unfold onAlarm. apply String.eqb_neq in Hn. rewrite Hn. reflexivity.
  - intros Ht Hp Ha. unfold onMessageExternal. unfold authorized in Ha.
    rewrite Ha, Ht, Hp.
    cbn [String.eqb Ascii.eqb Bool.eqb strict_eq negb orb].
    rewrite !run_then. cbn [run perform handle returned final observed fst snd app sync].
    rewrite ?app_nil_r, ?app_assoc. reflexivity.
  - apply sync_other_status. discriminate.
Qed.

Lemma all_platform_triggers_witness :
  let env := sample_env true true (sample_created "acc-1") in
  let w1 := final (run env (sync Instagram) logged_in_world) in
  let w2 := final (run env (sync LinkedIn) w1) in
  let obs := (observed (run env (sync Instagram) logged_in_world)
              ++ observed (run env (sync LinkedIn) w1))%list in
  run env (onAlarm "fallbackSync") logged_in_world = (tt, w2, obs)
  /\ run env (onAlarm "keepAlive") logged_in_world = (tt, logged_in_world, [])
  /\ run env (callback_prog InitialSync) logged_in_world = (tt, w2, obs)
  /\ run env (onMessageExternal (sample_message "TRIGGER_SYNC" (Some "all"))
                {| origin := Some "https://dialogbrain.com" |}) logged_in_world
     = (true, w2, (obs ++ [ObsReply (triggered_reply (syncStatus w2))])%list).
Proof.
  cbv zeta.
  destruct (all_platform_triggers (sample_env true true (sample_created "acc-1"))
              (sample_message "TRIGGER_SYNC" (Some "all"))
              {| origin := Some "https://dialogbrain.com" |} "keepAlive" logged_in_world)
    as (H1 & H2 & H3 & H4 & _).
  split; [exact H1 |]. split; [apply H2; discriminate |]. split; [exact H3 |].
  apply H4; reflexivity.
Defined.

(** X7.  Installing or updating the extension on a worker with no timer
    pending: nothing runs for 5000 ms; then the initial sync fires once,
    runs both routines (started together in the source, one after the
    other here), and leaves no timer behind. *)
Theorem initial_sync_after_install (env : Env) (w : World) (d : N) :
  timers w = [] ->
  let installed := onInstalled w in
  let started := with_clock (clock w + 5000) (with_timers [] installed) in
  (d < 5000 -> elapse env d installed = (with_clock (clock w + d) installed, []))
  /\ (5000 <= d ->
      snd (elapse env d installed)
      = ObsFired (clock w + 5000) InitialSync
        :: (observed (run env (sync Instagram) started)
            ++ observed (run env (sync LinkedIn)
                           (final (run env (sync Instagram) started))))%list
      /\ timers (fst (elapse env d installed)) = []
      /\ clock (fst (elapse env d installed)) = clock w + d).
Proof.
  intros Ht. cbv zeta. rewrite !elapse_eq. cbv zeta.
  unfold onInstalled, setTimeout. cbn [snd timers clock]. rewrite Ht. cbn [app List.filter due].
  split; intros Hd.
  - assert (H : (clock w + 5000 <=? clock w + d) = false) by (apply N.leb_gt; lia).
    rewrite H. reflexivity.
  - assert (H : (clock w + 5000 <=? clock w + d) = true) by (apply N.leb_le; lia).
    rewrite H. unfold sort_by_due. cbn [foldl insert_by_due].
    rewrite fire_all_cons. cbn [fire_all fst snd]. rewrite app_nil_r, fire_eq. cbv zeta.
    cbn [fst snd callback due timer_id clock callback_prog].
    replace (N.max (clock w) (clock w + 5000)) with (clock w + 5000) by lia.
    unfold clearTimeout. cbn [timers List.filter timer_id negb]. rewrite N.eqb_refl.
    cbn [negb].
    match goal with
    | |- context [run env (syncInstagramCookies;; syncLinkedInCookies) ?v] => set (w5 := v)
    end.
    destruct (run_frame env (syncInstagramCookies;; syncLinkedInCookies) w5)
      as (F1 & _ & _ & F4).
    split; [| split].
    + f_equal. rewrite observed_bind. reflexivity.
    + cbn [timers with_clock]. rewrite F1. reflexivity.
    + reflexivity.
Qed.

Lemma initial_sync_after_install_witness :
  let env := sample_env true true (sample_created "acc-1") in
  let installed := onInstalled logged_in_world in
  let started := with_clock 5000 (with_timers [] installed) in
  elapse env 4999 installed = (with_clock 4999 installed, [])
  /\ snd (elapse env 5000 installed)
     = ObsFired 5000 InitialSync
       :: (observed (run env (sync Instagram) started)
           ++ observed (run env (sync LinkedIn)
                          (final (run env (sync Instagram) started))))%list
  /\ timers (fst (elapse env 5000 installed)) = [].
Proof.
  cbv zeta.
  destruct (initial_sync_after_install (sample_env true true (sample_created "acc-1"))
              logged_in_world 4999) as [H1 _]; [reflexivity |].
  destruct (initial_sync_after_install (sample_env true true (sample_created "acc-1"))
              logged_in_world 5000) as [_ H2]; [reflexivity |].
  split; [apply H1; lia |]. destruct H2 as (H2 & H3 & _); [lia |].
  split; [exact H2 | exact H3].
Defined.

(* ===================================================================== *)
(** ** Messages: edges of the two channels                                 *)
(* ===================================================================== *)

(** X8.  A web page's TRIGGER_SYNC for anything but 'instagram',
    'linkedin' or 'all' runs no routine and is answered all the same, with
    success and the statuses as they are. *)
Theorem trigger_sync_unknown_platform (env : Env) (message : Message)
    (sender : Sender) (w : World) :
  authorized sender = true ->
  type message = "TRIGGER_SYNC" ->
  platform message <> Some "instagram" ->
  platform message <> Some "linkedin" ->
  platform message <> Some "all" ->
  run env (onMessageExternal message sender) w
  = (true, w, [ObsReply (triggered_reply (syncStatus w))]).
Proof.
  intros Ha Ht Hi Hl Hall. unfold onMessageExternal. unfold authorized in Ha.
  rewrite Ha, Ht. cbn [String.eqb Ascii.eqb Bool.eqb negb].
  rewrite (strict_eq_false _ _ Hi), (strict_eq_false _ _ Hl), (strict_eq_false _ _ Hall).
  reflexivity.
Qed.

Lemma trigger_sync_unknown_platform_witness :
  run (sample_env true true (sample_created "acc-1"))
      (onMessageExternal (sample_message "TRIGGER_SYNC" (Some "twitter"))
         {| origin := Some "https://dialogbrain.com" |}) logged_in_world
  = (true, logged_in_world, [ObsReply (triggered_reply (syncStatus logged_in_world))]).
Proof.
  apply (trigger_sync_unknown_platform (sample_env true true (sample_created "acc-1"))
           (sample_message "TRIGGER_SYNC" (Some "twitter"))
           {| origin := Some "https://dialogbrain.com" |} logged_in_world);
    [reflexivity | reflexivity | discriminate ..].
Defined.

Lemma eqb_not_in (s : string) (known : list string) (x : string) :
  ~ In s known -> In x known -> String.eqb s x = false.
Proof. intros Hs Hx. apply String.eqb_neq. congruence. Qed.

(** X9.  A message of a type the channel does not know is dropped, on
    the external channel once its sender passed the origin check: no
    reply, no change, and the channel is not kept open.  So LOGOUT and
    MANUAL_SYNC do nothing on the external channel, PING and TRIGGER_SYNC
    nothing on the internal one. *)
Theorem unknown_type_dropped (env : Env) (message : Message) (sender : Sender) (w : World) :
  (~ In (type message)
        ["GET_STATUS"; "MANUAL_SYNC"; "SET_AUTH_TOKEN"; "LOGOUT"; "CHECK_COOKIES"] ->
   run env (onMessage message) w = (false, w, []))
  /\ (authorized sender = true ->
      ~ In (type message)
           ["PING"; "GET_STATUS"; "SET_AUTH_TOKEN"; "CHECK_COOKIES"; "TRIGGER_SYNC"] ->
      run env (onMessageExternal message sender) w = (false, w, [])).
Proof.
  split.
  - intros H. unfold onMessage.
    rewrite !(eqb_not_in _ _ _ H) by (simpl; tauto). reflexivity.
  - intros Ha H. unfold onMessageExternal. unfold authorized in Ha. rewrite Ha.
    rewrite !(eqb_not_in _ _ _ H) by (simpl; tauto). reflexivity.
Qed.

Lemma unknown_type_dropped_witness :
  run (sample_env true true (sample_created "acc-1"))
      (onMessage (sample_message "PING" None)) logged_in_world
  = (false, logged_in_world, [])
  /\ run (sample_env true true (sample_created "acc-1"))
         (onMessageExternal (sample_message "LOGOUT" None)
            {| origin := Some "https://dialogbrain.com" |}) logged_in_world
     = (false, logged_in_world, []).
Proof.
  split.
  - apply (proj1 (unknown_type_dropped (sample_env true true (sample_created "acc-1"))
                    (sample_message "PING" None) {| origin := None |} logged_in_world)).
    cbn. intuition discriminate.
  - apply (proj2 (unknown_type_dropped (sample_env true true (sample_created "acc-1"))
                    (sample_message "LOGOUT" None)
                    {| origin := Some "https://dialogbrain.com" |} logged_in_world)).
    + reflexivity.
    + cbn. intuition discriminate.
Defined.

Lemma prefix_app (a s : string) : String.prefix a (a +:+ s) = true.
Proof.
  induction a as [| c a IH]; [destruct s; reflexivity |].
  simpl. destruct (Ascii.ascii_dec c c) as [_ | H]; [exact IH | congruence].
Qed.

(** X10.  The origin check is a prefix test: an origin that continues an
    allowed one passes, be it another host or another port, and its
    SET_AUTH_TOKEN replaces the stored token. *)
Theorem origin_prefix_passes (env : Env) (allowed rest : string)
    (message : Message) (w : World) :
  In allowed allowedOrigins ->
  authorized {| origin := Some (allowed +:+ rest) |} = true
  /\ (type message = "SET_AUTH_TOKEN" ->
      storage (final (run env (onMessageExternal message
                                 {| origin := Some (allowed +:+ rest) |}) w))
      !! "auth_token" = Some (token message)).
Proof.
  intros Hin.
  assert (Ha : authorized {| origin := Some (allowed +:+ rest) |} = true).
  { unfold authorized. apply existsb_exists. exists allowed. split; [exact Hin |].
    cbn. apply prefix_app. }
  split; [exact Ha |]. intros Ht. unfold onMessageExternal. unfold authorized in Ha.
  rewrite Ha, Ht. cbn. apply lookup_insert_eq.
Qed.

Lemma origin_prefix_passes_witness :
  authorized {| origin := Some ("https://dialogbrain.com" +:+ ".evil.example") |} = true
  /\ storage (final (run (sample_env true true (sample_created "acc-1"))
                         (onMessageExternal (sample_message "SET_AUTH_TOKEN" None)
                            {| origin := Some ("https://dialogbrain.com"
                                               +:+ ".evil.example") |})
                         initial_world))
     !! "auth_token" = Some "token".
Proof.
  destruct (origin_prefix_passes (sample_env true true (sample_created "acc-1"))
              "https://dialogbrain.com" ".evil.example"
              (sample_message "SET_AUTH_TOKEN" None) initial_world) as [H1 H2].
  - left. reflexivity.
  - split; [exact H1 | apply H2; reflexivity].
Defined.

(** X11.  SET_AUTH_TOKEN, on the internal channel and (for an allowed
    origin) on the external one, stores the token and nothing else and
    replies with success; a token that is not empty makes the worker
    logged in, and every request of the next sync run presents that
    token. *)
Theorem set_auth_token_round_trip (env : Env) (message : Message) (sender : Sender)
    (p : Platform) (w : World) :
  type message = "SET_AUTH_TOKEN" ->
  let w' := with_storage (<["auth_token" := token message]> (storage w)) w in
  run env (onMessage message) w
  = (true, w', [ObsReply (JObj [("success", JBool true)])])
  /\ (authorized sender = true ->
      run env (onMessageExternal message sender) w
      = (true, w', [ObsReply (JObj [("success", JBool true)])]))
  /\ storage w' !! "auth_token" = Some (token message)
  /\ (forall key, key <> "auth_token" -> storage w' !! key = storage w !! key)
  /\ has_token w' = negb (String.eqb (token message) "")
  /\ Forall (fun req => headers req
                        = [("Content-Type", "application/json");
                           ("Authorization", "Bearer " +:+ token message)])
            (requests (observed (run env (sync p) w'))).
Proof.
  intros Ht. cbv zeta. split; [| split; [| split; [| split; [| split]]]].
  - unfold onMessage. rewrite Ht. reflexivity.
  - intros Ha. unfold onMessageExternal. unfold authorized in Ha. rewrite Ha, Ht.
    reflexivity.
  - apply lookup_insert_eq.
  - intros key Hk. apply lookup_insert_ne. congruence.
  - unfold has_token. cbn [storage with_storage]. rewrite lookup_insert_eq. reflexivity.
  - apply Forall_forall. intros req Hin. apply list_elem_of_In in Hin.
    apply sent_means_gates_passed in Hin as (-> & _ & _).
    cbn [sync_request headers storage with_storage]. rewrite lookup_insert_eq. reflexivity.
Qed.

Lemma set_auth_token_round_trip_witness :
  let env := sample_env true true (sample_created "acc-1") in
  let w' := with_storage (<["auth_token" := "token"]> (storage initial_world)) initial_world in
  run env (onMessage (sample_message "SET_AUTH_TOKEN" None)) initial_world
  = (true, w', [ObsReply (JObj [("success", JBool true)])])
  /\ run env (onMessageExternal (sample_message "SET_AUTH_TOKEN" None)
                {| origin := Some "https://dialogbrain.com" |}) initial_world
     = (true, w', [ObsReply (JObj [("success", JBool true)])])
  /\ storage w' !! "auth_token" = Some "token"
  /\ has_token w' = true
  /\ Forall (fun req => headers req
                        = [("Content-Type", "application/json");
                           ("Authorization", "Bearer token")])
            (requests (observed (run env (sync Instagram) w'))).
Proof.
  cbv zeta.
  destruct (set_auth_token_round_trip (sample_env true true (sample_created "acc-1"))
              (sample_message "SET_AUTH_TOKEN" None)
              {| origin := Some "https://dialogbrain.com" |} Instagram initial_world)
    as (H1 & H2 & H3 & _ & H5 & H6); [reflexivity |].
  split; [exact H1 |]. split; [apply H2; reflexivity |]. split; [exact H3 |].
  split; [exact H5 | exact H6].
Defined.

(** X12.  GET_STATUS and CHECK_COOKIES on either channel and PING on the
    external one only read: they leave the worker as it is and send
    nothing to the backend. *)
Theorem reading_commands_change_nothing (env : Env) (message : Message)
    (sender : Sender) (w : World) :
  (In (type message) ["GET_STATUS"; "CHECK_COOKIES"] ->
   final (run env (onMessage message) w) = w
   /\ requests (observed (run env (onMessage message) w)) = [])
  /\ (In (type message) ["PING"; "GET_STATUS"; "CHECK_COOKIES"] ->
      final (run env (onMessageExternal message sender) w) = w
      /\ requests (observed (run env (onMessageExternal message sender) w)) = []).
Proof.
  split.
  - intros [Ht | [Ht | []]]; unfold onMessage; rewrite <- Ht; split; reflexivity.
  - intros Hin. unfold onMessageExternal.
    destruct (negb (existsb (fun o => starts_with (origin sender) o) allowedOrigins));
      [split; reflexivity |].
    destruct Hin as [Ht | [Ht | [Ht | []]]]; rewrite <- Ht; split; reflexivity.
Qed.

Lemma reading_commands_change_nothing_witness :
  let env := sample_env true true (sample_created "acc-1") in
  (final (run env (onMessage (sample_message "CHECK_COOKIES" None)) logged_in_world)
   = logged_in_world
   /\ requests (observed (run env (onMessage (sample_message "CHECK_COOKIES" None))
                              logged_in_world)) = [])
  /\ (final (run env (onMessageExternal (sample_message "PING" None)
                        {| origin := Some "https://dialogbrain.com" |}) logged_in_world)
      = logged_in_world
      /\ requests (observed (run env (onMessageExternal (sample_message "PING" None)
                                        {| origin := Some "https://dialogbrain.com" |})
                                 logged_in_world)) = []).
Proof.
  cbv zeta. split.
  - apply (proj1 (reading_commands_change_nothing
                    (sample_env true true (sample_created "acc-1"))
                    (sample_message "CHECK_COOKIES" None) {| origin := None |}
                    logged_in_world)).
    right. left. reflexivity.
  - apply (proj2 (reading_commands_change_nothing
                    (sample_env true true (sample_created "acc-1"))
                    (sample_message "PING" None)
                    {| origin := Some "https://dialogbrain.com" |} logged_in_world)).
    left. reflexivity.
Defined.

Lemma length_replies_sync_then {A : Type} (env : Env) (p : Platform)
    (k : Prog A) (w : World) :
  (forall v, length (replies (observed (run env k v))) = 1%nat) ->
  length (replies (observed (run env (sync p;; k) w))) = 1%nat.
Proof.
  intros Hk. rewrite run_then. cbn [observed snd].
  rewrite replies_app, replies_sync. apply Hk.
Qed.

Lemma observed_then_ret {A B : Type} (env : Env) (m : Prog A) (b : B) (w : World) :
  observed (run env (m;; Ret b) w) = observed (run env m w).
Proof. rewrite observed_bind. cbn [run observed snd]. apply app_nil_r. Qed.

(** X13.  A message is answered once or not at all, and which it is
    depends on the message and its sender alone, not on the state of the
    worker or on how the sync it starts ends. *)
Theorem replies_once (env : Env) (message : Message) (sender : Sender) (w : World) :
  length (replies (observed (run env (onMessage message) w)))
  = (if answered_internal message then 1 else 0)%nat
  /\ length (replies (observed (run env (onMessageExternal message sender) w)))
     = (if answered_external message sender then 1 else 0)%nat.
Proof.
  split.
  - unfold onMessage, answered_internal, list_includes. cbn [existsb].
    destruct (String.eqb (type message) "GET_STATUS") eqn:E1; [reflexivity |].
    destruct (String.eqb (type message) "MANUAL_SYNC") eqn:E2.
    { apply String.eqb_eq in E2. rewrite E2. cbn [String.eqb Ascii.eqb Bool.eqb orb andb].
      rewrite observed_then_ret.
      destruct (strict_eq (platform message) "instagram").
      { apply (length_replies_sync_then env Instagram). reflexivity. }
      destruct (strict_eq (platform message) "linkedin").
      { apply (length_replies_sync_then env LinkedIn). reflexivity. }
      reflexivity. }
    destruct (String.eqb (type message) "SET_AUTH_TOKEN") eqn:E3; [reflexivity |].
    destruct (String.eqb (type message) "LOGOUT") eqn:E4; [reflexivity |].
    destruct (String.eqb (type message) "CHECK_COOKIES") eqn:E5; reflexivity.
  - unfold onMessageExternal, answered_external, authorized, list_includes. cbn [existsb].
    destruct (existsb (fun o => starts_with (origin sender) o) allowedOrigins);
      cbn [negb orb]; [| reflexivity].
    destruct (String.eqb (type message) "PING") eqn:E1; [reflexivity |].
    destruct (String.eqb (type message) "GET_STATUS") eqn:E2; [reflexivity |].
    destruct (String.eqb (type message) "SET_AUTH_TOKEN") eqn:E3; [reflexivity |].
    destruct (String.eqb (type message) "CHECK_COOKIES") eqn:E4; [reflexivity |].
    destruct (String.eqb (type message) "TRIGGER_SYNC") eqn:E5; [| reflexivity].
    cbn [orb]. rewrite !observed_bind, !replies_app.
    assert (H1 : forall v, replies (observed (run env
                (if strict_eq (platform message) "instagram"
                    || strict_eq (platform message) "all"
                 then syncInstagramCookies else Ret tt) v)) = []).
    { intros v. destruct (strict_eq (platform message) "instagram"
                          || strict_eq (platform message) "all");
        [apply (replies_sync env Instagram) | reflexivity]. }
    assert (H2 : forall v, replies (observed (run env
                (if strict_eq (platform message) "linkedin"
                    || strict_eq (platform message) "all"
                 then syncLinkedInCookies else Ret tt) v)) = []).
    { intros v. destruct (strict_eq (platform message) "linkedin"
                          || strict_eq (platform message) "all");
        [apply (replies_sync env LinkedIn) | reflexivity]. }
    rewrite H1, H2. reflexivity.
Qed.

(* ===================================================================== *)
(** ** Without a token nothing is sent, whatever is in flight              *)
(* ===================================================================== *)

Lemma tokenless_bind {A B : Type} (m : Prog A) (f : A -> Prog B) :
  tokenless m -> (forall a, tokenless (f a)) -> tokenless (bind m f).
Proof.
  intros Hm Hf. induction m as [a | X e k IH]; cbn [bind tokenless] in *; [apply Hf |].
  destruct Hm as [He Hk]. split; [exact He |]. intros x Hx. apply IH, Hk, Hx.
Qed.

Lemma tokenless_perform {X : Type} (e : Eff X) : silent e = true -> tokenless (perform e).
Proof. intros He. split; [exact He |]. intros x _. exact I. Qed.

Lemma tokenless_ret {A : Type} (a : A) : tokenless (Ret a).
Proof. exact I. Qed.

Lemma tokenless_if {A : Type} (c : bool) (m1 m2 : Prog A) :
  tokenless m1 -> tokenless m2 -> tokenless (if c then m1 else m2).
Proof. destruct c; auto. Qed.

Lemma tokenless_promise_all {A : Type} (ps : list (Prog A)) :
  Forall tokenless ps -> tokenless (promise_all ps).
Proof.
  induction 1 as [| p ps Hp _ IH]; cbn [promise_all]; [exact I |].
  apply tokenless_bind; [exact Hp |]. intros x.
  apply tokenless_bind; [exact IH |]. intros xs. exact I.
Qed.

Lemma tokenless_cookies (p : Platform) :
  tokenless (match p with
             | Instagram => getInstagramCookies
             | LinkedIn => getLinkedInCookies
             end).
Proof.
  destruct p; unfold getInstagramCookies, getLinkedInCookies;
    (apply tokenless_bind;
     [apply tokenless_promise_all; repeat constructor; apply tokenless_perform; reflexivity
     | intros cookies; apply tokenless_bind;
       [apply tokenless_perform; reflexivity | intros ua; exact I]]).
Qed.

Lemma tokenless_sync (p : Platform) : tokenless (sync p).
Proof.
  destruct p; cbn [sync]; unfold syncInstagramCookies, syncLinkedInCookies;
    cbn [bind perform tokenless]; (split; [reflexivity |]); intros x Hx;
    cbn [shows_no_token] in Hx; rewrite Hx; cbn [negb];
    apply tokenless_perform; reflexivity.
Qed.

Ltac tokenless_steps :=
  repeat first
    [ apply tokenless_ret
    | apply (tokenless_sync Instagram) | apply (tokenless_sync LinkedIn)
    | apply (tokenless_cookies Instagram) | apply (tokenless_cookies LinkedIn)
    | apply tokenless_perform; reflexivity
    | apply tokenless_if
    | apply tokenless_bind; [| intros ? ] ].

Lemma tokenless_onMessage (message : Message) :
  String.eqb (type message) "SET_AUTH_TOKEN" = false -> tokenless (onMessage message).
Proof. intros H. unfold onMessage. rewrite H. tokenless_steps. Qed.

Lemma tokenless_onMessageExternal (message : Message) (sender : Sender) :
  String.eqb (type message) "SET_AUTH_TOKEN" = false ->
  tokenless (onMessageExternal message sender).
Proof. intros H. unfold onMessageExternal. rewrite H. tokenless_steps. Qed.

Lemma handle_tokenless {X : Type} (env : Env) (e : Eff X) (w : World) :
  silent e = true -> has_token w = false ->
  shows_no_token e (fst (fst (handle env e w)))
  /\ has_token (snd (fst (handle env e w))) = false
  /\ requests (snd (handle env e w)) = [].
Proof.
  intros He Hw. unfold has_token in *.
  destruct e; cbn [handle fst snd shows_no_token storage with_storage with_syncStatus];
    try discriminate He; try (split; [exact I | split; [exact Hw | reflexivity]]).
  - split; [| split; [exact Hw | reflexivity]].
    rewrite lookup_storage_get. destruct (decide (_ ∈ keys)); [exact Hw | reflexivity].
  - split; [exact I |]. split; [| reflexivity].
    cbn [silent] in He. apply negb_true_iff, String.eqb_neq in He.
    rewrite lookup_insert_ne by exact He. exact Hw.
  - split; [exact I |]. split; [| reflexivity].
    rewrite lookup_storage_remove. destruct (decide (_ ∈ keys)); [reflexivity | exact Hw].
Qed.

(** Without a token in the storage and with only tokenless routines in
    flight. *)
Definition without_token (l : Live) : Prop :=
  has_token (now l) = false /\ Forall tokenless_task (in_flight l).

Lemma without_token_launch (ts : list Task) (l : Live) :
  Forall tokenless_task ts -> without_token l -> without_token (launch ts l).
Proof.
  intros Hts [Hw Hl]. split; [exact Hw |]. cbn [launch in_flight].
  apply Forall_app. split; [exact Hl |].
  induction Hts as [| t ts Ht _ IH]; cbn [List.filter]; [constructor |].
  destruct (negb (finished t)); [constructor; assumption | exact IH].
Qed.

Lemma tokenless_started_by (cb : Callback) : Forall tokenless_task (started_by cb).
Proof.
  destruct cb as [[|] |]; repeat constructor;
    first [apply (tokenless_sync Instagram) | apply (tokenless_sync LinkedIn)].
Qed.

Lemma without_token_fire_all (ts : list Timer) (l : Live) :
  without_token l ->
  without_token (fst (fire_all_live ts l)) /\ requests (snd (fire_all_live ts l)) = [].
Proof.
  revert l. induction ts as [| t ts IH]; intros l Hl; [split; [exact Hl | reflexivity] |].
  cbn [fire_all_live fire_live].
  match goal with |- context [fire_all_live ts ?l1] => specialize (IH l1) end.
  destruct (fire_all_live ts _) as [l2 o2]. cbn [fst snd] in *.
  apply IH. apply without_token_launch; [apply tokenless_started_by |].
  destruct Hl as [Hw Hf]. split; [exact Hw | exact Hf].
Qed.

Lemma without_token_move (env : Env) (mv : Move) (l : Live) :
  brings_token mv = false -> without_token l ->
  without_token (fst (move env mv l)) /\ requests (snd (move env mv l)) = [].
Proof.
  intros Hmv Hl. destruct mv as [a | i]; cbn [move brings_token] in *.
  - destruct a as [d | ci | n | | m | m s |]; cbn [arrive sets_token fst snd] in *.
    + unfold elapse_live.
      destruct (without_token_fire_all
                  (sort_by_due (List.filter (fun t => due t <=? clock (now l) + d)
                                            (timers (now l)))) l Hl) as [H1 H2].
      destruct (fire_all_live _ l) as [l1 o1]. cbn [fst snd] in *.
      split; [| exact H2]. destruct H1 as [Hw Hf]. split; [exact Hw | exact Hf].
    + split; [| reflexivity]. destruct Hl as [Hw Hf]. split; [| exact Hf].
      unfold has_token in *. cbn [now with_now]. rewrite storage_onChanged. exact Hw.
    + split; [| reflexivity]. apply without_token_launch; [| exact Hl].
      unfold started_by_alarm. destruct (String.eqb n "fallbackSync"); repeat constructor;
        first [apply (tokenless_sync Instagram) | apply (tokenless_sync LinkedIn)].
    + split; [| reflexivity]. destruct Hl as [Hw Hf]. split; [exact Hw | exact Hf].
    + split; [| reflexivity]. apply without_token_launch; [| exact Hl].
      repeat constructor. apply tokenless_onMessage, Hmv.
    + split; [| reflexivity]. apply without_token_launch; [| exact Hl].
      repeat constructor. apply tokenless_onMessageExternal, Hmv.
    + split; [| reflexivity]. destruct Hl as [Hw Hf]. split; [exact Hw | constructor].
  - unfold resume. destruct (in_flight l !! i) as [[A m] |] eqn:Hi;
      [| split; [exact Hl | reflexivity]].
    destruct m as [a | X e k]; [split; [exact Hl | reflexivity] |].
    destruct Hl as [Hw Hf].
    assert (Ht : tokenless (Vis e k)).
    { apply (Forall_lookup_1 _ _ _ _ Hf Hi). }
    destruct Ht as [He Hk].
    destruct (handle_tokenless env e (now l) He Hw) as (H1 & H2 & H3).
    destruct (handle env e (now l)) as [[x w1] obs]. cbn [fst snd] in *.
    split; [| exact H3]. split; [exact H2 |]. cbn [in_flight].
    destruct (finished (task (k x))).
    + apply Forall_app. split; [apply Forall_take, Hf | apply Forall_drop, Hf].
    + apply Forall_insert; [exact Hf |]. apply Hk, H1.
Qed.

Lemma play_cons (env : Env) (mv : Move) (moves : list Move) (l : Live) :
  play env (mv :: moves) l
  = (fst (play env moves (fst (move env mv l))),
     (snd (move env mv l) ++ snd (play env moves (fst (move env mv l))))%list).
Proof.
  cbn [play]. destruct (move env mv l) as [l1 o1]. cbn [fst snd].
  destruct (play env moves l1) as [l2 o2]. reflexivity.
Qed.

Lemma without_token_play (env : Env) (moves : list Move) (l : Live) :
  forallb (fun mv => negb (brings_token mv)) moves = true -> without_token l ->
  without_token (fst (play env moves l)) /\ requests (snd (play env moves l)) = [].
Proof.
  revert l. induction moves as [| mv moves IH]; intros l Hall Hl;
    [split; [exact Hl | reflexivity] |].
  cbn [forallb] in Hall. apply andb_true_iff in Hall as [Hmv Hall].
  apply negb_true_iff in Hmv. rewrite play_cons. cbn [fst snd].
  destruct (without_token_move env mv l Hmv Hl) as [H1 H2].
  destruct (IH _ Hall H1) as [H3 H4].
  rewrite requests_app, H2, H4. split; [exact H3 | reflexivity].
Qed.

(** X14.  Without a token, and with no routine in flight that may have
    read one, the worker sends nothing, whatever arrives and however the
    routines it starts take turns, until a token is set: before the first
    login, or after a LOGOUT that found no sync in flight, no cookie
    leaves the browser, and the worker stays without a token. *)
Theorem no_token_no_request (env : Env) (moves : list Move) (w : World) :
  has_token w = false ->
  forallb (fun mv => negb (brings_token mv)) moves = true ->
  requests (snd (play env moves (idle w))) = []
  /\ has_token (now (fst (play env moves (idle w)))) = false.
Proof.
  intros Hw Hall.
  destruct (without_token_play env moves (idle w) Hall) as [[H1 _] H2].
  - split; [exact Hw | constructor].
  - split; [exact H2 | exact H1].
Qed.

Lemma no_token_no_request_witness :
  let env := sample_env true true (sample_created "acc-1") in
  let moves := [Arrive (MessageInternal (sample_message "LOGOUT" None)); Resume 0;
                Arrive (CookieChanged sample_change);
                Arrive (MessageInternal (sample_message "MANUAL_SYNC" (Some "linkedin")));
                Resume 0; Resume 1; Arrive (Elapse 2000); Resume 0; Resume 1; Resume 0;
                Arrive (Alarm "fallbackSync"); Resume 2; Resume 0; Resume 1; Resume 0;
                Arrive (MessageExternal (sample_message "TRIGGER_SYNC" (Some "all"))
                          {| origin := Some "https://dialogbrain.com" |});
                Resume 0; Resume 0; Resume 0; Resume 0; Resume 0] in
  requests (snd (play env moves (idle initial_world))) = []
  /\ has_token (now (fst (play env moves (idle initial_world)))) = false.
Proof.
  cbv zeta.
  apply (no_token_no_request (sample_env true true (sample_created "acc-1"))); reflexivity.
Defined.

(** The hypothesis that nothing is in flight is needed: LOGOUT does not
    stop a sync that has read the token.  The sync sends its request,
    with the token, after the LOGOUT was answered, and leaves its status
    over the one the LOGOUT set. *)
Example sync_in_flight_outlives_logout :
  let env := sample_env true true (sample_created "acc-1") in
  let logged_out := fst (play env sync_then_logout (idle logged_in_world)) in
  let ended := play env (repeat (Resume 0) 12) logged_out in
  has_token (now logged_out) = false
  /\ map pending (in_flight logged_out)
     = [Some (any_eff (CookiesGet "https://www.instagram.com" "sessionid"))]
  /\ map headers (requests (snd ended))
     = [[("Content-Type", "application/json"); ("Authorization", "Bearer token")]]
  /\ in_flight (fst ended) = []
  /\ get Instagram (syncStatus (now (fst ended)))
     = {| syncing := false; lastSync := Some "2025-01-01T00:00:00.000Z";
          error := None; status := Some "connected" |}.
Proof. vm_compute. repeat split; reflexivity. Qed.

(* ===================================================================== *)
(** ** The values of the cookies reach the request bodies only             *)
(* ===================================================================== *)

Lemma run_check {A : Type} (env : Env) (k : bool -> bool -> Prog A) (w : World) :
  run env (do instagram <- getInstagramCookies;
           do linkedin <- getLinkedInCookies;
           k (truthy (js_get instagram "sessionid")) (truthy (js_get linkedin "li_at"))) w
  = run env (k (has_session env (clock w) Instagram) (has_session env (clock w) LinkedIn)) w.
Proof.
  rewrite run_bind, run_getInstagramCookies. cbv beta iota zeta.
  rewrite run_bind, run_getLinkedInCookies. cbv beta iota zeta.
  change (truthy (js_get (bundle_at env (clock w) Instagram) "sessionid"))
    with (has_session env (clock w) Instagram).
  change (truthy (js_get (bundle_at env (clock w) LinkedIn) "li_at"))
    with (has_session env (clock w) LinkedIn).
  destruct (run env _ w) as [[a w'] o]. reflexivity.
Qed.

Section Cookies.

Variables env1 env2 : Env.
Hypothesis Hsame : same_but_cookies env1 env2.

Lemma agree_ret {A : Type} (a : A) : agree env1 env2 (Ret a).
Proof. intros w. repeat split. Qed.

Lemma agree_bind {A B : Type} (m : Prog A) (f : A -> Prog B) :
  agree env1 env2 m -> (forall a, agree env1 env2 (f a)) -> agree env1 env2 (bind m f).
Proof.
  intros Hm Hf w. destruct (Hm w) as (H1 & H2 & H3).
  rewrite !run_then. cbn [returned final observed fst snd].
  fold (returned (run env1 m w)) (final (run env1 m w)) (observed (run env1 m w)).
  rewrite !map_app, H1, H2, H3.
  destruct (Hf (returned (run env2 m w)) (final (run env2 m w))) as (H4 & H5 & H6).
  unfold returned, final, observed in *. rewrite H4, H5, H6. repeat split.
Qed.

Lemma agree_if {A : Type} (c : bool) (m1 m2 : Prog A) :
  agree env1 env2 m1 -> agree env1 env2 m2 -> agree env1 env2 (if c then m1 else m2).
Proof. destruct c; auto. Qed.

Lemma same_request_but_body (p : Platform) (w : World) :
  blank (ObsFetch (sync_request env1 p w)) = blank (ObsFetch (sync_request env2 p w)).
Proof. reflexivity. Qed.

Lemma same_outcome (p : Platform) (w : World) :
  outcome env1 p w = outcome env2 p w.
Proof.
  unfold outcome. rewrite (same_sessions _ _ Hsame), (same_answers _ _ Hsame).
  reflexivity.
Qed.

Lemma agree_sync (p : Platform) : agree env1 env2 (sync p).
Proof.
  intros w. rewrite !run_sync. cbn [returned final observed fst snd].
  rewrite same_outcome.
  destruct (outcome env2 p w); cbn [after fst snd map];
    rewrite ?(same_dates _ _ Hsame); repeat split.
Qed.

Lemma agree_effect {X : Type} (e : Eff X) :
  match e with
  | CookiesGet _ _ | UserAgent | Fetch _ => False
  | _ => True
  end -> agree env1 env2 (perform e).
Proof.
  intros He w. destruct e; try contradiction; cbn;
    rewrite ?(same_dates _ _ Hsame), ?(same_version _ _ Hsame); repeat split.
Qed.

(** The two reads of the cookie store in CHECK_COOKIES, with what is done
    to their results. *)
Lemma agree_check (k : bool -> bool -> Prog bool) :
  (forall a b, agree env1 env2 (k a b)) ->
  agree env1 env2 (do instagram <- getInstagramCookies;
                   do linkedin <- getLinkedInCookies;
                   k (truthy (js_get instagram "sessionid"))
                     (truthy (js_get linkedin "li_at"))).
Proof.
  intros Hk w. rewrite !run_check, !(same_sessions _ _ Hsame). apply Hk.
Qed.

Ltac agree_steps :=
  repeat first
    [ apply agree_ret
    | apply (agree_sync Instagram) | apply (agree_sync LinkedIn)
    | apply agree_effect; exact I
    | apply agree_if
    | apply agree_bind; [| intros ? ] ].

Lemma agree_onMessage (message : Message) : agree env1 env2 (onMessage message).
Proof.
  unfold onMessage.
  do 4 (apply agree_if; [solve [agree_steps] |]).
  apply agree_if; [| solve [agree_steps]].
  apply (agree_check (fun a b =>
    perform (SendResponse
      (JObj [("instagram", JObj [("hasSession", JBool a)]);
             ("linkedin", JObj [("hasSession", JBool b)])]));; Ret true)).
  intros a b. agree_steps.
Qed.

Lemma agree_onMessageExternal (message : Message) (sender : Sender) :
  agree env1 env2 (onMessageExternal message sender).
Proof.
  unfold onMessageExternal.
  do 4 (apply agree_if; [solve [agree_steps] |]).
  apply agree_if; [| solve [agree_steps]].
  apply (agree_check (fun a b =>
    perform (SendResponse
      (JObj [("installed", JBool true);
             ("instagram", JObj [("hasSession", JBool a)]);
             ("linkedin", JObj [("hasSession", JBool b)])]));; Ret true)).
  intros a b. agree_steps.
Qed.

Lemma agree_onAlarm (n : string) : agree env1 env2 (onAlarm n).
Proof. unfold onAlarm. agree_steps. Qed.

Lemma agree_callback (cb : Callback) : agree env1 env2 (callback_prog cb).
Proof. destruct cb as [[|] |]; cbn [callback_prog]; agree_steps. Qed.

Lemma agree_fire_all (ts : list Timer) (w : World) :
  fst (fire_all env1 ts w) = fst (fire_all env2 ts w)
  /\ map blank (snd (fire_all env1 ts w)) = map blank (snd (fire_all env2 ts w)).
Proof.
  revert w. induction ts as [| t ts IH]; intros w; [split; reflexivity |].
  rewrite !fire_all_cons, !fire_eq. cbv zeta. cbn [fst snd].
  set (w1 := with_clock (N.max (clock w) (due t)) (clearTimeout (timer_id t) w)).
  destruct (agree_callback (callback t) w1) as (_ & H2 & H3).
  rewrite H2. destruct (IH (final (run env2 (callback_prog (callback t)) w1))) as [H4 H5].
  rewrite H4. split; [reflexivity |].
  rewrite !map_app. cbn [map blank]. rewrite H3, H5. reflexivity.
Qed.

Lemma agree_step (a : Action) (w : World) :
  fst (step env1 a w) = fst (step env2 a w)
  /\ map blank (snd (step env1 a w)) = map blank (snd (step env2 a w)).
Proof.
  destruct a as [d | ci | n | | m | m s |]; cbn [step]; try (split; reflexivity).
  - rewrite !elapse_eq. cbv zeta. cbn [fst snd].
    destruct (agree_fire_all
                (sort_by_due (List.filter (fun t => due t <=? clock w + d) (timers w))) w)
      as [H1 H2].
    rewrite H1, H2. split; reflexivity.
  - rewrite (final_pair (run env1 (onAlarm n) w)), (final_pair (run env2 (onAlarm n) w)).
    cbn [fst snd]. destruct (agree_onAlarm n w) as (_ & H2 & H3). split; assumption.
  - rewrite (final_pair (run env1 (onMessage m) w)), (final_pair (run env2 (onMessage m) w)).
    cbn [fst snd]. destruct (agree_onMessage m w) as (_ & H2 & H3). split; assumption.
  - rewrite (final_pair (run env1 (onMessageExternal m s) w)),
      (final_pair (run env2 (onMessageExternal m s) w)).
    cbn [fst snd]. destruct (agree_onMessageExternal m s w) as (_ & H2 & H3).
    split; assumption.
Qed.

End Cookies.


Lemma same_but_cookies_sample :
  same_but_cookies (sample_env_valued "s3cr3t" "Mozilla/5.0") (sample_env_valued "0ther" "curl/8").
Proof.
  split.
  - intros t p. destruct p; reflexivity.
  - intros p w. reflexivity.
  - intros t. reflexivity.
  - reflexivity.
Defined.


(* ===================================================================== *)
(** ** The debounce of one platform and the cookies of the other           *)
(* ===================================================================== *)

Lemma handles_ok_frame (w w' : World) :
  (forall t, In t (timers w') -> In t (timers w)) ->
  pendingSyncs w' = pendingSyncs w ->
  next_timer_id w' = next_timer_id w ->
  handles_ok w -> handles_ok w'.
Proof.
  intros Ht Hp Hn [H1 H2]. constructor.
  - intros q id. rewrite Hp, Hn. apply H1.
  - intros q t Hin. rewrite Hp. apply H2, Ht, Hin.
Qed.

Lemma handles_ok_setTimeout (cb : Callback) (ms : N) (w : World) (owner : option Platform) :
  timers_ok w -> handles_ok w ->
  (match owner with Some q => cb = DebouncedSync q | None => True end) ->
  let w2 := snd (setTimeout cb ms w) in
  handles_ok (match owner with
              | Some q => with_pendingSyncs (set q (Some (next_timer_id w)) (pendingSyncs w2)) w2
              | None => w2
              end).
Proof.
  intros Hok [H1 H2] Hcb. cbv zeta. unfold setTimeout. cbn [snd].
  pose proof (ok_fresh w Hok) as Hfresh. rewrite Forall_forall in Hfresh.
  assert (Hold : forall t, In t (timers w) -> timer_id t < next_timer_id w).
  { intros t Ht. apply Hfresh, list_elem_of_In, Ht. }
  destruct owner as [q |]; constructor;
    cbn [with_pendingSyncs pendingSyncs timers next_timer_id].
  - intros r id. destruct (decide (q = r)) as [<- | Hne].
    + rewrite get_set_same. intros [= <-]. lia.
    + rewrite get_set_other by exact Hne. intros Hr. apply H1 in Hr. lia.
  - intros r t Hin. apply in_app_iff in Hin as [Hin | [<- | []]].
    + destruct (decide (q = r)) as [<- | Hne].
      * rewrite get_set_same. intros [= Hid]. apply Hold in Hin. lia.
      * rewrite get_set_other by exact Hne. apply H2, Hin.
    + cbn [timer_id callback]. destruct (decide (q = r)) as [<- | Hne]; [intros _; exact Hcb |].
      rewrite get_set_other by exact Hne. intros Hr. apply H1 in Hr. lia.
  - intros r id Hr. apply H1 in Hr. lia.
  - intros r t Hin. apply in_app_iff in Hin as [Hin | [<- | []]]; [apply H2, Hin |].
    cbn [timer_id]. intros Hr. apply H1 in Hr. lia.
Qed.

Lemma handles_ok_debounce (p : Platform) (w : World) :
  timers_ok w -> handles_ok w -> handles_ok (debounce p w).
Proof.
  intros Hok Hh. unfold debounce.
  destruct (debounce_clears p w Hok) as (Hok1 & _ & Hpend & Hnext & _ & _).
  set (w1 := match get p (pendingSyncs w) with
             | Some id => if id =? 0 then w else clearTimeout id w
             | None => w
             end) in *.
  assert (Hh1 : handles_ok w1).
  { apply (handles_ok_frame w); try assumption.
    intros t. unfold w1. destruct (get p (pendingSyncs w)) as [id |]; [| auto].
    destruct (id =? 0); [auto |]. unfold clearTimeout. cbn [timers with_timers].
    intros Hin. apply filter_In in Hin. tauto. }
  pose proof (handles_ok_setTimeout (DebouncedSync p) CONFIG.DEBOUNCE_MS w1 (Some p)
                Hok1 Hh1 eq_refl) as H.
  cbv zeta in H. unfold setTimeout in *. cbn [snd] in H. exact H.
Qed.

Lemma handles_ok_step (env : Env) (a : Action) (w : World) :
  timers_ok w -> handles_ok w -> handles_ok (fst (step env a w)).
Proof.
  intros Hok Hh.
  assert (Hrun : forall A (m : Prog A), handles_ok (final (run env m w))).
  { intros A m. destruct (run_frame env m w) as (F1 & F2 & F3 & _).
    apply (handles_ok_frame w); try assumption. intros t. rewrite F1. auto. }
  destruct a as [d | ci | n | | m | m s |]; cbn [step].
  - destruct (elapse_spec env d w Hok) as (E1 & E2 & E3 & _).
    apply (handles_ok_frame w); try assumption.
    intros t. rewrite E1. intros Hin. apply filter_In in Hin. tauto.
  - cbn [fst]. unfold onChanged.
    assert (H1 : timers_ok (if concerns Instagram ci then debounce Instagram w else w)
                 /\ handles_ok (if concerns Instagram ci then debounce Instagram w else w)).
    { destruct (concerns Instagram ci); [| auto].
      split; [apply debounce_spec, Hok | apply handles_ok_debounce; assumption]. }
    destruct H1 as [H1 H2].
    destruct (concerns LinkedIn ci); [apply handles_ok_debounce; assumption | exact H2].
  - rewrite (final_pair (run env (onAlarm n) w)). apply Hrun.
  - cbn [fst]. apply (handles_ok_setTimeout InitialSync 5000 w None Hok Hh I).
  - rewrite (final_pair (run env (onMessage m) w)). apply Hrun.
  - rewrite (final_pair (run env (onMessageExternal m s) w)). apply Hrun.
  - cbn [fst]. constructor; cbn [restart pendingSyncs timers].
    + intros q id. destruct q; discriminate.
    + intros q t [].
Qed.

Lemma reachable_handles_ok (env : Env) (w : World) :
  reachable env w -> handles_ok w.
Proof.
  induction 1 as [| a w Hw IH].
  - constructor; cbn [initial_world pendingSyncs timers].
    + intros q id. destruct q; discriminate.
    + intros q t [].
  - apply handles_ok_step; [apply (reachable_timers_ok env), Hw | exact IH].
Qed.

(** X16.  A change that does not concern a platform leaves its pending
    debounce timer alone: a LinkedIn cookie neither cancels nor postpones
    the Instagram sync that is due, and the other way round; and a change
    of a cookie that is not watched changes nothing at all. *)
Theorem debounce_per_platform (env : Env) (p : Platform) (ci : ChangeInfo) (w : World) :
  reachable env w ->
  concerns p ci = false ->
  pending_debounce p (onChanged ci w) = pending_debounce p w
  /\ ((forall q, concerns q ci = false) -> onChanged ci w = w).
Proof.
  intros Hw Hp. pose proof (reachable_timers_ok env w Hw) as Hok.
  pose proof (reachable_handles_ok env w Hw) as Hh.
  assert (Hother : forall q v, q <> p -> timers_ok v -> handles_ok v ->
                     pending_debounce p (debounce q v) = pending_debounce p v).
  { intros q v Hq Hv Hhv. unfold debounce, setTimeout, pending_debounce.
    cbn [with_pendingSyncs timers]. rewrite pending_debounce_app.
    rewrite (is_debounce_other q p) by (cbn [callback]; congruence).
    rewrite app_nil_r.
    destruct (get q (pendingSyncs v)) as [id |] eqn:Hid; [| reflexivity].
    destruct (id =? 0); [reflexivity |]. unfold clearTimeout. cbn [timers with_timers].
    rewrite filter_swap. apply forallb_filter_id, forallb_forall. intros t Ht.
    apply negb_true_iff, N.eqb_neq. intros Heq. subst id.
    apply filter_In in Ht as [Hin Hd].
    pose proof (ok_owner v Hhv q t Hin Hid) as Hcb.
    unfold is_debounce in Hd. rewrite Hcb in Hd. apply Platform_eqb_eq in Hd. congruence. }
  split.
  - unfold onChanged. destruct p.
    + rewrite Hp. destruct (concerns LinkedIn ci); [| reflexivity].
      apply Hother; [discriminate | assumption | assumption].
    + rewrite Hp. destruct (concerns Instagram ci); [| reflexivity].
      apply Hother; [discriminate | assumption | assumption].
  - intros Hall. unfold onChanged. rewrite !Hall. reflexivity.
Qed.

Lemma debounce_per_platform_witness :
  let ci := {| cookie := {| name := "li_at"; domain := ".www.linkedin.com"; value := "x" |};
               removed := false |} in
  let w := fst (exec (sample_env true true (sample_created "acc-1"))
                  [CookieChanged sample_change; Elapse 500] initial_world) in
  pending_debounce Instagram (onChanged ci w) = pending_debounce Instagram w.
Proof.
  cbv zeta.
  apply (debounce_per_platform (sample_env true true (sample_created "acc-1")) Instagram).
  - apply reachable_exec, reachable_initial.
  - reflexivity.
Defined.

(* ===================================================================== *)
(** ** The popup: what it shows                                            *)
(* ===================================================================== *)

Lemma includes_self_prefix (s rest : string) : includes (s +:+ rest) s = true.
Proof.
  destruct s as [| c s]; [destruct rest; reflexivity |].
  cbn [includes]. change (String c s +:+ rest) with (String c s +:+ rest).
  assert (H : String.prefix (String c s) (String c s +:+ rest) = true).
  { clear. generalize (String c s). intros a. induction a as [| x a IH];
      [destruct rest; reflexivity |].
    simpl. destruct (Ascii.ascii_dec x x) as [_ | H]; [exact IH | congruence]. }
  simpl in *. rewrite H. reflexivity.
Qed.

Lemma includes_middle (pre s post : string) : includes (pre +:+ s +:+ post) s = true.
Proof.
  induction pre as [| c pre IH]; [apply (includes_self_prefix s post) |].
  change (String c pre +:+ s +:+ post) with (String c (pre +:+ s +:+ post)).
  cbn [includes]. rewrite IH. apply orb_true_r.
Qed.

Lemma formatLastSync_recent (penv : PopupEnv) (dateStr : string) (date : Z) :
  dateStr <> "" ->
  parse_date penv dateStr = Some date ->
  (now_ms penv - date < 60000)%Z ->
  formatLastSync penv (Some dateStr) = "Just now".
Proof.
  intros Hne Hparse Hr. unfold formatLastSync.
  apply truthy_Some in Hne. rewrite Hne. cbn [negb template]. rewrite Hparse. cbv zeta.
  assert (H : ((now_ms penv - date) / 60000 < 1)%Z) by (apply Z.div_lt_upper_bound; lia).
  apply Z.ltb_lt in H. rewrite H. reflexivity.
Qed.

(** X17.  [formatLastSync] for a date that parses: 'Just now' under a
    minute, '<n> min ago' with 1 <= n <= 59 under an hour, '1 hour ago'
    under two hours, '<n> hours ago' with 2 <= n <= 23 under a day, and
    the date in the user's locale from a day on.  Minutes and hours are
    rounded down. *)
Theorem formatLastSync_ranges (penv : PopupEnv) (dateStr : string) (date : Z) :
  dateStr <> "" ->
  parse_date penv dateStr = Some date ->
  let ago := (now_ms penv - date)%Z in
  ((ago < 60000)%Z -> formatLastSync penv (Some dateStr) = "Just now")
  /\ ((60000 <= ago < 3600000)%Z ->
      formatLastSync penv (Some dateStr) = template_int (ago / 60000) +:+ " min ago"
      /\ (1 <= ago / 60000 <= 59)%Z)
  /\ ((3600000 <= ago < 7200000)%Z ->
      formatLastSync penv (Some dateStr) = "1 hour ago")
  /\ ((7200000 <= ago < 86400000)%Z ->
      formatLastSync penv (Some dateStr) = template_int (ago / 3600000) +:+ " hours ago"
      /\ (2 <= ago / 3600000 <= 23)%Z)
  /\ ((86400000 <= ago)%Z ->
      formatLastSync penv (Some dateStr) = toLocaleDateString penv (Some date)).
Proof.
  intros Hne Hparse. cbv zeta. unfold formatLastSync.
  apply truthy_Some in Hne. rewrite Hne. cbn [negb template]. rewrite Hparse. cbv zeta.
  set (ago := (now_ms penv - date)%Z).
  assert (Hh : (ago / 60000 / 60 = ago / 3600000)%Z).
  { rewrite Z.div_div by lia. reflexivity. }
  split; [| split; [| split; [| split]]]; intros Hr.
  - assert (H : (ago / 60000 < 1)%Z) by (apply Z.div_lt_upper_bound; lia).
    apply Z.ltb_lt in H. rewrite H. reflexivity.
  - assert (H1 : (1 <= ago / 60000)%Z) by (apply Z.div_le_lower_bound; lia).
    assert (H2 : (ago / 60000 < 60)%Z) by (apply Z.div_lt_upper_bound; lia).
    split; [| lia].
    apply Z.ltb_ge in H1. apply Z.ltb_lt in H2. rewrite H1, H2. reflexivity.
  - assert (H1 : (60 <= ago / 60000)%Z) by (apply Z.div_le_lower_bound; lia).
    assert (H3 : (ago / 3600000 = 1)%Z).
    { assert (1 <= ago / 3600000)%Z by (apply Z.div_le_lower_bound; lia).
      assert (ago / 3600000 < 2)%Z by (apply Z.div_lt_upper_bound; lia). lia. }
    assert (H0 : (ago / 60000 <? 1)%Z = false) by (apply Z.ltb_ge; lia).
    assert (H2 : (ago / 60000 <? 60)%Z = false) by (apply Z.ltb_ge; lia).
    rewrite H0, H2, Hh, H3. reflexivity.
  - assert (H1 : (60 <= ago / 60000)%Z) by (apply Z.div_le_lower_bound; lia).
    assert (H3 : (2 <= ago / 3600000)%Z) by (apply Z.div_le_lower_bound; lia).
    assert (H4 : (ago / 3600000 < 24)%Z) by (apply Z.div_lt_upper_bound; lia).
    split; [| lia].
    assert (H0 : (ago / 60000 <? 1)%Z = false) by (apply Z.ltb_ge; lia).
    assert (H2 : (ago / 60000 <? 60)%Z = false) by (apply Z.ltb_ge; lia).
    rewrite H0, H2, Hh. apply Z.ltb_lt in H4. rewrite H4.
    assert (H5 : (1 <? ago / 3600000)%Z = true) by (apply Z.ltb_lt; lia).
    rewrite H5. reflexivity.
  - assert (H1 : (60 <= ago / 60000)%Z) by (apply Z.div_le_lower_bound; lia).
    assert (H3 : (24 <= ago / 3600000)%Z) by (apply Z.div_le_lower_bound; lia).
    assert (H0 : (ago / 60000 <? 1)%Z = false) by (apply Z.ltb_ge; lia).
    assert (H2 : (ago / 60000 <? 60)%Z = false) by (apply Z.ltb_ge; lia).
    assert (H4 : (ago / 3600000 <? 24)%Z = false) by (apply Z.ltb_ge; lia).
    rewrite H0, H2, Hh, H4. reflexivity.
Qed.

Lemma formatLastSync_ranges_witness :
  formatLastSync sample_penv (Some "2025-01-01T00:00:00.000Z") = "1 hour ago".
Proof.
  apply (formatLastSync_ranges sample_penv "2025-01-01T00:00:00.000Z" 1735689600000).
  - discriminate.
  - reflexivity.
  - cbn. lia.
Defined.

(** X18.  The edges of [formatLastSync]: no date or an empty one is
    'Never'; a date that lies in the future, by however much, is 'Just
    now'; a date that does not parse is shown as the locale shows an
    invalid date. *)
Theorem formatLastSync_edges (penv : PopupEnv) (dateStr : string) :
  formatLastSync penv None = "Never"
  /\ formatLastSync penv (Some "") = "Never"
  /\ (dateStr <> "" -> parse_date penv dateStr = None ->
      formatLastSync penv (Some dateStr) = toLocaleDateString penv None)
  /\ (forall date, dateStr <> "" -> parse_date penv dateStr = Some date ->
      (now_ms penv <= date)%Z ->
      formatLastSync penv (Some dateStr) = "Just now").
Proof.
  split; [reflexivity |]. split; [reflexivity |]. split.
  - intros Hne Hp. unfold formatLastSync. apply truthy_Some in Hne. rewrite Hne.
    cbn [negb template]. rewrite Hp. reflexivity.
  - intros date Hne Hp Hle.
    apply (formatLastSync_recent penv dateStr date Hne Hp). lia.
Qed.

Lemma formatLastSync_edges_witness :
  formatLastSync sample_penv (Some "yesterday") = "Invalid Date".
Proof.
  apply (formatLastSync_edges sample_penv "yesterday").
  - discriminate.
  - reflexivity.
Defined.

Lemma js_string_opt (v : option string) : js_string (Some (js_opt v)) = v.
Proof. destruct v; reflexivity. Qed.

Lemma read_status_to_js (s : SyncStatus) : read_status (Some (status_to_js s)) = s.
Proof.
  destruct s as [sy ls er st]. unfold read_status, status_to_js.
  cbn [js_field_opt js_field assoc String.eqb Ascii.eqb Bool.eqb app
       syncing lastSync error status js_truthy].
  rewrite !js_string_opt. destruct st; reflexivity.
Qed.

Lemma sendMessage_status (env : Env) (w : World) :
  sendMessage env (message_of "GET_STATUS") w
  = (Answered (status_reply (syncStatus w)), w, [ObsReply (status_reply (syncStatus w))]).
Proof. reflexivity. Qed.

Lemma sendMessage_check (env : Env) (w : World) :
  sendMessage env (message_of "CHECK_COOKIES") w
  = (Answered (cookies_reply (has_session env (clock w) Instagram)
                             (has_session env (clock w) LinkedIn)), w,
     [ObsReply (cookies_reply (has_session env (clock w) Instagram)
                              (has_session env (clock w) LinkedIn))]).
Proof. reflexivity. Qed.

Lemma read_status_reply (t : PerPlatform SyncStatus) (p : Platform) :
  read_status (js_field (status_reply t) (platform_name p)) = get p t.
Proof. destruct p; apply read_status_to_js. Qed.

Lemma read_cookies_reply (ig li : bool) (p : Platform) :
  read_hasSession (js_field (cookies_reply ig li) (platform_name p))
  = Some (get p {| instagram := ig; linkedin := li |}).
Proof. destruct p; reflexivity. Qed.

(** X19.  A status goes over the channel and comes back as it was, and so
    do the two session flags: what the popup reads from the replies to
    GET_STATUS and CHECK_COOKIES is what the worker holds and what the
    cookie store has, and asking changes nothing. *)
Theorem replies_read_back (env : Env) (s : SyncStatus) (w : World) :
  read_status (Some (status_to_js s)) = s
  /\ (exists response,
        sendMessage env (message_of "GET_STATUS") w
        = (Answered response, w, [ObsReply response])
        /\ forall p, read_status (js_field response (platform_name p))
                     = get p (syncStatus w))
  /\ (exists response,
        sendMessage env (message_of "CHECK_COOKIES") w
        = (Answered response, w, [ObsReply response])
        /\ forall p, read_hasSession (js_field response (platform_name p))
                     = Some (has_session env (clock w) p)).
Proof.
  split; [apply read_status_to_js |]. split.
  - eexists. split; [apply sendMessage_status |]. intros p. apply read_status_reply.
  - eexists. split; [apply sendMessage_check |]. intros p.
    rewrite read_cookies_reply. destruct p; reflexivity.
Qed.

Lemma includes_refl (s : string) : includes s s = true.
Proof.
  destruct s as [| c s]; [reflexivity |]. cbn [includes].
  assert (H : forall a, String.prefix a a = true).
  { intros a. induction a as [| x a IH]; [reflexivity |].
    simpl. destruct (Ascii.ascii_dec x x); [exact IH | congruence]. }
  rewrite H. reflexivity.
Qed.

Lemma strict_eq_includes (e : option string) (s : string) :
  strict_eq e s || includes_opt e s = includes_opt e s.
Proof.
  destruct e as [x |]; [| reflexivity]. cbn [strict_eq includes_opt].
  destruct (String.eqb_spec x s); [subst; rewrite includes_refl |]; reflexivity.
Qed.

Lemma elements_of_name (p : Platform) : elements_of (platform_name p) = p.
Proof. destruct p; reflexivity. Qed.

(** X20.  [updatePlatformStatus]: the sync button is disabled exactly when
    a sync is running, the error mentions 'Not logged in', or the session
    credential is missing; the badge says 'Connected' exactly when the
    button is not disabled and the status is 'connected' or there was a
    sync before; and the update of one platform leaves the other
    platform's elements and the two sections alone. *)
Theorem updatePlatformStatus_button (penv : PopupEnv) (p : Platform) (s : SyncStatus)
    (cookies : option bool) (d : Dom) :
  let blocked := syncing s || includes_opt (error s) "Not logged in"
                 || negb (match cookies with Some b => b | None => false end) in
  button_disabled (shown penv p s cookies d) = blocked
  /\ (badge_textContent (shown penv p s cookies d) = "Connected"
      <-> blocked = false
          /\ (status s = Some "connected" \/ truthy (lastSync s) = true))
  /\ (forall q, q <> p ->
        get q (widgets (updatePlatformStatus penv (platform_name p) s cookies d))
        = get q (widgets d))
  /\ loginSection_display (updatePlatformStatus penv (platform_name p) s cookies d)
     = loginSection_display d
  /\ mainSection_display (updatePlatformStatus penv (platform_name p) s cookies d)
     = mainSection_display d.
Proof.
  cbv zeta. unfold shown, updatePlatformStatus. rewrite strict_eq_includes.
  assert (Hc : strict_eq (status s) "connected" = true <-> status s = Some "connected").
  { destruct (status s) as [x |]; cbn [strict_eq]; [| split; discriminate].
    rewrite String.eqb_eq. split; congruence. }
  destruct (syncing s); cbn [orb];
    [| destruct (includes_opt (error s) "Not logged in"); cbn [orb];
       [| destruct (match cookies with Some b => b | None => false end); cbn [negb];
          [destruct (strict_eq (status s) "connected") eqn:Hst; cbn [orb];
             [| destruct (truthy (lastSync s)) eqn:Hls;
                [| destruct (truthy (error s))]] |]]];
    cbn [widgets loginSection_display mainSection_display]; rewrite elements_of_name;
    rewrite get_set_same;
    cbn [button_disabled badge_textContent];
    (split; [reflexivity |]);
    (split; [| split; [intros q Hq; apply get_set_other; congruence | split; reflexivity]]);
    try (split; [discriminate | intros [Hb _]; discriminate Hb]).
  - split; [intros _ | reflexivity]. split; [reflexivity |]. left. apply Hc. reflexivity.
  - split; [intros _ | reflexivity]. split; [reflexivity |]. right. reflexivity.
  - split; [discriminate |]. intros [_ [H | H]]; [apply Hc in H |]; congruence.
  - split; [discriminate |]. intros [_ [H | H]]; [apply Hc in H |]; congruence.
Qed.

Lemma includes_needs_first (s rest : string) (c : Ascii.ascii) :
  has_char c s = false -> includes s (String c rest) = false.
Proof.
  induction s as [| x s IH]; [reflexivity |].
  cbn [has_char includes]. intros H. apply orb_false_iff in H as [Hx Hs].
  rewrite (IH Hs), orb_false_r. simpl.
  destruct (Ascii.ascii_dec c x) as [-> | Hne]; [| reflexivity].
  rewrite Ascii.eqb_refl in Hx. discriminate Hx.
Qed.

Lemma digits_no_N (d : Decimal.uint) :
  has_char "N"%char (NilEmpty.string_of_uint d) = false.
Proof. induction d; simpl; auto. Qed.

Lemma http_error_not_login (n : N) :
  includes ("HTTP " +:+ template_num n) "Not logged in" = false.
Proof.
  apply includes_needs_first. unfold template_num, NilZero.string_of_uint.
  destruct (N.to_uint n) eqn:E; try reflexivity; cbn -[NilEmpty.string_of_uint];
    rewrite <- ?E; try apply digits_no_N;
    match goal with |- context [NilEmpty.string_of_uint ?d] => apply (digits_no_N d) end.
Qed.

(* ===================================================================== *)
(** ** The popup: its buttons, its start and the token it is sent          *)
(* ===================================================================== *)

Lemma sendMessage_manual (env : Env) (p : Platform) (w : World) :
  sendMessage env {| type := "MANUAL_SYNC"; platform := Some (platform_name p); token := "" |} w
  = (Answered (synced_reply (get p (syncStatus (final (run env (sync p) w))))),
     final (run env (sync p) w),
     (observed (run env (sync p) w)
      ++ [ObsReply (synced_reply (get p (syncStatus (final (run env (sync p) w)))))])%list).
Proof.
  unfold sendMessage. rewrite (run_manual_sync env p) by reflexivity.
  rewrite replies_app, replies_sync. reflexivity.
Qed.

Lemma clock_sync (env : Env) (p : Platform) (w : World) :
  clock (final (run env (sync p) w)) = clock w.
Proof. destruct (run_frame env (sync p) w) as (_ & _ & _ & H). exact H. Qed.

Lemma shown_any_dom (penv : PopupEnv) (p : Platform) (s : SyncStatus)
    (cookies : option bool) (d d' : Dom) :
  shown penv p s cookies d = shown penv p s cookies d'.
Proof.
  unfold shown, updatePlatformStatus. rewrite elements_of_name.
  destruct (if syncing s then _ else _) as [[[cls text] disabled] btn].
  cbn [widgets]. rewrite !get_set_same. reflexivity.
Qed.

Lemma onSyncClick_eq (env : Env) (penv : PopupEnv) (p : Platform) (b : Browser) :
  let w' := final (run env (sync p) (worker b)) in
  worker (fst (onSyncClick env penv p b)) = w'
  /\ get p (widgets (dom (fst (onSyncClick env penv p b))))
     = shown penv p (get p (syncStatus w')) (Some (has_session env (clock (worker b)) p)) (dom b)
  /\ (forall q, q <> p ->
        get q (widgets (dom (fst (onSyncClick env penv p b)))) = get q (widgets (dom b)))
  /\ requests (snd (onSyncClick env penv p b))
     = requests (observed (run env (sync p) (worker b))).
Proof.
  cbv zeta. unfold onSyncClick. rewrite sendMessage_manual, sendMessage_check.
  rewrite clock_sync. cbn [fst snd worker dom].
  rewrite read_cookies_reply.
  replace (get p {| instagram := has_session env (clock (worker b)) Instagram;
                    linkedin := has_session env (clock (worker b)) LinkedIn |})
    with (has_session env (clock (worker b)) p) by (destruct p; reflexivity).
  change (js_field (synced_reply ?s) "status") with (Some (status_to_js s)).
  rewrite read_status_to_js.
  split; [reflexivity |]. split; [| split].
  - apply shown_any_dom.
  - intros q Hq. unfold updatePlatformStatus. rewrite elements_of_name.
    destruct (if syncing _ then _ else _) as [[[cls text] disabled] btn].
    cbn [widgets with_widget]. rewrite !get_set_other by congruence. reflexivity.
  - rewrite !requests_app. cbn. rewrite !app_nil_r. reflexivity.
Qed.

Lemma status_after_sync (env : Env) (p : Platform) (w : World) :
  get p (syncStatus (final (run env (sync p) w)))
  = match outcome env p w with
    | NoToken => failed "Not logged in"
    | NoSession => failed (no_session_message p)
    | Threw message => failed message
    | HttpError r => failed ("HTTP " +:+ template_num (resp_status r))
    | Synced r data =>
        {| syncing := false; lastSync := Some (iso_at env (clock w)); error := None;
           status := Some (or_default (data_status data) "connected") |}
    end.
Proof.
  rewrite final_sync.
  destruct (outcome env p w); cbn [after fst]; unfold assign;
    cbn [syncStatus with_syncStatus]; apply get_set_same.
Qed.

Lemma outcome_session (env : Env) (p : Platform) (w : World) :
  has_session env (clock w) p
  = match outcome env p w with
    | NoToken => has_session env (clock w) p
    | NoSession => false
    | _ => true
    end.
Proof.
  unfold outcome. destruct (has_token w); cbn [negb]; [| reflexivity].
  destruct (has_session env (clock w) p); cbn [negb]; [| reflexivity].
  destruct (fetch_at env (clock w) (sync_request env p w)) as [r | m]; [| reflexivity].
  destruct (ok r); [destruct (json r) | destruct (error_body p r)]; reflexivity.
Qed.

Lemma no_session_includes (p : Platform) :
  includes (no_session_message p) "Not logged in" = true
  /\ String.eqb (no_session_message p) "Not logged in" = false
  /\ String.eqb (no_session_message p) "" = false.
Proof. destruct p; repeat split; reflexivity. Qed.

(** X21.  A click on a sync button runs the platform's sync in the worker,
    once, and then shows how it ended: 'Not logged in' with the button
    disabled without a token or a session credential, 'Error' and 'Retry
    Sync' with the HTTP status after a response that is not ok and whose
    body could be read, 'Connected' and the time of the sync after a
    success; after a request or a read of the body that was rejected the
    button is disabled exactly when the message mentions 'Not logged
    in'.  The other platform's elements stay as they
    are. *)
Theorem sync_click_shows_outcome (env : Env) (penv : PopupEnv) (p : Platform) (b : Browser) :
  let w := worker b in
  let after_click := fst (onSyncClick env penv p b) in
  let wd := get p (widgets (dom after_click)) in
  worker after_click = final (run env (sync p) w)
  /\ requests (snd (onSyncClick env penv p b)) = requests (observed (run env (sync p) w))
  /\ (forall q, q <> p -> get q (widgets (dom after_click)) = get q (widgets (dom b)))
  /\ match outcome env p w with
     | NoToken =>
         wd = {| badge_className := "status-badge status-not-logged-in";
                 badge_textContent := "Not logged in";
                 info_textContent := "Not synced yet";
                 button_disabled := true;
                 button_textContent := "Login Required" |}
     | NoSession =>
         wd = {| badge_className := "status-badge status-not-logged-in";
                 badge_textContent := "Not logged in";
                 info_textContent := "Error: " +:+ no_session_message p;
                 button_disabled := true;
                 button_textContent := "Login Required" |}
     | HttpError r =>
         wd = {| badge_className := "status-badge status-disconnected";
                 badge_textContent := "Error";
                 info_textContent := "Error: HTTP " +:+ template_num (resp_status r);
                 button_disabled := false;
                 button_textContent := "Retry Sync" |}
     | Threw message =>
         button_disabled wd = includes message "Not logged in"
         /\ badge_textContent wd
            = (if includes message "Not logged in" then "Not logged in"
               else if String.eqb message "" then "Not synced" else "Error")
         /\ info_textContent wd
            = (if String.eqb message "" || String.eqb message "Not logged in"
               then "Not synced yet" else "Error: " +:+ message)
     | Synced r data =>
         iso_at env (clock w) <> "" ->
         wd = {| badge_className := "status-badge status-connected";
                 badge_textContent := "Connected";
                 info_textContent :=
                   "Last sync: " +:+ formatLastSync penv (Some (iso_at env (clock w)));
                 button_disabled := false;
                 button_textContent := "Sync Now" |}
     end.
Proof.
  cbv zeta. destruct (onSyncClick_eq env penv p b) as (Hw & Hwd & Hq & Hr).
  split; [exact Hw |]. split; [exact Hr |]. split; [exact Hq |].
  rewrite Hwd, status_after_sync, (outcome_session env p (worker b)).
  unfold shown, updatePlatformStatus. rewrite elements_of_name.
  destruct (outcome env p (worker b)) as [| | message | r | r data];
    cbn [failed syncing error lastSync status].
  - cbn -[get set]. rewrite get_set_same. reflexivity.
  - destruct (no_session_includes p) as (H1 & H2 & H3).
    cbn [strict_eq includes_opt truthy template]. rewrite H1, H2, H3, orb_true_r.
    cbn -[get set]. rewrite get_set_same. reflexivity.
  - cbn [strict_eq includes_opt truthy template negb].
    destruct (String.eqb_spec message "Not logged in") as [-> | Hne].
    + cbn -[get set]. rewrite get_set_same. cbn. auto.
    + cbn [orb]. destruct (includes message "Not logged in") eqn:Hi.
      * cbn -[get set]. rewrite get_set_same.
        cbn [button_disabled badge_textContent info_textContent].
        split; [reflexivity |]. split; [reflexivity |].
        destruct (String.eqb_spec message "") as [-> | _]; [discriminate Hi | reflexivity].
      * destruct (String.eqb message ""); cbn -[get set]; rewrite get_set_same; cbn; auto.
  - cbn [strict_eq includes_opt truthy template negb].
    rewrite http_error_not_login.
    replace (String.eqb ("HTTP " +:+ template_num (resp_status r)) "Not logged in")
      with false by reflexivity.
    replace (String.eqb ("HTTP " +:+ template_num (resp_status r)) "")
      with false by reflexivity.
    cbn -[get set]. rewrite get_set_same. reflexivity.
  - intros Hiso. apply String.eqb_neq in Hiso.
    cbn [strict_eq includes_opt truthy template negb orb andb]. rewrite Hiso.
    rewrite orb_true_r. cbn -[get set formatLastSync]. rewrite get_set_same. reflexivity.
Qed.

Lemma sync_click_shows_outcome_witness :
  get Instagram
      (widgets (dom (fst (onSyncClick (sample_env true true (sample_created "acc-1"))
                            sample_penv Instagram sample_browser))))
  = {| badge_className := "status-badge status-connected";
       badge_textContent := "Connected";
       info_textContent := "Last sync: 1 hour ago";
       button_disabled := false;
       button_textContent := "Sync Now" |}.
Proof.
  destruct (sync_click_shows_outcome (sample_env true true (sample_created "acc-1"))
              sample_penv Instagram sample_browser) as (_ & _ & _ & H).
  change (outcome (sample_env true true (sample_created "acc-1")) Instagram
            (worker sample_browser))
    with (Synced (sample_response "acc-1")
            {| account_id := Some "acc-1"; data_status := None |}) in H.
  apply H. discriminate.
Defined.

Lemma storage_get_token (w : World) :
  truthy (storage_get ["auth_token"] (storage w) !! "auth_token") = has_token w.
Proof.
  unfold has_token. rewrite lookup_storage_get_elem; [reflexivity |].
  apply list_elem_of_here.
Qed.

Lemma init_eq (env : Env) (penv : PopupEnv) (b : Browser) :
  init env penv b
  = if has_token (worker b) then
      ({| worker := worker b;
          dom := updatePlatformStatus penv "linkedin"
                   (get LinkedIn (syncStatus (worker b)))
                   (Some (has_session env (clock (worker b)) LinkedIn))
                   (updatePlatformStatus penv "instagram"
                      (get Instagram (syncStatus (worker b)))
                      (Some (has_session env (clock (worker b)) Instagram))
                      (with_displays "none" "block" (dom b))) |},
       [ObsReply (status_reply (syncStatus (worker b)));
        ObsReply (cookies_reply (has_session env (clock (worker b)) Instagram)
                                (has_session env (clock (worker b)) LinkedIn))])
    else ({| worker := worker b; dom := with_displays "block" "none" (dom b) |}, []).
Proof.
  unfold init. rewrite storage_get_token.
  destruct (has_token (worker b)); cbn [negb]; [| reflexivity].
  rewrite sendMessage_status, sendMessage_check.
  rewrite (read_status_reply _ Instagram), (read_status_reply _ LinkedIn).
  rewrite (read_cookies_reply _ _ Instagram), (read_cookies_reply _ _ LinkedIn).
  reflexivity.
Qed.

Lemma updatePlatformStatus_login (penv : PopupEnv) (name : string) (s : SyncStatus)
    (cookies : option bool) (d : Dom) :
  loginSection_display (updatePlatformStatus penv name s cookies d) = loginSection_display d.
Proof.
  unfold updatePlatformStatus.
  destruct (if syncing s then _ else _) as [[[cls text] disabled] btn]. reflexivity.
Qed.

Lemma updatePlatformStatus_main (penv : PopupEnv) (name : string) (s : SyncStatus)
    (cookies : option bool) (d : Dom) :
  mainSection_display (updatePlatformStatus penv name s cookies d) = mainSection_display d.
Proof.
  unfold updatePlatformStatus.
  destruct (if syncing s then _ else _) as [[[cls text] disabled] btn]. reflexivity.
Qed.

Lemma updatePlatformStatus_widgets (penv : PopupEnv) (p : Platform) (s : SyncStatus)
    (cookies : option bool) (d : Dom) :
  widgets (updatePlatformStatus penv (platform_name p) s cookies d)
  = set p (shown penv p s cookies d) (widgets d).
Proof.
  unfold shown, updatePlatformStatus. rewrite elements_of_name.
  destruct (if syncing s then _ else _) as [[[cls text] disabled] btn].
  cbn [widgets]. rewrite get_set_same. reflexivity.
Qed.

(** X22.  Opening the popup: without a token the login section and
    nothing else; with one the main section and, for each platform, the
    widget of the worker's status and of the session credential's
    presence.  The worker is only asked: it stays as it is and sends
    nothing. *)
Theorem init_shows_worker_state (env : Env) (penv : PopupEnv) (b : Browser) :
  let opened := fst (init env penv b) in
  worker opened = worker b
  /\ requests (snd (init env penv b)) = []
  /\ (has_token (worker b) = false ->
      loginSection_display (dom opened) = "block"
      /\ mainSection_display (dom opened) = "none"
      /\ widgets (dom opened) = widgets (dom b)
      /\ snd (init env penv b) = [])
  /\ (has_token (worker b) = true ->
      loginSection_display (dom opened) = "none"
      /\ mainSection_display (dom opened) = "block"
      /\ forall p, get p (widgets (dom opened))
                   = shown penv p (get p (syncStatus (worker b)))
                       (Some (has_session env (clock (worker b)) p)) (dom b)).
Proof.
  cbv zeta. rewrite init_eq. destruct (has_token (worker b)); cbn [fst snd worker].
  - split; [reflexivity |]. split; [reflexivity |]. split; [discriminate |].
    intros _. cbn [dom].
    rewrite !updatePlatformStatus_login, !updatePlatformStatus_main.
    split; [reflexivity |]. split; [reflexivity |].
    intros p.
    rewrite (updatePlatformStatus_widgets penv LinkedIn),
            (updatePlatformStatus_widgets penv Instagram).
    destruct p.
    + rewrite get_set_other by discriminate. rewrite get_set_same. apply shown_any_dom.
    + rewrite get_set_same. apply shown_any_dom.
  - split; [reflexivity |]. split; [reflexivity |]. split; [| discriminate].
    intros _. repeat split; reflexivity.
Qed.

Lemma init_shows_worker_state_witness :
  let opened := fst (init (sample_env true false (sample_created "acc-1"))
                       sample_penv sample_browser) in
  loginSection_display (dom opened) = "none"
  /\ mainSection_display (dom opened) = "block"
  /\ forall p, get p (widgets (dom opened))
               = shown sample_penv p (get p (syncStatus logged_in_world))
                   (Some (has_session (sample_env true false (sample_created "acc-1")) 0 p))
                   sample_dom.
Proof.
  cbv zeta.
  destruct (init_shows_worker_state (sample_env true false (sample_created "acc-1"))
              sample_penv sample_browser) as (_ & _ & _ & H).
  apply H. reflexivity.
Defined.

Lemma sendMessage_logout (env : Env) (w : World) :
  sendMessage env (message_of "LOGOUT") w
  = (Answered (JObj [("success", JBool true)]),
     final (run env (onMessage (message_of "LOGOUT")) w),
     [ObsReply (JObj [("success", JBool true)])]).
Proof. reflexivity. Qed.

(** X23.  The logout button: nothing happens unless the user confirms;
    then the worker forgets the token, the popup shows the login section
    with the widgets as they were, nothing is sent to the backend, and
    opening the popup again shows the login section. *)
Theorem logout_click_confirmed (env : Env) (penv : PopupEnv) (b : Browser) :
  let clicked := fst (onLogoutClick env penv b) in
  (confirm penv = false -> onLogoutClick env penv b = (b, []))
  /\ (confirm penv = true ->
      has_token (worker clicked) = false
      /\ loginSection_display (dom clicked) = "block"
      /\ mainSection_display (dom clicked) = "none"
      /\ widgets (dom clicked) = widgets (dom b)
      /\ requests (snd (onLogoutClick env penv b)) = []
      /\ dom (fst (init env penv clicked)) = dom clicked).
Proof.
  cbv zeta. unfold onLogoutClick. split; intros Hc; rewrite Hc; cbn [negb]; [reflexivity |].
  rewrite sendMessage_logout. cbn [fst snd worker dom].
  assert (Ht : has_token (final (run env (onMessage (message_of "LOGOUT")) (worker b))) = false).
  { unfold has_token, final. cbn -[storage_remove]. rewrite lookup_storage_remove. reflexivity. }
  split; [exact Ht |]. split; [| split; [| split; [| split]]]; try reflexivity.
  rewrite init_eq. cbn [worker]. rewrite Ht. reflexivity.
Qed.

Lemma logout_click_confirmed_witness :
  let clicked := fst (onLogoutClick (sample_env true true (sample_created "acc-1"))
                        sample_penv sample_browser) in
  has_token (worker clicked) = false
  /\ loginSection_display (dom clicked) = "block"
  /\ mainSection_display (dom clicked) = "none"
  /\ widgets (dom clicked) = widgets sample_dom
  /\ requests (snd (onLogoutClick (sample_env true true (sample_created "acc-1"))
                      sample_penv sample_browser)) = []
  /\ dom (fst (init (sample_env true true (sample_created "acc-1")) sample_penv clicked))
     = dom clicked.
Proof.
  cbv zeta.
  apply (proj2 (logout_click_confirmed (sample_env true true (sample_created "acc-1"))
                  sample_penv sample_browser)).
  reflexivity.
Defined.

Lemma sendMessage_token (env : Env) (tok : string) (w : World) :
  sendMessage env {| type := "SET_AUTH_TOKEN"; platform := None; token := tok |} w
  = (Answered (JObj [("success", JBool true)]),
     with_storage (<["auth_token" := tok]> (storage w)) w,
     [ObsReply (JObj [("success", JBool true)])]).
Proof. reflexivity. Qed.

(** X24.  The popup takes a token from any window message whose origin
    has 'dialogbrain.com' or 'localhost' somewhere in it: the token
    replaces the stored one, nothing else in the storage changes, and the
    popup shows the main section if the token is not empty.  Messages of
    other origins or of another type do nothing. *)
Theorem window_message_origin_check (env : Env) (penv : PopupEnv) (event : MessageEvent)
    (b : Browser) :
  let received := fst (onWindowMessage env penv event b) in
  (includes (event_origin event) "dialogbrain.com" = false ->
   includes (event_origin event) "localhost" = false ->
   onWindowMessage env penv event b = (b, []))
  /\ (data_type event <> Some "DIALOGBRAIN_AUTH_TOKEN" ->
      onWindowMessage env penv event b = (b, []))
  /\ (forall pre post,
        event_origin event = pre +:+ "dialogbrain.com" +:+ post
        \/ event_origin event = pre +:+ "localhost" +:+ post ->
        data_type event = Some "DIALOGBRAIN_AUTH_TOKEN" ->
        storage (worker received) !! "auth_token" = Some (data_token event)
        /\ (forall key, key <> "auth_token" ->
              storage (worker received) !! key = storage (worker b) !! key)
        /\ mainSection_display (dom received)
           = (if String.eqb (data_token event) "" then "none" else "block")
        /\ requests (snd (onWindowMessage env penv event b)) = []).
Proof.
  cbv zeta. unfold onWindowMessage. split; [| split].
  - intros H1 H2. rewrite H1, H2. reflexivity.
  - intros Hty. rewrite (strict_eq_false _ _ Hty).
    destruct (negb _ && negb _); reflexivity.
  - intros pre post Ho Hty.
    assert (Hin : negb (includes (event_origin event) "dialogbrain.com")
                  && negb (includes (event_origin event) "localhost") = false).
    { destruct Ho as [-> | ->]; rewrite includes_middle; cbn [negb andb];
        [reflexivity | apply andb_false_r]. }
    rewrite Hin, Hty. cbn [strict_eq]. rewrite String.eqb_refl.
    rewrite sendMessage_token, init_eq. cbn [worker dom].
    set (w1 := with_storage (<["auth_token" := data_token event]> (storage (worker b)))
                 (worker b)).
    assert (Ht : has_token w1 = negb (String.eqb (data_token event) "")).
    { unfold has_token, w1. cbn [storage with_storage]. rewrite lookup_insert_eq. reflexivity. }
    rewrite Ht.
    destruct (String.eqb (data_token event) ""); cbn [negb fst snd worker dom].
    + split; [apply lookup_insert_eq |]. split; [| split; reflexivity].
      intros key Hk. apply lookup_insert_ne. congruence.
    + split; [apply lookup_insert_eq |]. split; [| split; [| reflexivity]].
      * intros key Hk. apply lookup_insert_ne. congruence.
      * rewrite !updatePlatformStatus_main. reflexivity.
Qed.

Lemma window_message_origin_check_witness :
  let env := sample_env true true (sample_created "acc-1") in
  let event := sample_event "https://notdialogbrain.com.example" in
  let received := fst (onWindowMessage env sample_penv event sample_browser) in
  storage (worker received) !! "auth_token" = Some "token-2"
  /\ (forall key, key <> "auth_token" ->
        storage (worker received) !! key = storage logged_in_world !! key)
  /\ mainSection_display (dom received) = "block"
  /\ requests (snd (onWindowMessage env sample_penv event sample_browser)) = [].
Proof.
  cbv zeta.
  destruct (window_message_origin_check (sample_env true true (sample_created "acc-1"))
              sample_penv (sample_event "https://notdialogbrain.com.example")
              sample_browser) as (_ & _ & H).
  apply (H "https://not" ".example"); [left |]; reflexivity.
Defined.

(* ===================================================================== *)
(** ** Sync runs that overlap: the account id                              *)
(* ===================================================================== *)

(** C3.  The account id is not written once only.  Both routines test
    [!storage.<platform>_account_id] on the storage as they read it at
    their start, before their awaits, not on the storage as it is when
    they write.  Two sync runs of a platform that overlap can both have
    read the storage before either writes: here both wait for the cookies
    with no id stored; the first ends and stores the id 'acc-1' of its
    response; the second ends a second later and stores the id 'acc-2' of
    its own response over it.  No LOGOUT is involved. *)
Theorem linkage_overwritten_by_overlapping_sync :
  let started := fst (play sample_env_timed both_started (idle logged_in_world)) in
  let first_done := fst (play sample_env_timed first_ends started) in
  let second_done := fst (play sample_env_timed second_ends first_done) in
  map pending (in_flight started)
  = [Some (any_eff (CookiesGet "https://www.instagram.com" "sessionid"));
     Some (any_eff (CookiesGet "https://www.instagram.com" "sessionid"))]
  /\ storage (now started) !! account_id_key Instagram = None
  /\ map pending (in_flight first_done)
     = [Some (any_eff (CookiesGet "https://www.instagram.com" "sessionid"))]
  /\ storage (now first_done) !! account_id_key Instagram = Some "acc-1"
  /\ in_flight second_done = []
  /\ storage (now second_done) !! account_id_key Instagram = Some "acc-2"
  /\ forallb (fun mv => negb (brings_logout mv)) (both_started ++ first_ends ++ second_ends)
     = true.
Proof. vm_compute. repeat split; reflexivity. Qed.

(** C2.  A sync after a create that stored an id does not always go to
    the refresh endpoint with that id.  The endpoint is chosen from the
    storage as the routine read it at its start.  In the overlap above
    the second run sends its request when 'acc-1' is stored, and sends it
    to the create endpoint; it then stores 'acc-2', so that a sync that
    starts later, with nothing in flight, goes to the refresh endpoint of
    'acc-2', not of 'acc-1'. *)
Theorem stale_read_selects_create_endpoint :
  let started := fst (play sample_env_timed both_started (idle logged_in_world)) in
  let first_done := fst (play sample_env_timed first_ends started) in
  let second := play sample_env_timed second_ends first_done in
  let later := play sample_env_timed later_sync (fst second) in
  map url (requests (snd (play sample_env_timed first_ends started)))
  = [connect_endpoint Instagram]
  /\ storage (now first_done) !! account_id_key Instagram = Some "acc-1"
  /\ map url (requests (snd second)) = [connect_endpoint Instagram]
  /\ in_flight (fst second) = []
  /\ map url (requests (snd later)) = [refresh_endpoint Instagram "acc-2"]
  /\ refresh_endpoint Instagram "acc-2" <> refresh_endpoint Instagram "acc-1".
Proof. vm_compute. repeat split; try reflexivity. discriminate. Qed.
